(** * Boudoir ComfyUI nodes: the widget state store, the lookup clients and
      the dropdown / search front ends

    A shallow embedding of the browser extensions under [src/]:

    - [js/powerLoraWidget.js]  (module [PowerLora])
    - the multi-LoRA trigger widget, [unnamed/part_000] (module [MultiLora])
    - the LoRA folder loader, second half of [js/ollamaEnhancer.js]
      (module [FolderLoader])
    - the prompt search widget, [unnamed/part_001] (module [PromptSearch])

    The host built-ins the code calls ([JSON.parse], [JSON.stringify],
    [parseFloat], [String.prototype.trim], property lookup on an object
    literal, ...) are modelled first, following ECMA-262.  Network requests are
    recorded in a log; the responses come from an environment the theorems
    quantify over. *)

From Stdlib Require Import ZArith NArith List String Ascii Bool Lia.
From Stdlib Require Import Floats.SpecFloat.
From stdpp Require Import base option list gmap.
Import ListNotations.

Set Default Proof Using "Type".
Set Warnings "-register-all".

(* ===================================================================== *)
(** * JavaScript strings *)
(* ===================================================================== *)

(** A JavaScript string is a finite sequence of UTF-16 code units. *)
Abbreviation jsstring := (list N).

(** The string written by an ASCII / Latin-1 source literal. *)
Definition js (s : string) : jsstring :=
  map N_of_ascii (list_ascii_of_string s).

(** [s1 === s2] on strings. *)
Definition str_eqb (a b : jsstring) : bool := bool_decide (a = b).

(** ECMA-262 WhiteSpace and LineTerminator code points, the characters
    [String.prototype.trim] and [parseFloat] strip. *)
Definition is_js_space (c : N) : bool :=
  ((9 <=? c) && (c <=? 13) || (c =? 32) || (c =? 160) || (c =? 5760)
   || (8192 <=? c) && (c <=? 8202) || (c =? 8232) || (c =? 8233)
   || (c =? 8239) || (c =? 8287) || (c =? 12288) || (c =? 65279))%N.

Fixpoint trimStart (s : jsstring) : jsstring :=
  match s with
  | c :: s' => if is_js_space c then trimStart s' else s
  | [] => []
  end.

Definition trimEnd (s : jsstring) : jsstring := rev (trimStart (rev s)).

(** [String.prototype.trim] *)
Definition trim (s : jsstring) : jsstring := trimEnd (trimStart s).

Fixpoint starts_with (p s : jsstring) : bool :=
  match p, s with
  | [], _ => true
  | a :: p', b :: s' => N.eqb a b && starts_with p' s'
  | _ :: _, [] => false
  end.

(** [String.prototype.includes]: [sub] occurs in [s] as a substring. *)
Fixpoint includes (s sub : jsstring) : bool :=
  starts_with sub s ||
  match s with
  | [] => false
  | _ :: s' => includes s' sub
  end.

(** [s.split(sep)] for a one-character separator. *)
Fixpoint split_on (sep : N) (s : jsstring) : list jsstring :=
  match s with
  | [] => [[]]
  | c :: s' =>
      if N.eqb c sep then [] :: split_on sep s'
      else match split_on sep s' with
           | w :: ws => (c :: w) :: ws
           | [] => [[c]]
           end
  end.

(** Truthiness of a string: the empty string is the only falsy one. *)
Definition str_truthy (s : jsstring) : bool :=
  match s with [] => false | _ => true end.

(* ===================================================================== *)
(** * JavaScript numbers *)
(* ===================================================================== *)

(** Number values are IEEE 754 binary64 values: zeros, infinities, NaN and
    the finite [m * 2^e], which the functions below expect and keep in
    canonical form ([valid_binary prec emax]). *)
Module Number.

Definition number := spec_float.
Definition prec : Z := 53.
Definition emax : Z := 1024.

Definition NaN : number := S754_nan.
Definition one : number := S754_finite false 4503599627370496 (-52).

(** SameValue on numbers. *)
Definition eqb (a b : number) : bool :=
  match a, b with
  | S754_zero s, S754_zero t => Bool.eqb s t
  | S754_infinity s, S754_infinity t => Bool.eqb s t
  | S754_nan, S754_nan => true
  | S754_finite s m e, S754_finite t m' e' =>
      Bool.eqb s t && Pos.eqb m m' && Z.eqb e e'
  | _, _ => false
  end.

Definition is_finite (x : number) : bool :=
  match x with
  | S754_zero _ | S754_finite _ _ _ => true
  | _ => false
  end.

Definition is_zero (x : number) : bool :=
  match x with S754_zero _ => true | _ => false end.

Definition is_nan (x : number) : bool :=
  match x with S754_nan => true | _ => false end.

(** ToBoolean: [NaN], [+0] and [-0] are falsy. *)
Definition truthy (x : number) : bool := negb (is_zero x || is_nan x).

(** The Number value of the decimal [d * 10^x] ([d >= 0]), rounded to
    nearest, ties to even. *)
Definition of_decimal (neg : bool) (d x : Z) : number :=
  if (d <=? 0)%Z then S754_zero neg
  else if (0 <=? x)%Z then
    binary_round prec emax neg (Z.to_pos (d * 10 ^ x)) 0
  else
    let '(q, e, l) := SFdiv_core_binary prec emax d 0 (10 ^ (- x)) 0 in
    binary_round_aux prec emax neg q e l.

(** ** Decimal digits *)

Fixpoint uint_codes (u : Decimal.uint) : jsstring :=
  match u with
  | Decimal.Nil => []
  | Decimal.D0 u => 48%N :: uint_codes u
  | Decimal.D1 u => 49%N :: uint_codes u
  | Decimal.D2 u => 50%N :: uint_codes u
  | Decimal.D3 u => 51%N :: uint_codes u
  | Decimal.D4 u => 52%N :: uint_codes u
  | Decimal.D5 u => 53%N :: uint_codes u
  | Decimal.D6 u => 54%N :: uint_codes u
  | Decimal.D7 u => 55%N :: uint_codes u
  | Decimal.D8 u => 56%N :: uint_codes u
  | Decimal.D9 u => 57%N :: uint_codes u
  end.

(** The decimal representation of a non-negative integer. *)
Definition decimal_digits (z : Z) : jsstring :=
  uint_codes (N.to_uint (Z.to_N z)).

Definition is_digit (c : N) : bool := ((48 <=? c) && (c <=? 57))%N.

Definition digit_value (c : N) : Z := Z.of_N c - 48.

(** The integer written by a digit string (0 for the empty string). *)
Definition digits_value (ds : jsstring) : Z :=
  fold_left (fun acc c => (acc * 10 + digit_value c)%Z) ds 0%Z.

(** ** Number::toString (radix 10) *)

(** [magnitude10 num den] is the [n] with [10^(n-1) <= num/den < 10^n]. *)
Fixpoint below_one (fuel : nat) (num den : Z) (j : Z) : Z :=
  match fuel with
  | O => j
  | S f => if (den <=? num * 10 ^ j)%Z then j else below_one f num den (j + 1)
  end.

Definition magnitude10 (num den : Z) : Z :=
  if (den <=? num)%Z then Z.of_nat (length (decimal_digits (num / den)))
  else 1 - below_one 400 num den 1.

(** floor of [(num/den) / 10^p] *)
Definition scaled_floor (num den p : Z) : Z :=
  if (0 <=? p)%Z then num / (den * 10 ^ p) else (num * 10 ^ (- p)) / den.

(** Which of [lo * 10^p] and [(lo+1) * 10^p] is nearer to [num/den]. *)
Definition nearer (num den p lo : Z) : Z :=
  let c := if (0 <=? p)%Z
           then (2 * num ?= (2 * lo + 1) * 10 ^ p * den)%Z
           else (2 * num * 10 ^ (- p) ?= (2 * lo + 1) * den)%Z in
  match c with
  | Lt => lo
  | Gt => lo + 1
  | Eq => if Z.even lo then lo else lo + 1
  end.

(** The shortest digit string [s] (with [k] digits) and the exponent [n]
    such that [s * 10^(n-k)] has Number value [x]; of several candidates
    the one nearest to [x].  Seventeen digits always suffice for a binary64
    value; the loop ends there with the nearest candidate. *)
Fixpoint shortest (fuel : nat) (x : number) (num den n0 k : Z) : Z * Z :=
  let p := (n0 - k)%Z in
  let lo := scaled_floor num den p in
  let hi := (lo + 1)%Z in
  let norm s := if (s =? 10 ^ k)%Z then (10 ^ (k - 1), n0 + 1)%Z else (s, n0) in
  let ok_lo := eqb (of_decimal false lo p) x in
  let ok_hi := eqb (of_decimal false hi p) x in
  match fuel with
  | O => norm (nearer num den p lo)
  | S f =>
      if ok_lo && ok_hi then norm (nearer num den p lo)
      else if ok_lo then (lo, n0)
      else if ok_hi then norm hi
      else shortest f x num den n0 (k + 1)
  end.

Definition zeros (n : Z) : jsstring := repeat 48%N (Z.to_nat n).

Definition format_decimal (ds : jsstring) (n : Z) : jsstring :=
  let k := Z.of_nat (length ds) in
  if ((k <=? n) && (n <=? 21))%Z then ds ++ zeros (n - k)
  else if ((0 <? n) && (n <=? 21))%Z then
    take (Z.to_nat n) ds ++ js "." ++ drop (Z.to_nat n) ds
  else if ((-6 <? n) && (n <=? 0))%Z then
    js "0." ++ zeros (- n) ++ ds
  else
    let e := (n - 1)%Z in
    let sign := if (e <? 0)%Z then js "-" else js "+" in
    match ds with
    | [d] => [d] ++ js "e" ++ sign ++ decimal_digits (Z.abs e)
    | d :: ds' => [d] ++ js "." ++ ds' ++ js "e" ++ sign ++ decimal_digits (Z.abs e)
    | [] => []
    end.

Definition toString (x : number) : jsstring :=
  match x with
  | S754_nan => js "NaN"
  | S754_zero _ => js "0"
  | S754_infinity s => (if s then js "-" else []) ++ js "Infinity"
  | S754_finite s m e =>
      let num := if (0 <=? e)%Z then (Z.pos m * 2 ^ e)%Z else Z.pos m in
      let den := if (0 <=? e)%Z then 1%Z else (2 ^ (- e))%Z in
      let n0 := magnitude10 num den in
      let '(sd, n) := shortest 16 (S754_finite false m e) num den n0 1 in
      (if s then js "-" else []) ++ format_decimal (decimal_digits sd) n
  end.

End Number.
Export Number(number).

(* ===================================================================== *)
(** * Exceptions and the console *)
(* ===================================================================== *)

Inductive Exn :=
  | SyntaxError      (* JSON.parse / response.json() on malformed text *)
  | TypeError        (* property read on null, call of a non-function *)
  | URIError         (* encodeURIComponent on a lone surrogate *)
  | FetchError.      (* a rejected fetch promise *)

(** The result of evaluating an expression or a call: a value, or an
    exception propagating to the caller. *)
Inductive outcome (A : Type) :=
  | Returned (a : A)
  | Threw (e : Exn).
Arguments Returned {A} a.
Arguments Threw {A} e.

(** One [console.log] / [console.error] call: the message and the error
    object passed along with it. *)
Definition LogEntry : Type := jsstring * Exn.

(* ===================================================================== *)
(** * JSON *)
(* ===================================================================== *)

(** The values [JSON.parse] can produce.  An object is the sequence of its
    own properties in enumeration order. *)
Inductive Json :=
  | JNull
  | JBool (b : bool)
  | JNum (n : number)
  | JStr (s : jsstring)
  | JArr (items : list Json)
  | JObj (props : list (jsstring * Json)).

(** ToBoolean *)
Definition json_truthy (v : Json) : bool :=
  match v with
  | JNull => false
  | JBool b => b
  | JNum n => Number.truthy n
  | JStr s => str_truthy s
  | JArr _ | JObj _ => true
  end.

(** A property read [v.k] yields a value or [undefined] ([None]); reading
    a property of [null] throws.  Only own data properties are modelled: the
    properties the code reads ([lora], [on], [strength], [trigger_word],
    [loras], [success], [prompts]) are not defined on any prototype. *)
Fixpoint assoc_get (props : list (jsstring * Json)) (k : jsstring) : option Json :=
  match props with
  | [] => None
  | (k', v) :: ps => if str_eqb k' k then Some v else assoc_get ps k
  end.

Definition get_prop (v : Json) (k : jsstring) : outcome (option Json) :=
  match v with
  | JNull => Threw TypeError
  | JObj props => Returned (assoc_get props k)
  | _ => Returned None
  end.

(** [v === "lit"] for a string literal. *)
Definition is_str (v : Json) (lit : jsstring) : bool :=
  match v with
  | JStr s => str_eqb s lit
  | _ => false
  end.

(** ToBoolean of a possibly [undefined] value. *)
Definition opt_truthy (v : option Json) : bool :=
  match v with Some j => json_truthy j | None => false end.

(** Code units that occur below: 34 quotation mark, 44 comma, 45 minus,
    46 full stop, 48 to 57 the digits, 58 colon, 69 and 101 the letter E,
    91 and 93 square brackets, 92 reverse solidus, 117 the letter u,
    123 and 125 curly brackets. *)
Module JSON.

(** ** JSON.stringify *)

Definition hex_digit (d : N) : N :=
  (if d <? 10 then 48 + d else 87 + d)%N.

(** [\uXXXX] with four lowercase hexadecimal digits *)
Definition unicode_escape (c : N) : jsstring :=
  [92; 117; hex_digit (c / 4096 mod 16); hex_digit (c / 256 mod 16);
   hex_digit (c / 16 mod 16); hex_digit (c mod 16)]%N.

Definition is_lead (c : N) : bool := ((55296 <=? c) && (c <=? 56319))%N.
Definition is_trail (c : N) : bool := ((56320 <=? c) && (c <=? 57343))%N.

(** The escape of one code unit that is not a surrogate. *)
Definition escape (c : N) : jsstring :=
  if (c =? 8)%N then js "\b"
  else if (c =? 9)%N then js "\t"
  else if (c =? 10)%N then js "\n"
  else if (c =? 12)%N then js "\f"
  else if (c =? 13)%N then js "\r"
  else if (c =? 34)%N then [92; 34]%N
  else if (c =? 92)%N then [92; 92]%N
  else if (c <? 32)%N then unicode_escape c
  else [c].

(** QuoteJSONString, without the enclosing quotes: a surrogate pair is
    copied, a lone surrogate is escaped. *)
Fixpoint quote_body (s : jsstring) : jsstring :=
  match s with
  | [] => []
  | c :: s' =>
      if is_lead c then
        match s' with
        | d :: s'' =>
            if is_trail d then c :: d :: quote_body s''
            else unicode_escape c ++ quote_body s'
        | [] => unicode_escape c
        end
      else if is_trail c then unicode_escape c ++ quote_body s'
      else escape c ++ quote_body s'
  end.

Definition quote (s : jsstring) : jsstring := [34%N] ++ quote_body s ++ [34%N].

Fixpoint join (sep : jsstring) (parts : list jsstring) : jsstring :=
  match parts with
  | [] => []
  | [p] => p
  | p :: ps => p ++ sep ++ join sep ps
  end.

(** SerializeJSONProperty, no replacer and no indentation. *)
Fixpoint stringify (v : Json) : jsstring :=
  match v with
  | JNull => js "null"
  | JBool true => js "true"
  | JBool false => js "false"
  | JNum n => if Number.is_finite n then Number.toString n else js "null"
  | JStr s => quote s
  | JArr items => js "[" ++ join (js ",") (map stringify items) ++ js "]"
  | JObj props =>
      js "{" ++
      join (js ",") (map (fun kv => quote (fst kv) ++ js ":" ++ stringify (snd kv)) props)
      ++ js "}"
  end.

(** ** JSON.parse *)

Definition is_ws (c : N) : bool :=
  ((c =? 9) || (c =? 10) || (c =? 13) || (c =? 32))%N.

Fixpoint skip_ws (s : jsstring) : jsstring :=
  match s with
  | c :: s' => if is_ws c then skip_ws s' else s
  | [] => []
  end.

Definition hex_value (c : N) : option N :=
  (if (48 <=? c) && (c <=? 57) then Some (c - 48)
   else if (97 <=? c) && (c <=? 102) then Some (c - 87)
   else if (65 <=? c) && (c <=? 70) then Some (c - 55)
   else None)%N.

Definition hex4 (a b c d : N) : option N :=
  match hex_value a, hex_value b, hex_value c, hex_value d with
  | Some x, Some y, Some z, Some w => Some (((x * 16 + y) * 16 + z) * 16 + w)%N
  | _, _, _, _ => None
  end.

Definition simple_escape (e : N) : option N :=
  (if e =? 34 then Some 34          (* quotation mark *)
   else if e =? 92 then Some 92     (* reverse solidus *)
   else if e =? 47 then Some 47     (* solidus *)
   else if e =? 98 then Some 8      (* b: backspace *)
   else if e =? 102 then Some 12    (* f: form feed *)
   else if e =? 110 then Some 10    (* n: line feed *)
   else if e =? 114 then Some 13    (* r: carriage return *)
   else if e =? 116 then Some 9     (* t: tab *)
   else None)%N.

(** The characters of a string literal after its opening quote, up to
    and including the closing quote. *)
Fixpoint parse_string_body (s : jsstring) : option (jsstring * jsstring) :=
  match s with
  | [] => None
  | c :: s' =>
      if (c =? 34)%N then Some ([], s')
      else if (c =? 92)%N then
        match s' with
        | [] => None
        | e :: s'' =>
            if (e =? 117)%N then
              match s'' with
              | h1 :: h2 :: h3 :: h4 :: s3 =>
                  match hex4 h1 h2 h3 h4 with
                  | Some u =>
                      match parse_string_body s3 with
                      | Some (r, rest) => Some (u :: r, rest)
                      | None => None
                      end
                  | None => None
                  end
              | _ => None
              end
            else
              match simple_escape e with
              | Some u =>
                  match parse_string_body s'' with
                  | Some (r, rest) => Some (u :: r, rest)
                  | None => None
                  end
              | None => None
              end
        end
      else if (c <? 32)%N then None
      else
        match parse_string_body s' with
        | Some (r, rest) => Some (c :: r, rest)
        | None => None
        end
  end.

Fixpoint span_digits (s : jsstring) : jsstring * jsstring :=
  match s with
  | c :: s' =>
      if Number.is_digit c then
        let '(ds, r) := span_digits s' in (c :: ds, r)
      else ([], s)
  | [] => ([], [])
  end.

(** The integer part of a number: [0], or a non-zero digit followed by
    digits. *)
Definition parse_int_part (s : jsstring) : option (jsstring * jsstring) :=
  match s with
  | c :: s' =>
      if (c =? 48)%N then Some ([c], s')
      else if Number.is_digit c then Some (span_digits s)
      else None
  | [] => None
  end.

Definition parse_frac_part (s : jsstring) : option (jsstring * jsstring) :=
  match s with
  | c :: s' =>
      if (c =? 46)%N then
        match span_digits s' with
        | ([], _) => None
        | (fs, r) => Some (fs, r)
        end
      else Some ([], s)
  | [] => Some ([], [])
  end.

Definition parse_exp_part (s : jsstring) : option (Z * jsstring) :=
  match s with
  | c :: s' =>
      if ((c =? 101) || (c =? 69))%N then
        let '(neg, s1) :=
          match s' with
          | d :: s'' =>
              if (d =? 45)%N then (true, s'')
              else if (d =? 43)%N then (false, s'')
              else (false, s')
          | [] => (false, s')
          end in
        match span_digits s1 with
        | ([], _) => None
        | (es, r) =>
            Some ((if neg then - Number.digits_value es else Number.digits_value es)%Z, r)
        end
      else Some (0%Z, s)
  | [] => Some (0%Z, [])
  end.

(** A JSON number and its Number value. *)
Definition parse_number (s : jsstring) : option (number * jsstring) :=
  let '(neg, s1) :=
    match s with
    | c :: s' => if (c =? 45)%N then (true, s') else (false, s)
    | [] => (false, s)
    end in
  match parse_int_part s1 with
  | None => None
  | Some (ds, s2) =>
      match parse_frac_part s2 with
      | None => None
      | Some (fs, s3) =>
          match parse_exp_part s3 with
          | None => None
          | Some (e, s4) =>
              Some (Number.of_decimal neg (Number.digits_value (ds ++ fs))
                      (e - Z.of_nat (length fs)), s4)
          end
      end
  end.

(** ** Objects built by the parser *)

(** An array index: the canonical decimal form of an integer below
    [2^32 - 1].  Such keys are enumerated first, in ascending order. *)
Definition array_index (k : jsstring) : option Z :=
  match k with
  | [] => None
  | c :: k' =>
      if forallb Number.is_digit k && ((negb (c =? 48)%N) || bool_decide (k' = [])) then
        let v := Number.digits_value k in
        if (v <? 4294967295)%Z then Some v else None
      else None
  end.

Fixpoint assoc_replace (props : list (jsstring * Json)) (k : jsstring) (v : Json)
  : list (jsstring * Json) :=
  match props with
  | [] => []
  | (k', v') :: ps =>
      if str_eqb k' k then (k', v) :: ps else (k', v') :: assoc_replace ps k v
  end.

(** Insert an index key before the first key that is not a smaller
    index. *)
Fixpoint insert_index (props : list (jsstring * Json)) (i : Z) (k : jsstring) (v : Json)
  : list (jsstring * Json) :=
  match props with
  | [] => [(k, v)]
  | (k', v') :: ps =>
      match array_index k' with
      | Some j => if (j <? i)%Z then (k', v') :: insert_index ps i k v
                  else (k, v) :: props
      | None => (k, v) :: props
      end
  end.

(** CreateDataProperty on an ordinary object. *)
Definition define_prop (props : list (jsstring * Json)) (k : jsstring) (v : Json)
  : list (jsstring * Json) :=
  match assoc_get props k with
  | Some _ => assoc_replace props k v
  | None =>
      match array_index k with
      | Some i => insert_index props i k v
      | None => props ++ [(k, v)]
      end
  end.

Definition build_object (members : list (jsstring * Json)) : Json :=
  JObj (fold_left (fun o kv => define_prop o (fst kv) (snd kv)) members []).

(** ** The recursive-descent parser *)

Definition starts (lit : jsstring) (s : jsstring) : option jsstring :=
  if starts_with lit s then Some (drop (length lit) s) else None.

(** Every call consumes a unit of fuel and at least one character, so
    [S (length s)] units are enough for any text [s]. *)
Fixpoint parse_value (fuel : nat) (s : jsstring) : option (Json * jsstring) :=
  match fuel with
  | O => None
  | S f =>
      match skip_ws s with
      | [] => None
      | c :: s' =>
          if (c =? 34)%N then
            match parse_string_body s' with
            | Some (str, r) => Some (JStr str, r)
            | None => None
            end
          else if (c =? 91)%N then                         (* [ *)
            match skip_ws s' with
            | d :: r => if (d =? 93)%N then Some (JArr [], r)
                        else match parse_elements f s' with
                             | Some (vs, r') => Some (JArr vs, r')
                             | None => None
                             end
            | [] => None
            end
          else if (c =? 123)%N then                        (* { *)
            match skip_ws s' with
            | d :: r => if (d =? 125)%N then Some (JObj [], r)
                        else match parse_members f s' with
                             | Some (ms, r') => Some (build_object ms, r')
                             | None => None
                             end
            | [] => None
            end
          else if (c =? 110)%N then
            match starts (js "null") (c :: s') with
            | Some r => Some (JNull, r) | None => None end
          else if (c =? 116)%N then
            match starts (js "true") (c :: s') with
            | Some r => Some (JBool true, r) | None => None end
          else if (c =? 102)%N then
            match starts (js "false") (c :: s') with
            | Some r => Some (JBool false, r) | None => None end
          else
            match parse_number (c :: s') with
            | Some (n, r) => Some (JNum n, r)
            | None => None
            end
      end
  end
with parse_elements (fuel : nat) (s : jsstring) : option (list Json * jsstring) :=
  match fuel with
  | O => None
  | S f =>
      match parse_value f s with
      | None => None
      | Some (v, r) =>
          match skip_ws r with
          | d :: r' =>
              if (d =? 44)%N then
                match parse_elements f r' with
                | Some (vs, r'') => Some (v :: vs, r'')
                | None => None
                end
              else if (d =? 93)%N then Some ([v], r')
              else None
          | [] => None
          end
      end
  end
with parse_members (fuel : nat) (s : jsstring)
  : option (list (jsstring * Json) * jsstring) :=
  match fuel with
  | O => None
  | S f =>
      match skip_ws s with
      | q :: s1 =>
          if (q =? 34)%N then
            match parse_string_body s1 with
            | None => None
            | Some (k, s2) =>
                match skip_ws s2 with
                | col :: s3 =>
                    if (col =? 58)%N then
                      match parse_value f s3 with
                      | None => None
                      | Some (v, r) =>
                          match skip_ws r with
                          | d :: r' =>
                              if (d =? 44)%N then
                                match parse_members f r' with
                                | Some (ms, r'') => Some ((k, v) :: ms, r'')
                                | None => None
                                end
                              else if (d =? 125)%N then Some ([(k, v)], r')
                              else None
                          | [] => None
                          end
                      end
                    else None
                | [] => None
                end
            end
          else None
      | [] => None
      end
  end.

(** [JSON.parse(text)]: one value, surrounded by optional white space. *)
Definition parse (text : jsstring) : outcome Json :=
  match parse_value (S (length text)) text with
  | Some (v, r) =>
      match skip_ws r with
      | [] => Returned v
      | _ :: _ => Threw SyntaxError
      end
  | None => Threw SyntaxError
  end.

End JSON.

(** ToString of a parsed JSON value, as used when the value is a property
    key.  An object with an own [toString] property (never callable in parsed
    JSON) has no primitive value: TypeError. *)
Fixpoint ToString (v : Json) : outcome jsstring :=
  match v with
  | JNull => Returned (js "null")
  | JBool true => Returned (js "true")
  | JBool false => Returned (js "false")
  | JNum n => Returned (Number.toString n)
  | JStr s => Returned s
  | JArr items =>
      (fix go (l : list Json) : outcome jsstring :=
         match l with
         | [] => Returned []
         | x :: l' =>
             match (match x with JNull => Returned [] | _ => ToString x end) with
             | Threw e => Threw e
             | Returned sx =>
                 match l' with
                 | [] => Returned sx
                 | _ :: _ =>
                     match go l' with
                     | Threw e => Threw e
                     | Returned sl => Returned (sx ++ js "," ++ sl)
                     end
                 end
             end
         end) items
  | JObj props =>
      match assoc_get props (js "toString") with
      | Some _ => Threw TypeError
      | None => Returned (js "[object Object]")
      end
  end.

(* ===================================================================== *)
(** * Objects used as caches *)
(* ===================================================================== *)

(** [const cache = {}]: an ordinary object.  A lookup [cache[k]] finds an
    own property or, failing that, a property of [Object.prototype]. *)
Module PlainObject.

Definition prototype_names : list jsstring :=
  map js ["constructor"; "__defineGetter__"; "__defineSetter__";
          "hasOwnProperty"; "__lookupGetter__"; "__lookupSetter__";
          "isPrototypeOf"; "propertyIsEnumerable"; "toString"; "valueOf";
          "__proto__"; "toLocaleString"]%string.

(** What a lookup yields when it is not [undefined]: the own value, or
    the inherited member (a function, or for [__proto__] the prototype
    object itself: truthy, and not a string). *)
Inductive slot (V : Type) :=
  | Own (v : V)
  | Inherited (name : jsstring).
Arguments Own {V} v.
Arguments Inherited {V} name.

Definition get {V} (o : gmap jsstring V) (k : jsstring) : option (slot V) :=
  match o !! k with
  | Some v => Some (Own v)
  | None => if bool_decide (k ∈ prototype_names) then Some (Inherited k) else None
  end.

(** [o[k] = v] for a primitive [v].  Assigning a primitive to [__proto__]
    runs the inherited setter, which ignores it. *)
Definition set {V} (o : gmap jsstring V) (k : jsstring) (v : V) : gmap jsstring V :=
  if bool_decide (k = js "__proto__") then o else <[k := v]> o.

(** ToBoolean of a lookup result, given the truthiness of own values. *)
Definition truthy {V} (t : V -> bool) (r : option (slot V)) : bool :=
  match r with
  | Some (Own v) => t v
  | Some (Inherited _) => true
  | None => false
  end.

End PlainObject.
Export PlainObject(slot, Own, Inherited).

(* ===================================================================== *)
(** * The network *)
(* ===================================================================== *)

Inductive Request :=
  (** [POST /boudoir/lora-trigger] with the given body *)
  | LoraTrigger (body : jsstring)
  (** [GET /boudoir/loras-in-folder?folder=<folder>] *)
  | LorasInFolder (folder : jsstring)
  (** [GET /boudoir/prompt-search?q=..&limit=..[&category=..]] *)
  | PromptSearch (q limit : jsstring) (category : option jsstring).

(** A response: its [ok] flag and what [response.json()] settles to. *)
Record Response := { ok : bool; json : outcome Json }.

(** How a [fetch] promise settles. *)
Inductive FetchResult :=
  | Rejected
  | Resolved (r : Response).

(** The environment: the answer to the [i]-th request issued. *)
Definition Network := nat -> Request -> FetchResult.

(* ===================================================================== *)
(** * State and exceptions *)
(* ===================================================================== *)

(** Computations over a state [S] that return or throw; the state changes
    made before a throw persist. *)
Definition M (S A : Type) : Type := S -> outcome A * S.

Definition ret {S A} (a : A) : M S A := fun s => (Returned a, s).

Definition bind {S A B} (m : M S A) (k : A -> M S B) : M S B :=
  fun s =>
    match m s with
    | (Returned a, s') => k a s'
    | (Threw e, s') => (Threw e, s')
    end.

Definition throw {S A} (e : Exn) : M S A := fun s => (Threw e, s).

Definition modify {S} (f : S -> S) : M S unit := fun s => (Returned tt, f s).

Definition gets {S A} (f : S -> A) : M S A := fun s => (Returned (f s), s).

(** An expression that may throw, evaluated in a computation. *)
Definition lift {S A} (o : outcome A) : M S A := fun s => (o, s).

(** [try { m } catch (e) { h e }] *)
Definition try_catch {S A} (m : M S A) (h : Exn -> M S A) : M S A :=
  fun s =>
    match m s with
    | (Returned a, s') => (Returned a, s')
    | (Threw e, s') => h e s'
    end.

#[global] Instance M_ret {S} : MRet (M S) := fun A a => ret a.
#[global] Instance M_bind {S} : MBind (M S) := fun A B k m => bind m k.

(* ===================================================================== *)
(** * parseFloat *)
(* ===================================================================== *)

(** [parseFloat(s)]: leading white space is dropped, then the longest
    prefix that is a StrDecimalLiteral is converted; [NaN] when there is
    none. *)
Definition parseFloat (s : jsstring) : number :=
  let s0 := trimStart s in
  let '(neg, s1) :=
    match s0 with
    | c :: s' => if (c =? 45)%N then (true, s')
                 else if (c =? 43)%N then (false, s') else (false, s0)
    | [] => (false, s0)
    end in
  if starts_with (js "Infinity") s1 then S754_infinity neg
  else
    let '(ip, r1) := JSON.span_digits s1 in
    let '(fp, r2) :=
      match r1 with
      | c :: r => if (c =? 46)%N then JSON.span_digits r else ([], r1)
      | [] => ([], r1)
      end in
    match ip ++ fp with
    | [] => Number.NaN
    | ds =>
        let e :=
          match r2 with
          | c :: r =>
              if ((c =? 101) || (c =? 69))%N then
                let '(eneg, r') :=
                  match r with
                  | d :: r'' => if (d =? 45)%N then (true, r'')
                                else if (d =? 43)%N then (false, r'') else (false, r)
                  | [] => (false, r)
                  end in
                match JSON.span_digits r' with
                | ([], _) => 0%Z
                | (es, _) => if eneg then (- Number.digits_value es)%Z
                             else Number.digits_value es
                end
              else 0%Z
          | [] => 0%Z
          end in
        Number.of_decimal neg (Number.digits_value ds) (e - Z.of_nat (length fp))
    end.

(* ===================================================================== *)
(** * js/powerLoraWidget.js *)
(* ===================================================================== *)

Module PowerLora.

(** A widget of the node: its name and its value ([None]: no value). *)
Record Widget := { name : jsstring; value : option jsstring }.

(** The trigger badge of a rendered row: [textContent] and whether
    [style.display] is ["none"]. *)
Record Badge := { textContent : slot jsstring; hidden : bool }.

Record Node := {
  widgets : option (list Widget);          (* node.widgets, may be missing *)
  loraRows : Json;                         (* node.loraRows *)
  loraList : list jsstring;                (* node.loraList *)
  triggerDisplays : gmap nat (slot jsstring);  (* node.triggerDisplays *)
  height : option Z;                       (* node.size[1]; None: NaN *)
  graph : bool;                            (* node.graph is set *)
  dirty : nat                              (* setDirtyCanvas calls so far *)
}.

(** The rest of the page, as [document.getElementById] sees it: the
    elements outside this node's container whose id is [trigger-i] for some
    [i] (the badges of other nodes of this kind), each with its [i], in
    document order; those that come before this node's rows and those that
    come after them. *)
Record Page := {
  ahead : list (nat * Badge);
  behind : list (nat * Badge)
}.

(** The node together with the module-level cache, the rendered rows of
    the node's container (in the document), the requests issued so far, the
    suspended [fetchTriggerWord] calls, the console and the rest of the
    page. *)
Record State := {
  node : Node;
  triggerCache : gmap jsstring jsstring;
  badges : list Badge;
  requests : list Request;
  pending : list (nat * Json);
  console : list LogEntry;
  page : Page
}.

Definition with_node (f : Node -> Node) (st : State) : State :=
  {| node := f (node st); triggerCache := triggerCache st; badges := badges st;
     requests := requests st; pending := pending st; console := console st;
     page := page st |}.
Definition with_triggerCache (f : gmap jsstring jsstring -> gmap jsstring jsstring)
    (st : State) : State :=
  {| node := node st; triggerCache := f (triggerCache st); badges := badges st;
     requests := requests st; pending := pending st; console := console st;
     page := page st |}.
Definition with_badges (f : list Badge -> list Badge) (st : State) : State :=
  {| node := node st; triggerCache := triggerCache st; badges := f (badges st);
     requests := requests st; pending := pending st; console := console st;
     page := page st |}.
Definition with_requests (f : list Request -> list Request) (st : State) : State :=
  {| node := node st; triggerCache := triggerCache st; badges := badges st;
     requests := f (requests st); pending := pending st; console := console st;
     page := page st |}.
Definition with_pending (f : list (nat * Json) -> list (nat * Json)) (st : State) : State :=
  {| node := node st; triggerCache := triggerCache st; badges := badges st;
     requests := requests st; pending := f (pending st); console := console st;
     page := page st |}.
Definition with_console (f : list LogEntry -> list LogEntry) (st : State) : State :=
  {| node := node st; triggerCache := triggerCache st; badges := badges st;
     requests := requests st; pending := pending st; console := f (console st);
     page := page st |}.
Definition with_page (f : Page -> Page) (st : State) : State :=
  {| node := node st; triggerCache := triggerCache st; badges := badges st;
     requests := requests st; pending := pending st; console := console st;
     page := f (page st) |}.

Definition set_widgets (ws : option (list Widget)) (n : Node) : Node :=
  {| widgets := ws; loraRows := loraRows n; loraList := loraList n;
     triggerDisplays := triggerDisplays n; height := height n;
     graph := graph n; dirty := dirty n |}.
Definition set_loraRows (v : Json) (n : Node) : Node :=
  {| widgets := widgets n; loraRows := v; loraList := loraList n;
     triggerDisplays := triggerDisplays n; height := height n;
     graph := graph n; dirty := dirty n |}.
Definition set_triggerDisplays (d : gmap nat (slot jsstring)) (n : Node) : Node :=
  {| widgets := widgets n; loraRows := loraRows n; loraList := loraList n;
     triggerDisplays := d; height := height n;
     graph := graph n; dirty := dirty n |}.
Definition set_height (h : option Z) (n : Node) : Node :=
  {| widgets := widgets n; loraRows := loraRows n; loraList := loraList n;
     triggerDisplays := triggerDisplays n; height := h;
     graph := graph n; dirty := dirty n |}.
Definition set_dirty (d : nat) (n : Node) : Node :=
  {| widgets := widgets n; loraRows := loraRows n; loraList := loraList n;
     triggerDisplays := triggerDisplays n; height := height n;
     graph := graph n; dirty := d |}.

(** [console.log(msg, e)] *)
Definition console_log (msg : jsstring) (e : Exn) : M State unit :=
  modify (with_console (fun c => c ++ [(msg, e)])).

(** [if (node.graph) node.graph.setDirtyCanvas(true, true)] *)
Definition setDirtyCanvas : M State unit :=
  modify (with_node (fun n => if graph n then set_dirty (S (dirty n)) n else n)).

(** [node.widgets?.find(w => w.name === n)] *)
Definition find_widget (n : jsstring) (ws : option (list Widget)) : option Widget :=
  match ws with
  | Some l => List.find (fun w => str_eqb (name w) n) l
  | None => None
  end.

(** [widget?.value] as a truthy string, if it is one. *)
Definition widget_text (w : option Widget) : option jsstring :=
  match w with
  | Some {| value := Some text |} => if str_truthy text then Some text else None
  | _ => None
  end.

Definition parseLoraData : M State unit :=
  widget ← gets (fun st => find_widget (js "lora_data") (widgets (node st)));
  match widget_text widget with
  | None => modify (with_node (set_loraRows (JArr [])))
  | Some text =>
      if str_eqb text (js "[]") then modify (with_node (set_loraRows (JArr [])))
      else
        try_catch
          (v ← lift (JSON.parse text);
           modify (with_node (set_loraRows v)))
          (fun e =>
             console_log (js "[PowerLoRA] Error parsing lora_data:") e;;
             modify (with_node (set_loraRows (JArr []))))
  end.

(** [widget.value = v] on the first widget called [n]. *)
Fixpoint set_widget_value (n v : jsstring) (ws : list Widget) : list Widget :=
  match ws with
  | [] => []
  | w :: ws' =>
      if str_eqb (name w) n then {| name := name w; value := Some v |} :: ws'
      else w :: set_widget_value n v ws'
  end.

Definition syncToWidget : M State unit :=
  modify (with_node (fun n =>
    match widgets n with
    | Some ws =>
        set_widgets (Some (set_widget_value (js "lora_data") (JSON.stringify (loraRows n)) ws)) n
    | None => n
    end));;
  setDirtyCanvas.

(** [updateNodeSize].  Both handlers reach it after [renderRows] has
    returned, that is with an array; of the other shapes of [node.loraRows], a
    [length] property of an object is not followed. *)
Definition updateNodeSize : M State unit :=
  rows ← gets (fun st => loraRows (node st));
  rowCount ← match rows with
             | JArr items => mret (Some (Z.of_nat (length items)))
             | JStr s => mret (Some (Z.of_nat (length s)))
             | JNull => throw TypeError
             | _ => mret None
             end;
  modify (with_node (set_height
    (match rowCount with
     | Some c => Some (Z.max (100 + c * 36) 120)
     | None => None
     end)));;
  setDirtyCanvas.

(** An element with the id [trigger-index] is among [els]. *)
Definition has_id (index : nat) (els : list (nat * Badge)) : bool :=
  existsb (fun el => Nat.eqb (fst el) index) els.

(** The first element of [els] with the id [trigger-index] becomes [b]. *)
Fixpoint set_first (index : nat) (b : Badge) (els : list (nat * Badge))
  : list (nat * Badge) :=
  match els with
  | [] => []
  | (i, old) :: rest =>
      if Nat.eqb i index then (i, b) :: rest else (i, old) :: set_first index b rest
  end.

(** [updateTriggerDisplay(index, trigger)].  The element is looked up by
    id in the whole document, and the ids carry no node: what is found is the
    first element with the id [trigger-index] in document order, which is a
    badge of another node when one comes before this node's rows, or when
    this node has no row at [index] in the document. *)
Definition updateTriggerDisplay (index : nat) (trigger : slot jsstring) : M State unit :=
  modify (fun st =>
    let b := {| textContent := trigger;
                hidden := negb (PlainObject.truthy str_truthy (Some trigger)) |} in
    if has_id index (ahead (page st)) then
      with_page (fun pg => {| ahead := set_first index b (ahead pg); behind := behind pg |}) st
    else
      match badges st !! index with
      | Some _ => with_badges (fun bs => <[index := b]> bs) st
      | None =>
          with_page (fun pg => {| ahead := ahead pg;
                                  behind := set_first index b (behind pg) |}) st
      end).

Definition set_display (index : nat) (v : slot jsstring) : M State unit :=
  modify (with_node (fun n => set_triggerDisplays (<[index := v]> (triggerDisplays n)) n)).

(** ** fetchTriggerWord *)

(** The call up to its first [await]: the result is the request it then
    waits for, if any.  An exception on this stretch rejects the promise
    of the call and does not reach the caller. *)
Definition fetchTriggerWord_start (index : nat) (loraName : Json)
  : M State (option Request) :=
  if negb (json_truthy loraName) || is_str loraName (js "None") then
    set_display index (Own []);;
    updateTriggerDisplay index (Own []);;
    mret None
  else
    try_catch
      (key ← lift (ToString loraName);
       hit ← gets (fun st => PlainObject.get (triggerCache st) key);
       match hit with
       | Some v =>
           if PlainObject.truthy str_truthy hit then
             set_display index v;;
             updateTriggerDisplay index v;;
             mret None
           else
             let req := LoraTrigger (JSON.stringify (JObj [(js "lora_name", loraName)])) in
             modify (with_requests (fun r => r ++ [req]));;
             mret (Some req)
       | None =>
           let req := LoraTrigger (JSON.stringify (JObj [(js "lora_name", loraName)])) in
           modify (with_requests (fun r => r ++ [req]));;
           mret (Some req)
       end)
      (fun _ => mret None).

(** The rest of the call, once the request has settled. *)
Definition fetchTriggerWord_resume (index : nat) (loraName : Json) (res : FetchResult)
  : M State unit :=
  try_catch
    (match res with
     | Rejected => throw FetchError
     | Resolved response =>
         if ok response then
           data ← lift (json response);
           trigger_word ← lift (get_prop data (js "trigger_word"));
           if opt_truthy trigger_word then
             match trigger_word with
             | Some (JStr w) =>
                 let trigger := trim w in
                 key ← lift (ToString loraName);
                 modify (with_triggerCache (fun c => PlainObject.set c key trigger));;
                 set_display index (Own trigger);;
                 updateTriggerDisplay index (Own trigger)
             | _ => throw TypeError            (* no [trim] method *)
             end
           else mret tt
         else mret tt
     end)
    (fun e => console_log (js "[PowerLoRA] Could not fetch trigger:") e).

(** A call whose promise is dropped ([renderRows], the dropdown): the
    continuation is parked until the response arrives. *)
Definition fetchTriggerWord (index : nat) (loraName : Json) : M State unit :=
  awaited ← fetchTriggerWord_start index loraName;
  match awaited with
  | Some _ => modify (with_pending (fun p => p ++ [(index, loraName)]))
  | None => mret tt
  end.

(** A call run to completion before anything else happens. *)
Definition fetchTriggerWord_await (net : Network) (index : nat) (loraName : Json)
  : M State unit :=
  issued ← gets (fun st => length (requests st));
  awaited ← fetchTriggerWord_start index loraName;
  match awaited with
  | Some req => fetchTriggerWord_resume index loraName (net issued req)
  | None => mret tt
  end.

(** The [i]-th suspended call resumes with its response. *)
Definition resolve (i : nat) (res : FetchResult) : M State unit :=
  p ← gets (fun st => pending st !! i);
  match p with
  | Some (index, loraName) =>
      modify (with_pending (delete i));;
      fetchTriggerWord_resume index loraName res
  | None => mret tt
  end.

(** ** Rendering *)

(** [createRowElement]: of the elements built, the trigger badge. *)
Definition createRowElement (row : Json) (index : nat) : M State Badge :=
  _ ← lift (get_prop row (js "on"));
  shown ← gets (fun st => triggerDisplays (node st) !! index);
  mret {| textContent := if PlainObject.truthy str_truthy shown
                         then default (Own []) shown else Own [];
          hidden := negb (PlainObject.truthy str_truthy shown) |}.

Fixpoint renderRows_forEach (rows : list Json) (index : nat) : M State unit :=
  match rows with
  | [] => mret tt
  | row :: rest =>
      rowEl ← createRowElement row index;
      modify (with_badges (fun bs => bs ++ [rowEl]));;
      lora ← lift (get_prop row (js "lora"));
      match lora with
      | Some l =>
          if json_truthy l && negb (is_str l (js "None"))
          then fetchTriggerWord index l else mret tt
      | None => mret tt
      end;;
      renderRows_forEach rest (S index)
  end.

Definition renderRows : M State unit :=
  modify (with_badges (fun _ => []));;
  rows ← gets (fun st => loraRows (node st));
  match rows with
  | JArr items => renderRows_forEach items 0
  | _ => throw TypeError                       (* no [forEach] method *)
  end.

(** ** The handlers *)

Definition new_row : Json :=
  JObj [(js "lora", JStr []); (js "strength", JNum Number.one); (js "on", JBool true)].

(** [addBtn.onclick] *)
Definition addBtn_onclick : M State unit :=
  rows ← gets (fun st => loraRows (node st));
  match rows with
  | JArr items => modify (with_node (set_loraRows (JArr (items ++ [new_row]))))
  | _ => throw TypeError                       (* no [push] method *)
  end;;
  syncToWidget;;
  renderRows;;
  updateNodeSize.

(** [deleteBtn.onclick] of the row rendered at [index] *)
Definition deleteBtn_onclick (index : nat) : M State unit :=
  rows ← gets (fun st => loraRows (node st));
  match rows with
  | JArr items => modify (with_node (set_loraRows (JArr (delete index items))))
  | _ => throw TypeError                       (* no [splice] method *)
  end;;
  modify (with_node (fun n => set_triggerDisplays (delete index (triggerDisplays n)) n));;
  syncToWidget;;
  renderRows;;
  updateNodeSize.

(** [parseFloat(e.target.value) || 1.0] *)
Definition strength_of_input (input : jsstring) : number :=
  let x := parseFloat input in
  if Number.truthy x then x else Number.one.

(** [row.strength = v] in strict mode.  A named property of an array is
    seen neither by [JSON.stringify] nor by the reads modelled here. *)
Definition set_strength (row : Json) (v : number) : outcome Json :=
  match row with
  | JObj props => Returned (JObj (JSON.define_prop props (js "strength") (JNum v)))
  | JArr items => Returned (JArr items)
  | _ => Threw TypeError
  end.

(** [strength.onchange] of the row rendered at [index], the input holding
    [input] *)
Definition strength_onchange (index : nat) (input : jsstring) : M State unit :=
  rows ← gets (fun st => loraRows (node st));
  match rows with
  | JArr items =>
      match items !! index with
      | Some row =>
          row' ← lift (set_strength row (strength_of_input input));
          modify (with_node (set_loraRows (JArr (<[index := row']> items))))
      | None => mret tt
      end
  | _ => mret tt
  end;;
  syncToWidget.

(** ** The dropdown *)

Inductive Item :=
  | NoneItem                       (* the "None" entry *)
  | LoraItem (lora : jsstring)
  | MoreItem (more : nat).         (* "... n more (type to filter)" *)

Definition item_text (it : Item) : jsstring :=
  match it with
  | NoneItem => js "None"
  | LoraItem lora => lora
  | MoreItem n =>
      js "... " ++ Number.decimal_digits (Z.of_nat n) ++ js " more (type to filter)"
  end.

Section Dropdown.
(** [String.prototype.toLowerCase], which rests on the Unicode case
    tables. *)
Variable toLowerCase : jsstring -> jsstring.

Definition matching (loraList : list jsstring) (filter : jsstring) : list jsstring :=
  let filterLower := toLowerCase filter in
  List.filter (fun lora => includes (toLowerCase lora) filterLower) loraList.

(** [renderItems(filter)]: the children of the items container. *)
Definition renderItems (loraList : list jsstring) (filter : jsstring) : list Item :=
  let filtered := matching loraList filter in
  [NoneItem] ++ map LoraItem (take 50 filtered)
  ++ (if 50 <? length filtered then [MoreItem (length filtered - 50)] else []).
End Dropdown.

End PowerLora.

(** [String.prototype.toLowerCase] on strings whose code units are all
    below U+0100: the letters A-Z and the Latin-1 capitals other than the
    multiplication sign move up by 32. *)
Definition toLowerCase_latin1 (s : jsstring) : jsstring :=
  map (fun c =>
         if ((65 <=? c) && (c <=? 90)
             || (192 <=? c) && (c <=? 222) && negb (c =? 215))%N
         then (c + 32)%N else c) s.

(** The strings of code units below U+0100. *)
Definition latin1 (s : jsstring) : bool := forallb (fun c => (c <? 256)%N) s.

(* ===================================================================== *)
(** * The multi-LoRA trigger widget (unnamed/part_000) *)
(* ===================================================================== *)

Module MultiLora.

(** [node.triggerDisplays], the canvas redraw requests, the module-level
    cache, the requests issued so far and the console. *)
Record State := {
  triggerDisplays : gmap jsstring (slot jsstring);
  dirty : nat;
  triggerCache : gmap jsstring jsstring;
  requests : list Request;
  console : list LogEntry
}.

Definition with_triggerDisplays
    (f : gmap jsstring (slot jsstring) -> gmap jsstring (slot jsstring)) (st : State) : State :=
  {| triggerDisplays := f (triggerDisplays st); dirty := dirty st;
     triggerCache := triggerCache st; requests := requests st; console := console st |}.
Definition with_triggerCache (f : gmap jsstring jsstring -> gmap jsstring jsstring)
    (st : State) : State :=
  {| triggerDisplays := triggerDisplays st; dirty := dirty st;
     triggerCache := f (triggerCache st); requests := requests st; console := console st |}.
Definition with_requests (f : list Request -> list Request) (st : State) : State :=
  {| triggerDisplays := triggerDisplays st; dirty := dirty st;
     triggerCache := triggerCache st; requests := f (requests st); console := console st |}.
Definition with_console (f : list LogEntry -> list LogEntry) (st : State) : State :=
  {| triggerDisplays := triggerDisplays st; dirty := dirty st;
     triggerCache := triggerCache st; requests := requests st; console := f (console st) |}.

(** [node.setDirtyCanvas(true, true)] *)
Definition setDirtyCanvas : M State unit :=
  modify (fun st =>
    {| triggerDisplays := triggerDisplays st; dirty := S (dirty st);
       triggerCache := triggerCache st; requests := requests st; console := console st |}).

(** [widgetName.split("_")[1]] as a property key; a missing part reads
    as [undefined]. *)
Definition slot_key (widgetName : jsstring) : jsstring :=
  match split_on 95 widgetName !! 1 with
  | Some num => num
  | None => js "undefined"
  end.

(** [node.triggerDisplays[num] = v]; [num] holds no underscore, so it is
    never [__proto__]. *)
Definition set_display (num : jsstring) (v : slot jsstring) : M State unit :=
  modify (with_triggerDisplays (fun d => <[num := v]> d)).

(** The call up to its first [await]; the result is the request it then
    waits for, if any. *)
Definition fetchTriggerWord_start (widgetName loraName : jsstring)
  : M State (option Request) :=
  let num := slot_key widgetName in
  if negb (str_truthy loraName) || str_eqb loraName (js "None") then
    set_display num (Own []);;
    setDirtyCanvas;;
    mret None
  else
    hit ← gets (fun st => PlainObject.get (triggerCache st) loraName);
    match hit with
    | Some v =>
        if PlainObject.truthy str_truthy hit then
          set_display num v;;
          setDirtyCanvas;;
          mret None
        else
          let req := LoraTrigger (JSON.stringify (JObj [(js "lora_name", JStr loraName)])) in
          modify (with_requests (fun r => r ++ [req]));;
          mret (Some req)
    | None =>
        let req := LoraTrigger (JSON.stringify (JObj [(js "lora_name", JStr loraName)])) in
        modify (with_requests (fun r => r ++ [req]));;
        mret (Some req)
    end.

(** The rest of the call, once the request has settled. *)
Definition fetchTriggerWord_resume (widgetName loraName : jsstring) (res : FetchResult)
  : M State unit :=
  let num := slot_key widgetName in
  try_catch
    (match res with
     | Rejected => throw FetchError
     | Resolved response =>
         if ok response then
           data ← lift (json response);
           trigger_word ← lift (get_prop data (js "trigger_word"));
           if opt_truthy trigger_word then
             match trigger_word with
             | Some (JStr w) =>
                 let trigger := trim w in
                 modify (with_triggerCache (fun c => PlainObject.set c loraName trigger));;
                 set_display num (Own trigger)
             | _ => throw TypeError            (* no [trim] method *)
             end
           else mret tt
         else mret tt
     end)
    (fun e => modify (with_console (fun c => c ++ [(js "[MultiLoRA] Could not fetch trigger:", e)])));;
  setDirtyCanvas.

(** A call run to completion before anything else happens. *)
Definition fetchTriggerWord_await (net : Network) (widgetName loraName : jsstring)
  : M State unit :=
  issued ← gets (fun st => length (requests st));
  awaited ← fetchTriggerWord_start widgetName loraName;
  match awaited with
  | Some req => fetchTriggerWord_resume widgetName loraName (net issued req)
  | None => mret tt
  end.

End MultiLora.

(* ===================================================================== *)
(** * The LoRA folder loader (js/ollamaEnhancer.js, second part) *)
(* ===================================================================== *)

Module FolderLoader.

(** The module-level cache, the requests issued so far and the console. *)
Record State := {
  loraCache : gmap jsstring Json;
  requests : list Request;
  console : list LogEntry
}.

(** A string without lone surrogates; [encodeURIComponent] throws on
    the others. *)
Fixpoint well_formed (s : jsstring) : bool :=
  match s with
  | [] => true
  | c :: s' =>
      if JSON.is_lead c then
        match s' with
        | d :: s'' => JSON.is_trail d && well_formed s''
        | [] => false
        end
      else negb (JSON.is_trail c) && well_formed s'
  end.

Definition console_error (folder : jsstring) (e : Exn) : M State unit :=
  modify (fun st =>
    {| loraCache := loraCache st; requests := requests st;
       console := console st ++ [(js "Error fetching loras for folder:" ++ folder, e)] |}).

(** The call up to its first [await]: the value returned at once, or the
    request the call then waits for. *)
Definition fetchLorasInFolder_start (folder : jsstring)
  : M State (slot Json + Request) :=
  hit ← gets (fun st => PlainObject.get (loraCache st) folder);
  let request :=
    try_catch
      (if well_formed folder then
         modify (fun st =>
           {| loraCache := loraCache st;
              requests := requests st ++ [LorasInFolder folder];
              console := console st |});;
         mret (inr (LorasInFolder folder))
       else throw URIError)
      (fun e => console_error folder e;; mret (inl (Own (JArr [])))) in
  match hit with
  | Some v => if PlainObject.truthy json_truthy hit then mret (inl v) else request
  | None => request
  end.

(** The rest of the call, once the request has settled: the value
    returned.  (The write is never reached with the key [__proto__],
    whose lookup hits.) *)
Definition fetchLorasInFolder_resume (folder : jsstring) (res : FetchResult)
  : M State (slot Json) :=
  try_catch
    (match res with
     | Rejected => throw FetchError
     | Resolved response =>
         data ← lift (json response);
         loras ← lift (get_prop data (js "loras"));
         let listing := if opt_truthy loras then default (JArr []) loras else JArr [] in
         modify (fun st =>
           {| loraCache := PlainObject.set (loraCache st) folder listing;
              requests := requests st; console := console st |});;
         mret (Own listing)
     end)
    (fun e => console_error folder e;; mret (Own (JArr []))).

(** [await fetchLorasInFolder(folder)] *)
Definition fetchLorasInFolder (net : Network) (folder : jsstring) : M State (slot Json) :=
  issued ← gets (fun st => length (requests st));
  started ← fetchLorasInFolder_start folder;
  match started with
  | inl v => mret v
  | inr req => fetchLorasInFolder_resume folder (net issued req)
  end.

End FolderLoader.

(* ===================================================================== *)
(** * The prompt search widget (unnamed/part_001) *)
(* ===================================================================== *)

Module PromptSearch.

(** The dialog [showResultsDialog] leaves in the document: its title and
    the prompts listed (none: the "No results found" placeholder). *)
Record Dialog := { title : jsstring; prompts : list Json }.

Record State := {
  dialog : option Dialog;
  requests : list Request
}.

(** [showResultsDialog(node, [], title)]: any existing dialog is
    replaced. *)
Definition showResultsDialog_empty (title : jsstring) : M State unit :=
  modify (fun st =>
    {| dialog := Some {| title := title; prompts := [] |}; requests := requests st |}).

(** [performSearch] up to its first [await]: the request it then waits
    for, if any.  Modelled up to that point; the handling of the
    response is not needed below. *)
Definition performSearch (query category : jsstring) : M State (option Request) :=
  if negb (str_truthy (trim query)) then
    showResultsDialog_empty (js "Please enter a search term");;
    mret None
  else
    let req := PromptSearch query (js "50")
                 (if negb (str_eqb category (js "any")) then Some category else None) in
    modify (fun st => {| dialog := dialog st; requests := requests st ++ [req] |});;
    mret (Some req).

End PromptSearch.

(* ===================================================================== *)
(** * The vocabulary of the specification *)
(* ===================================================================== *)

(** One LoRA slot as it is persisted: [{lora, strength, on}]. *)
Record Row := { lora : jsstring; strength : number; on : bool }.

Definition row_json (r : Row) : Json :=
  JObj [(js "lora", JStr (lora r)); (js "strength", JNum (strength r));
        (js "on", JBool (on r))].

Definition rows_json (rows : list Row) : Json := JArr (map row_json rows).

(** A number that JSON can represent: it survives [JSON.stringify] followed
    by [JSON.parse] on its own.  ECMA-262 grants this to every finite Number
    but [-0], whose sign [JSON.stringify] drops. *)
Definition json_representable (x : number) : Prop :=
  JSON.parse (JSON.stringify (JNum x)) = Returned (JNum x).

(** The strengths of ordinary use: the strength field steps by 0.05 and
    an empty or zero input is replaced by 1, so a row holds [+0] (from a saved
    text) or a number with two decimals, here up to 20 in magnitude. *)
Definition two_decimals (x : number) : Prop :=
  x = S754_zero false
  \/ exists (neg : bool) (k : Z), (1 <= k <= 2000)%Z /\ x = Number.of_decimal neg k (-2).

(** C1 as the specification words it: rows whose strengths are finite
    numbers are saved and loaded back unchanged. *)
Definition rows_round_trip (rows : list Row) (st : PowerLora.State) : Prop :=
  Forall (fun r => Number.is_finite (strength r) = true) rows ->
  PowerLora.loraRows (PowerLora.node st) = rows_json rows ->
  is_Some (PowerLora.find_widget (js "lora_data") (PowerLora.widgets (PowerLora.node st))) ->
  PowerLora.loraRows
    (PowerLora.node (snd (PowerLora.parseLoraData (snd (PowerLora.syncToWidget st)))))
  = rows_json rows.

(** ** Sample inputs *)

Definition three_quarters : number := S754_finite false 6755399441055744 (-53).

Definition sample_rows : list Row :=
  [ {| lora := js "a.safetensors"; strength := three_quarters; on := true |};
    {| lora := []; strength := Number.one; on := false |} ].

(** A node with a [lora_data] widget holding [text] and the rows [rows]; no
    trigger displayed, nothing cached, nothing requested, no other node on
    the page. *)
Definition sample_state (text : option jsstring) (rows : Json) : PowerLora.State :=
  {| PowerLora.node :=
       {| PowerLora.widgets :=
            Some [ {| PowerLora.name := js "model"; PowerLora.value := None |};
                   {| PowerLora.name := js "lora_data"; PowerLora.value := text |} ];
          PowerLora.loraRows := rows;
          PowerLora.loraList := [js "None"];
          PowerLora.triggerDisplays := ∅;
          PowerLora.height := Some 120%Z;
          PowerLora.graph := true;
          PowerLora.dirty := 0 |};
     PowerLora.triggerCache := ∅;
     PowerLora.badges := [];
     PowerLora.requests := [];
     PowerLora.pending := [];
     PowerLora.console := [];
     PowerLora.page := {| PowerLora.ahead := []; PowerLora.behind := [] |} |}.

(** [Selected P l l']: [l'] lists the elements of [l] that satisfy [P], in
    their order in [l]. *)
Inductive Selected {A : Type} (P : A -> Prop) : list A -> list A -> Prop :=
  | Selected_nil : Selected P [] []
  | Selected_keep x l l' : P x -> Selected P l l' -> Selected P (x :: l) (x :: l')
  | Selected_skip x l l' : ~ P x -> Selected P l l' -> Selected P (x :: l) l'.

Definition is_substring (sub s : jsstring) : Prop :=
  exists pre post, s = pre ++ sub ++ post.

(** C7 as the specification words it: below the [None] entry the dropdown
    lists exactly the candidates matching the filter. *)
Definition dropdown_lists_every_match
    (toLowerCase : jsstring -> jsstring) (candidates : list jsstring) (filter : jsstring) : Prop :=
  exists ms,
    Selected (fun lora => is_substring (toLowerCase filter) (toLowerCase lora)) candidates ms
    /\ tail (PowerLora.renderItems toLowerCase candidates filter) = map PowerLora.LoraItem ms.

(** The body of the trigger request for [loraName]. *)
Definition trigger_request (loraName : jsstring) : Request :=
  LoraTrigger (JSON.stringify (JObj [(js "lora_name", JStr loraName)])).

(** C4 as the specification words it: two calls in a row, each run to
    completion, issue one request between them. *)
Definition two_calls_one_request
    (net : Network) (index : nat) (x : jsstring) (st : PowerLora.State) : Prop :=
  let st1 := snd (PowerLora.fetchTriggerWord_await net index (JStr x) st) in
  let st2 := snd (PowerLora.fetchTriggerWord_await net index (JStr x) st1) in
  length (PowerLora.requests st2) = S (length (PowerLora.requests st)).

(** A response carrying [{ "trigger_word": w }]. *)
Definition trigger_response (w : jsstring) : FetchResult :=
  Resolved {| ok := true; json := Returned (JObj [(js "trigger_word", JStr w)]) |}.

Definition multi_state : MultiLora.State :=
  {| MultiLora.triggerDisplays := ∅; MultiLora.dirty := 0;
     MultiLora.triggerCache := ∅; MultiLora.requests := []; MultiLora.console := [] |}.

Definition folder_state : FolderLoader.State :=
  {| FolderLoader.loraCache := ∅; FolderLoader.requests := []; FolderLoader.console := [] |}.

(** A response carrying [{ "loras": [...] }]. *)
Definition listing_response (loras : list jsstring) : FetchResult :=
  Resolved {| ok := true; json := Returned (JObj [(js "loras", JArr (map JStr loras))]) |}.

(** C3 as the specification words it: when the request of a call succeeds
    with an empty listing, nothing is cached for the folder and the next call
    for the folder issues a new request. *)
Definition empty_listing_not_cached
    (net : Network) (folder : jsstring) (st : FolderLoader.State) : Prop :=
  let st1 := snd (FolderLoader.fetchLorasInFolder net folder st) in
  let st2 := snd (FolderLoader.fetchLorasInFolder net folder st1) in
  net (length (FolderLoader.requests st)) (LorasInFolder folder) = listing_response [] ->
  FolderLoader.requests st1 = FolderLoader.requests st ++ [LorasInFolder folder] ->
  FolderLoader.loraCache st1 !! folder = None
  /\ FolderLoader.requests st2 = FolderLoader.requests st1 ++ [LorasInFolder folder].

(** ** A session that ends with a stale trigger display *)

Definition two_loras : list Row :=
  [ {| lora := js "a.safetensors"; strength := Number.one; on := true |};
    {| lora := js "b.safetensors"; strength := Number.one; on := true |} ].

(** A saved workflow with two rows is configured and rendered, and the two
    trigger lookups are answered (["ta"] for the first row, ["tb"] for the
    second). *)
Definition two_loras_shown : PowerLora.State :=
  let st0 := sample_state (Some (JSON.stringify (rows_json two_loras))) (JArr []) in
  let st1 := snd (PowerLora.parseLoraData st0) in
  let st2 := snd (PowerLora.renderRows st1) in
  let st3 := snd (PowerLora.resolve 0 (trigger_response (js "ta")) st2) in
  snd (PowerLora.resolve 0 (trigger_response (js "tb")) st3).

(** The trigger display entry of a row is empty: [undefined] or the empty
    string. *)
Definition display_empty (st : PowerLora.State) (index : nat) : Prop :=
  PlainObject.truthy str_truthy (PowerLora.triggerDisplays (PowerLora.node st) !! index) = false.

(** ** Vocabulary of the round-trip proof *)

(** The result of a parser run, with [44 :: t] (a comma and more text)
    appended to what the run left unread. *)
Definition before_comma {A} (t : jsstring) (res : option (A * jsstring))
  : option (A * jsstring) :=
  match res with
  | Some (v, r) => Some (v, r ++ 44%N :: t)
  | None => None
  end.

(** [true] and [false] as JSON.stringify writes them. *)
Definition bool_text (b : bool) : jsstring :=
  if b then [116; 114; 117; 101]%N else [102; 97; 108; 115; 101]%N.

(** The texts of the rows, separated by commas. *)
Definition rows_text (rows : list Row) : jsstring :=
  JSON.join [44%N] (map JSON.stringify (map row_json rows)).

(** [json_representable], decided by running the two functions. *)
Definition representableb (x : number) : bool :=
  match JSON.parse (JSON.stringify (JNum x)) with
  | Returned (JNum y) => Number.eqb x y
  | _ => false
  end.

(** The strengths with two decimals from -20.00 to 20.00, zero apart: what
    the strength field, which steps by 0.05, holds in ordinary use. *)
Definition hundredths : list number :=
  flat_map (fun k => [Number.of_decimal false k (-2); Number.of_decimal true k (-2)])
    (map Z.of_nat (seq 1 2000)).


(* ===================================================================== *)
(** * js/powerLoraWidget.js: the other handlers *)
(* ===================================================================== *)

Module PowerLoraUI.
Import PowerLora.

(** [row[k] = v] in strict mode, for a key that is not [__proto__].  A row
    that is an array takes [k] as a named property, which [JSON.stringify]
    does not write and [Json] does not hold: such a row is left as it is.  The
    theorems that read a row back are about rows that are objects. *)
Definition assign (row : Json) (k : jsstring) (v : Json) : outcome Json :=
  match row with
  | JObj props => Returned (JObj (JSON.define_prop props k v))
  | JArr items => Returned (JArr items)
  | _ => Threw TypeError
  end.

(** The update of the row rendered at [index] that a handler makes through
    its [row] reference. *)
Definition update_row (index : nat) (f : Json -> outcome Json) : M State unit :=
  rows ← gets (fun st => loraRows (node st));
  match rows with
  | JArr items =>
      match items !! index with
      | Some row =>
          row' ← lift (f row);
          modify (with_node (set_loraRows (JArr (<[index := row']> items))))
      | None => mret tt
      end
  | _ => mret tt
  end.

(** [toggle.onclick]: [row.on = !row.on], then [syncToWidget] (the class
    changes of the two elements are not part of the state). *)
Definition toggle_onclick (index : nat) : M State unit :=
  update_row index (fun row =>
    match get_prop row (js "on") with
    | Returned on => assign row (js "on") (JBool (negb (opt_truthy on)))
    | Threw e => Threw e
    end);;
  syncToWidget.

(** [noneItem.onclick] in the dropdown of the row rendered at [index] *)
Definition noneItem_onclick (index : nat) : M State unit :=
  update_row index (fun row => assign row (js "lora") (JStr []));;
  set_display index (Own []);;
  updateTriggerDisplay index (Own []);;
  syncToWidget.

(** [item.onclick] of the entry [lora] in the dropdown of the row rendered
    at [index] *)
Definition item_onclick (index : nat) (lora : jsstring) : M State unit :=
  update_row index (fun row => assign row (js "lora") (JStr lora));;
  syncToWidget;;
  fetchTriggerWord index (JStr lora).

(** ** createUI *)

(** The loop of [renderRows] when the container is in no document, as in
    [createUI]: the rows built go into the container, and
    [document.getElementById] finds none of them. *)
Fixpoint createUI_forEach (rows : list Json) (index : nat) (container : list Badge)
  : M State (list Badge) :=
  match rows with
  | [] => mret container
  | row :: rest =>
      rowEl ← createRowElement row index;
      lora ← lift (get_prop row (js "lora"));
      match lora with
      | Some l =>
          if json_truthy l && negb (is_str l (js "None"))
          then fetchTriggerWord index l else mret tt
      | None => mret tt
      end;;
      createUI_forEach rest (S index) (container ++ [rowEl])
  end.

(** [createUI(node)]: the old container leaves the document, the rows are
    rendered into a new one, which [addDOMWidget] puts on the page, and the
    node is resized. *)
Definition createUI : M State unit :=
  modify (with_badges (fun _ => []));;
  rows ← gets (fun st => loraRows (node st));
  container ← match rows with
              | JArr items => createUI_forEach items 0 []
              | _ => throw TypeError                 (* no [forEach] method *)
              end;
  modify (with_badges (fun _ => container));;
  updateNodeSize.

(** ** loadLoraList *)

(** [node.loraList] as [loadLoraList] leaves it (any value that
    [/object_info] makes it), and the console. *)
Record ListState := { loraListValue : Json; listConsole : list LogEntry }.

(** The values of [Object.entries(data)], in order. *)
Definition entries_values (data : Json) : outcome (list Json) :=
  match data with
  | JNull => Threw TypeError
  | JObj props => Returned (map snd props)
  | JArr items => Returned items
  | JStr s => Returned (map (fun c => JStr [c]) s)
  | JNum _ | JBool _ => Returned []
  end.

(** [v?.k] *)
Definition get_opt (v : option Json) (k : jsstring) : option Json :=
  match v with
  | Some (JObj props) => assoc_get props k
  | _ => None
  end.

(** [v[0]] for a truthy [v] *)
Definition first_element (v : Json) : option Json :=
  match v with
  | JArr items => head items
  | JStr (c :: _) => Some (JStr [c])
  | JObj props => assoc_get props (js "0")
  | _ => None
  end.

(** [v.length] is truthy; reading it from [null] throws. *)
Definition length_truthy (v : Json) : outcome bool :=
  match v with
  | JNull => Threw TypeError
  | JArr items => Returned (negb (bool_decide (items = [])))
  | JStr s => Returned (str_truthy s)
  | JObj props => Returned (opt_truthy (assoc_get props (js "length")))
  | JNum _ | JBool _ => Returned false
  end.

(** The loop over the entries: the list of the first node type that has a
    [lora_name] input, if there is one. *)
Fixpoint find_lora_list (infos : list Json) : outcome (option Json) :=
  match infos with
  | [] => Returned None
  | nodeInfo :: rest =>
      match get_prop nodeInfo (js "input") with
      | Threw e => Threw e
      | Returned input =>
          let lora_name := get_opt (get_opt input (js "required")) (js "lora_name") in
          if opt_truthy lora_name then
            let first := match lora_name with Some v => first_element v | None => None end in
            Returned (Some (if opt_truthy first then default (JArr []) first else JArr []))
          else find_lora_list rest
      end
  end.

(** [loadLoraList(node)], given how the request for [/object_info]
    settles. *)
Definition loadLoraList (res : FetchResult) : M ListState unit :=
  try_catch
    (match res with
     | Rejected => throw FetchError
     | Resolved response =>
         if ok response then
           data ← lift (json response);
           infos ← lift (entries_values data);
           found ← lift (find_lora_list infos);
           match found with
           | Some l => modify (fun st => {| loraListValue := l; listConsole := listConsole st |})
           | None => mret tt
           end
         else mret tt
     end)
    (fun e => modify (fun st =>
       {| loraListValue := loraListValue st;
          listConsole := listConsole st ++ [(js "[PowerLoRA] Error loading lora list:", e)] |}));;
  l ← gets loraListValue;
  filled ← lift (length_truthy l);
  if negb filled then
    modify (fun st => {| loraListValue := JArr [JStr (js "None")];
                         listConsole := listConsole st |})
  else mret tt.

End PowerLoraUI.

(* ===================================================================== *)
(** * js/ollamaEnhancer.js, first part: the display of the enhanced prompt *)
(* ===================================================================== *)

Module Enhancer.

(** A widget of the node: its name, its value ([None]: [undefined]) and,
    when it has a text area, the value last assigned to the text area.  The
    widget is taken as the code takes it, an object whose [value] property
    holds what is assigned to it. *)
Record Widget := { name : jsstring; value : option Json; inputEl : option jsstring }.

(** [node.widgets] (may be missing) and the canvas redraw requests. *)
Record State := { widgets : option (list Widget); dirty : nat }.

Definition is_display (w : Widget) : bool := str_eqb (name w) (js "enhanced_display").

(** [this.widgets?.find(w => w.name === "enhanced_display")] *)
Definition find_display (st : State) : option Widget :=
  match widgets st with
  | Some l => List.find is_display l
  | None => None
  end.

(** The widget found by [find] is an element of [node.widgets]: an update
    of it is an update of the first widget with that name. *)
Fixpoint update_display (f : Widget -> Widget) (l : list Widget) : list Widget :=
  match l with
  | [] => []
  | w :: l' => if is_display w then f w :: l' else w :: update_display f l'
  end.

Definition modify_display (f : Widget -> Widget) : M State unit :=
  modify (fun st =>
    {| widgets := option_map (update_display f) (widgets st); dirty := dirty st |}).

(** The string a text area takes when [v] is assigned to its [value]:
    [null] gives the empty string, anything else its ToString. *)
Definition to_DOMString (v : option Json) : outcome jsstring :=
  match v with
  | None => Returned (js "undefined")
  | Some JNull => Returned []
  | Some j => ToString j
  end.

(** The three statements the two hooks share: the value goes to the
    widget, then to its text area if it has one, then the canvas is marked
    dirty. *)
Definition show (w : Widget) (v : option Json) : M State unit :=
  modify_display (fun w => {| name := name w; value := v; inputEl := inputEl w |});;
  match inputEl w with
  | Some _ =>
      s ← lift (to_DOMString v);
      modify_display (fun w => {| name := name w; value := value w; inputEl := Some s |})
  | None => mret tt
  end;;
  modify (fun st => {| widgets := widgets st; dirty := S (dirty st) |}).

(** [message?.text] *)
Definition message_text (message : option Json) : option Json :=
  match message with
  | Some (JObj props) => assoc_get props (js "text")
  | _ => None
  end.

(** [onExecuted(message)], after the original hook *)
Definition onExecuted (message : option Json) : M State unit :=
  if opt_truthy (message_text message) then
    let text := match message_text message with
                | Some (JArr items) => head items
                | other => other
                end in
    displayWidget ← gets find_display;
    match displayWidget with
    | Some w => show w text
    | None => mret tt
    end
  else mret tt.

(** Of the object [o] that is saved with the workflow, the property
    [enhancedDisplayValue] ([None]: missing or [undefined]). *)
Record Saved := { enhancedDisplayValue : option Json }.

(** [onSerialize(o)], after the original hook: [o] afterwards. *)
Definition onSerialize (o : Saved) (st : State) : Saved :=
  match find_display st with
  | Some w => {| enhancedDisplayValue := value w |}
  | None => o
  end.

(** The timer that [onConfigure(o)] sets, when it fires. *)
Definition onConfigure (o : Saved) : M State unit :=
  if opt_truthy (enhancedDisplayValue o) then
    displayWidget ← gets find_display;
    match displayWidget with
    | Some w => show w (enhancedDisplayValue o)
    | None => mret tt
    end
  else mret tt.

End Enhancer.

(* ===================================================================== *)
(** * unnamed/part_000: the trigger pills on the canvas *)
(* ===================================================================== *)

Module MultiLoraNode.
Import MultiLora.

(** A widget of the node: its name, its type and, once the node has been
    drawn, the height it was drawn at ([None]: [undefined]). *)
Record Widget := { name : jsstring; type : jsstring; last_y : option number }.

(** [node.widgets] (may be missing) and the number of wrappers that
    [setupTriggerDisplays] has put around the node's own [onDrawForeground]. *)
Record Node := { widgets : option (list Widget); drawLayers : nat }.

(** [node.triggerDisplays[k]]: the object is a plain one, so a key that
    it does not hold is looked up on [Object.prototype]. *)
Definition display_get (d : gmap jsstring (slot jsstring)) (k : jsstring)
  : option (slot jsstring) :=
  match d !! k with
  | Some v => Some v
  | None => if bool_decide (k ∈ PlainObject.prototype_names) then Some (Inherited k) else None
  end.

(** The keys of the loop [for (let i = 1; i <= 5; i++)]. *)
Definition slot_names : list jsstring := map js ["1"; "2"; "3"; "4"; "5"]%string.

(** [if (!node.triggerDisplays[i]) node.triggerDisplays[i] = ""] *)
Definition init_slot (d : gmap jsstring (slot jsstring)) (i : jsstring)
  : gmap jsstring (slot jsstring) :=
  if PlainObject.truthy str_truthy (display_get d i) then d else <[i := Own []]> d.

(** [setupTriggerDisplays(node)] *)
Definition setupTriggerDisplays (n : Node) (st : State) : Node * State :=
  match widgets n with
  | None => (n, st)
  | Some _ =>
      ({| widgets := widgets n; drawLayers := S (drawLayers n) |},
       with_triggerDisplays (fun d => foldl init_slot d slot_names) st)
  end.

(** What [drawTriggers] puts on the canvas for a widget: the text of the
    pill and the [last_y] of the widget it is drawn beside. *)
Record Pill := { pill_text : jsstring; pill_y : number }.

(** The body of the loop of [drawTriggers]: the pill drawn for [w], if
    any.  A display entry that is not a string has no [trim] method. *)
Definition pill_for (d : gmap jsstring (slot jsstring)) (w : Widget) : outcome (option Pill) :=
  if starts_with (js "lora_") (name w) && str_eqb (type w) (js "combo") then
    let trigger := display_get d (slot_key (name w)) in
    match trigger, last_y w with
    | Some t, Some y =>
        if PlainObject.truthy str_truthy trigger then
          match t with
          | Own s =>
              let text := trim s in
              Returned (if str_truthy text then Some {| pill_text := text; pill_y := y |}
                        else None)
          | Inherited _ => Threw TypeError
          end
        else Returned None
    | _, _ => Returned None
    end
  else Returned None.

Fixpoint drawTriggers_loop (d : gmap jsstring (slot jsstring)) (ws : list Widget)
  : outcome (list Pill) :=
  match ws with
  | [] => Returned []
  | w :: rest =>
      match pill_for d w with
      | Threw e => Threw e
      | Returned p =>
          match drawTriggers_loop d rest with
          | Threw e => Threw e
          | Returned ps => Returned (option_list p ++ ps)
          end
      end
  end.

(** [drawTriggers(node, ctx)]: the pills drawn, in order. *)
Definition drawTriggers (n : Node) (st : State) : outcome (list Pill) :=
  match widgets n with
  | None => Returned []
  | Some ws => drawTriggers_loop (triggerDisplays st) ws
  end.

(** [node.onDrawForeground(ctx)] with [k] wrappers around the node's own
    method: each wrapper first calls the one it wraps, then [drawTriggers]. *)
Fixpoint onDrawForeground_layers (k : nat) (n : Node) (st : State) : outcome (list Pill) :=
  match k with
  | O => Returned []
  | S k' =>
      match onDrawForeground_layers k' n st with
      | Threw e => Threw e
      | Returned below =>
          match drawTriggers n st with
          | Threw e => Threw e
          | Returned ps => Returned (below ++ ps)
          end
      end
  end.

Definition onDrawForeground (n : Node) (st : State) : outcome (list Pill) :=
  onDrawForeground_layers (drawLayers n) n st.

End MultiLoraNode.

(* ===================================================================== *)
(** * unnamed/part_001: the display of the selected prompt *)
(* ===================================================================== *)

Module PromptNode.

(** The widgets the functions below reach, each by its value when the
    node has it: the backend widgets [selected_prompt], [selected_id] and
    [selected_category] (reached as [node.promptWidget || node.widgets?.find(...)]
    and the like, the reference being the widget [find] returns), and the
    display widget [node.selectedWidget].  The prompt text and the category
    are strings, as the backend declares them; the display may hold any value
    that a saved workflow carries.  With them the canvas redraw requests and
    the dialog on screen. *)
Record State := {
  promptWidget : option jsstring;
  idWidget : option Json;
  categoryWidget : option jsstring;
  selectedWidget : option Json;
  dirty : nat;
  dialog : option PromptSearch.Dialog
}.

(** A search result: [{id, category, text}]. *)
Record Prompt := { id : Json; category : jsstring; text : jsstring }.

Definition set_selected (v : Json) (st : State) : State :=
  {| promptWidget := promptWidget st; idWidget := idWidget st;
     categoryWidget := categoryWidget st;
     selectedWidget := option_map (fun _ => v) (selectedWidget st);
     dirty := dirty st; dialog := dialog st |}.

(** [text.length > 80 ? text.substring(0, 80) + "..." : text] *)
Definition preview (text : jsstring) : jsstring :=
  if 80 <? length text then take 80 text ++ js "..." else text.

(** [`[${category}] ${preview}`] *)
Definition labelled (category preview : jsstring) : jsstring :=
  js "[" ++ category ++ js "] " ++ preview.

(** [updateSelectedDisplayFromWidgets(node)] *)
Definition updateSelectedDisplayFromWidgets (st : State) : State :=
  match selectedWidget st with
  | None => st
  | Some _ =>
      match promptWidget st with
      | Some (c :: t) =>
          let text := c :: t in
          let category := match categoryWidget st with
                          | Some (d :: cat) => d :: cat
                          | _ => []
                          end in
          set_selected
            (JStr (if str_truthy category then labelled category (preview text)
                   else preview text)) st
      | _ => set_selected (JStr (js "(no prompt selected)")) st
      end
  end.

(** [selectPrompt(node, prompt, overlay)], the overlay being the dialog on
    screen; the two [console.log] calls are left out. *)
Definition selectPrompt (prompt : Prompt) (st : State) : State :=
  {| promptWidget := option_map (fun _ => text prompt) (promptWidget st);
     idWidget := option_map (fun _ => id prompt) (idWidget st);
     categoryWidget := option_map (fun _ => category prompt) (categoryWidget st);
     selectedWidget :=
       option_map (fun _ => JStr (labelled (category prompt) (preview (text prompt))))
         (selectedWidget st);
     dirty := S (dirty st);
     dialog := None |}.

(** [onSerialize(o)], after the original hook: [o.selectedDisplay]
    afterwards ([None]: missing), given what it was. *)
Definition onSerialize (selectedDisplay : option Json) (st : State) : option Json :=
  match selectedWidget st with
  | Some v => Some v
  | None => selectedDisplay
  end.

(** The timer that [onConfigure(o)] sets, when it fires, given
    [o.selectedDisplay]. *)
Definition onConfigure (selectedDisplay : option Json) (st : State) : State :=
  updateSelectedDisplayFromWidgets
    (match selectedDisplay, selectedWidget st with
     | Some v, Some _ => if json_truthy v then set_selected v st else st
     | _, _ => st
     end).

End PromptNode.

(* ===================================================================== *)
(** * Vocabulary of the further properties *)
(* ===================================================================== *)

(** The value of the [lora_data] widget, if the node has one. *)
Definition persisted (st : PowerLora.State) : option jsstring :=
  match PowerLora.find_widget (js "lora_data") (PowerLora.widgets (PowerLora.node st)) with
  | Some w => PowerLora.value w
  | None => None
  end.

(** The widget holds the serialization of the rows. *)
Definition in_sync (st : PowerLora.State) : Prop :=
  persisted st = Some (JSON.stringify (PowerLora.loraRows (PowerLora.node st))).

(** The handlers of the editor that change the rows. *)
Inductive Handler :=
  | AddRow
  | DeleteRow (index : nat)
  | SetStrength (index : nat) (input : jsstring)
  | Toggle (index : nat)
  | PickNone (index : nat)
  | PickLora (index : nat) (lora : jsstring).

Definition run_handler (h : Handler) : M PowerLora.State unit :=
  match h with
  | AddRow => PowerLora.addBtn_onclick
  | DeleteRow index => PowerLora.deleteBtn_onclick index
  | SetStrength index input => PowerLora.strength_onchange index input
  | Toggle index => PowerLoraUI.toggle_onclick index
  | PickNone index => PowerLoraUI.noneItem_onclick index
  | PickLora index lora => PowerLoraUI.item_onclick index lora
  end.

(** A row whose LoRA [renderRows] looks up: neither empty nor ["None"]. *)
Definition wants_trigger (r : Row) : bool :=
  str_truthy (lora r) && negb (str_eqb (lora r) (js "None")).

(** What the cache answers for [x]: a truthy entry, or nothing. *)
Definition cache_hit (c : gmap jsstring jsstring) (x : jsstring) : option (slot jsstring) :=
  if PlainObject.truthy str_truthy (PlainObject.get c x) then PlainObject.get c x else None.

(** The rows of [rows] that want a trigger the cache [c] does not answer,
    each with its index, counting from [k]. *)
Fixpoint lookups_from (c : gmap jsstring jsstring) (k : nat) (rows : list Row)
  : list (nat * Json) :=
  match rows with
  | [] => []
  | r :: rest =>
      (if wants_trigger r && negb (bool_decide (is_Some (cache_hit c (lora r))))
       then [(k, JStr (lora r))] else [])
      ++ lookups_from c (S k) rest
  end.

(** The request of a suspended lookup. *)
Definition request_of (p : nat * Json) : Request :=
  LoraTrigger (JSON.stringify (JObj [(js "lora_name", snd p)])).

(** The badge [createRowElement] builds for a display entry. *)
Definition badge_of (shown : option (slot jsstring)) : PowerLora.Badge :=
  {| PowerLora.textContent :=
       if PlainObject.truthy str_truthy shown then default (Own []) shown else Own [];
     PowerLora.hidden := negb (PlainObject.truthy str_truthy shown) |}.

(** A request for [/object_info] that yields no list: the fetch is
    rejected, the response is not ok, the body is not JSON, or no node type in
    it has a [lora_name] input. *)
Definition no_listing (res : FetchResult) : bool :=
  match res with
  | Rejected => true
  | Resolved response =>
      if ok response then
        match json response with
        | Returned data =>
            match PowerLoraUI.entries_values data with
            | Returned infos =>
                match PowerLoraUI.find_lora_list infos with
                | Returned (Some _) => false
                | _ => true
                end
            | Threw _ => true
            end
        | Threw _ => true
        end
      else true
  end.

(** A settled request that yields no trigger word: the fetch is rejected,
    the response is not ok, the body is not JSON, or the [trigger_word] of
    the body is not a non-empty string. *)
Definition no_trigger (res : FetchResult) : bool :=
  match res with
  | Rejected => true
  | Resolved response =>
      if ok response then
        match json response with
        | Returned data =>
            match get_prop data (js "trigger_word") with
            | Returned (Some (JStr w)) => negb (str_truthy w)
            | _ => true
            end
        | Threw _ => true
        end
      else true
  end.

(** A settled request for a folder that yields no listing: the fetch is
    rejected, or the body is not JSON or is [null]. *)
Definition no_body (res : FetchResult) : bool :=
  match res with
  | Rejected => true
  | Resolved response =>
      match json response with
      | Returned data =>
          match get_prop data (js "loras") with
          | Returned _ => false
          | Threw _ => true
          end
      | Threw _ => true
      end
  end.

(** [setupTriggerDisplays] called [k] times in a row, as the timers of
    [onNodeCreated], [nodeCreated] and [onConfigure] do. *)
Fixpoint setup_times (k : nat) (n : MultiLoraNode.Node) (st : MultiLora.State)
  : MultiLoraNode.Node * MultiLora.State :=
  match k with
  | O => (n, st)
  | S k' =>
      MultiLoraNode.setupTriggerDisplays (fst (setup_times k' n st)) (snd (setup_times k' n st))
  end.

(** ** Sample inputs *)

(** A node that holds the rows [two_loras] and their serialization. *)
Definition two_loras_state : PowerLora.State :=
  sample_state (Some (JSON.stringify (rows_json two_loras))) (rows_json two_loras).

(** The node of [two_loras_shown] on a page where another node of this
    kind comes first, with one row that shows no trigger: its badge has the
    id [trigger-0] too. *)
Definition behind_another_node : PowerLora.State :=
  PowerLora.with_page
    (fun _ => {| PowerLora.ahead := [(0, badge_of None)]; PowerLora.behind := [] |})
    two_loras_shown.

(** That node as [deleteBtn.onclick] of its first row leaves it before the
    rows are rendered again: the row is spliced out, and the display entry of
    index 0 deleted. *)
Definition first_row_deleted : PowerLora.State :=
  PowerLora.with_node
    (fun n => PowerLora.set_triggerDisplays (delete 0 (PowerLora.triggerDisplays n))
                (PowerLora.set_loraRows (rows_json (delete 0 two_loras)) n))
    behind_another_node.

(** An [/object_info] answer with two node types, the second of which
    has a [lora_name] input. *)
Definition object_info : list (jsstring * Json) :=
  [ (js "KSampler", JObj [(js "input", JObj [(js "required", JObj [])])]);
    (js "LoraLoader",
     JObj [(js "input",
            JObj [(js "required",
                   JObj [(js "lora_name",
                          JArr [JArr [JStr (js "a.safetensors"); JStr (js "b.safetensors")]])])])]) ].

(** A node with the display widget, showing its placeholder. *)
Definition enhancer_state : Enhancer.State :=
  {| Enhancer.widgets :=
       Some [ {| Enhancer.name := js "prompt"; Enhancer.value := Some (JStr (js "a cat"));
                 Enhancer.inputEl := None |};
              {| Enhancer.name := js "enhanced_display";
                 Enhancer.value := Some (JStr (js "(run workflow to see enhanced prompt)"));
                 Enhancer.inputEl := Some (js "(run workflow to see enhanced prompt)") |} ];
     Enhancer.dirty := 0 |}.

(** The combo of the first slot, drawn at height 1. *)
Definition lora_1 : MultiLoraNode.Widget :=
  {| MultiLoraNode.name := js "lora_1"; MultiLoraNode.type := js "combo";
     MultiLoraNode.last_y := Some Number.one |}.

Definition multi_node : MultiLoraNode.Node :=
  {| MultiLoraNode.widgets := Some [lora_1]; MultiLoraNode.drawLayers := 0 |}.

(** A search node with its four widgets and nothing selected. *)
Definition prompt_state : PromptNode.State :=
  {| PromptNode.promptWidget := Some [];
     PromptNode.idWidget := Some (JNum (S754_zero false));
     PromptNode.categoryWidget := Some [];
     PromptNode.selectedWidget := Some (JStr (js "(no prompt selected)"));
     PromptNode.dirty := 0;
     PromptNode.dialog := None |}.

Definition sample_prompt : PromptNode.Prompt :=
  {| PromptNode.id := JNum Number.one; PromptNode.category := js "artistic";
     PromptNode.text := js "soft window light" |}.

(* ===================================================================== *)
(** * Facts about strings *)
(* ===================================================================== *)

Lemma str_eqb_eq (a b : jsstring) : str_eqb a b = true <-> a = b.
Proof. unfold str_eqb. apply bool_decide_eq_true. Qed.

Lemma str_eqb_refl (a : jsstring) : str_eqb a a = true.
Proof. by apply str_eqb_eq. Qed.

Lemma str_eqb_neq (a b : jsstring) : a <> b -> str_eqb a b = false.
Proof. intros H. unfold str_eqb. by apply bool_decide_eq_false. Qed.

Lemma trimStart_spaces (s : jsstring) :
  forallb is_js_space s = true -> trimStart s = [].
Proof.
  induction s as [|c s IH]; simpl; [done|].
  intros [Hc Hs]%andb_prop. rewrite Hc. auto.
Qed.

Lemma trim_spaces (s : jsstring) :
  forallb is_js_space s = true -> trim s = [].
Proof. intros H. unfold trim. by rewrite trimStart_spaces. Qed.

(** The converse: a string that trims to nothing is made of white space. *)
Lemma trimStart_nil_spaces (s : jsstring) :
  trimStart s = [] -> forallb is_js_space s = true.
Proof.
  induction s as [|c s IH]; simpl; [done|].
  destruct (is_js_space c); [auto | discriminate].
Qed.

Lemma trim_nil_spaces (s : jsstring) :
  trim s = [] -> forallb is_js_space s = true.
Proof.
  unfold trim, trimEnd. intros H.
  apply trimStart_nil_spaces.
  destruct (trimStart s) as [|c t] eqn:E; [done|].
  exfalso.
  assert (Hrev : trimStart (rev (c :: t)) = []).
  { apply (f_equal (@rev N)) in H. by rewrite rev_involutive in H. }
  assert (Hc : is_js_space c = false).
  { destruct s as [|d s']; [done|]. simpl in E.
    destruct (is_js_space d) eqn:Ed.
    - clear -E. revert E. induction s' as [|x s' IH]; simpl; [done|].
      destruct (is_js_space x) eqn:Ex; [auto|]. by intros [= -> _].
    - by injection E as -> _. }
  apply trimStart_nil_spaces in Hrev.
  rewrite forallb_forall in Hrev.
  specialize (Hrev c). rewrite Hc in Hrev.
  assert (In c (rev (c :: t))) by (apply in_rev; rewrite rev_involutive; by left).
  by specialize (Hrev H0).
Qed.

(** [includes] decides the substring relation. *)
Lemma starts_with_spec (p s : jsstring) :
  starts_with p s = true <-> exists post, s = p ++ post.
Proof.
  revert s. induction p as [|a p IH]; intros s; simpl.
  - split; [by exists s | done].
  - destruct s as [|b s]; [split; [done | by intros [? ?]]|].
    rewrite andb_true_iff, N.eqb_eq, IH. split.
    + intros [-> [post ->]]. by exists post.
    + intros [post [= -> ->]]. eauto.
Qed.

Lemma includes_spec (s sub : jsstring) :
  includes s sub = true <-> exists pre post, s = pre ++ sub ++ post.
Proof.
  induction s as [|c s IH]; simpl.
  - rewrite orb_false_r, starts_with_spec. split.
    + intros [post ->]. by exists [], post.
    + intros [pre [post H]]. symmetry in H.
      apply app_eq_nil in H as [-> H]. exists post. done.
  - rewrite orb_true_iff, starts_with_spec, IH. split.
    + intros [[post ->] | [pre [post ->]]].
      * by exists [], post.
      * by exists (c :: pre), post.
    + intros [[|d pre] [post H]].
      * left. by exists post.
      * right. injection H as -> ->. by exists pre, post.
Qed.

(* ===================================================================== *)
(** * The built-ins at work *)
(* ===================================================================== *)

Example toString_samples :
  Number.toString (Number.of_decimal false 1 (-1)) = js "0.1"
  /\ Number.toString (Number.of_decimal false 75 (-2)) = js "0.75"
  /\ Number.toString (Number.of_decimal true 15 (-1)) = js "-1.5"
  /\ Number.toString Number.one = js "1"
  /\ Number.toString (Number.of_decimal false 1 21) = js "1e+21"
  /\ Number.toString (Number.of_decimal false 123456789012345678901 0)
     = js "123456789012345680000"
  /\ Number.toString (Number.of_decimal false 12 (-8)) = js "1.2e-7"
  /\ Number.toString (Number.of_decimal false 5 (-324)) = js "5e-324"
  /\ Number.toString (Number.of_decimal false 17976931348623157 292)
     = js "1.7976931348623157e+308"
  /\ Number.toString (S754_zero true) = js "0".
Proof. vm_compute. repeat split. Qed.

Example of_decimal_samples :
  Number.of_decimal false 1 (-1) = S754_finite false 7205759403792794 (-56)
  /\ Number.of_decimal false 9007199254740993 0 = S754_finite false 4503599627370496 1
  /\ Number.of_decimal false 2 (-324) = S754_zero false
  /\ Number.of_decimal false 1 400 = S754_infinity false.
Proof. vm_compute. repeat split. Qed.

Example parseFloat_samples :
  parseFloat (js "0") = S754_zero false
  /\ parseFloat (js "-0") = S754_zero true
  /\ parseFloat (js "abc") = Number.NaN
  /\ parseFloat [] = Number.NaN
  /\ parseFloat (js "  1.5e1xyz") = Number.of_decimal false 15 0
  /\ parseFloat (js ".5") = Number.of_decimal false 5 (-1)
  /\ parseFloat (js "1e") = Number.one
  /\ parseFloat (js "-Infinity") = S754_infinity true.
Proof. vm_compute. repeat split. Qed.

Example JSON_parse_samples :
  JSON.parse (js " [1, [true, null], {}] ")
  = Returned (JArr [JNum Number.one; JArr [JBool true; JNull]; JObj []])
  /\ JSON.parse (js "-0") = Returned (JNum (S754_zero true))
  /\ JSON.parse (js "01") = Threw SyntaxError
  /\ JSON.parse (js "1.") = Threw SyntaxError
  /\ JSON.parse (js "[1,]") = Threw SyntaxError
  /\ JSON.parse (js "nul") = Threw SyntaxError
  /\ JSON.parse [] = Threw SyntaxError
  /\ JSON.parse (JSON.quote (js "b") ++ js " ") = Returned (JStr (js "b"))
  /\ JSON.parse (js "{" ++ JSON.quote (js "b") ++ js ":1," ++ JSON.quote (js "2") ++ js ":2,"
                 ++ JSON.quote (js "b") ++ js ":3}")
     = Returned (JObj [(js "2", JNum (Number.of_decimal false 2 0));
                       (js "b", JNum (Number.of_decimal false 3 0))]).
Proof. vm_compute. repeat split. Qed.

Example JSON_stringify_samples :
  JSON.stringify (rows_json []) = js "[]"
  /\ JSON.stringify (JArr [JNum Number.NaN; JNum (S754_infinity false); JNull]) = js "[null,null,null]"
  /\ JSON.stringify (JStr [10; 55357; 56832; 56832]%N)
     = [34; 92; 110; 55357; 56832; 92; 117; 100; 101; 48; 48; 34]%N.
Proof. vm_compute. repeat split. Qed.

Example string_samples :
  trim (js "  a b ") = js "a b"
  /\ split_on 95 (js "lora_1") = [js "lora"; js "1"]
  /\ MultiLora.slot_key (js "lora_3") = js "3"
  /\ MultiLora.slot_key (js "lora") = js "undefined"
  /\ toLowerCase_latin1 (js "ABCX-def") = js "abcx-def"
  /\ PlainObject.get (∅ : gmap jsstring jsstring) (js "constructor")
     = Some (Inherited (js "constructor")).
Proof. vm_compute. repeat split. Qed.

(** The slot key of the multi-LoRA widget holds no underscore; it is never
    [__proto__]. *)
Lemma split_on_no_sep (sep : N) (s : jsstring) :
  Forall (fun part => ~ In sep part) (split_on sep s).
Proof.
  induction s as [|c s IH]; cbn [split_on]; [constructor; [by intros []|constructor]|].
  destruct (N.eqb_spec c sep) as [->|Hne].
  - constructor; [by intros []|done].
  - destruct (split_on sep s) as [|w ws].
    + constructor; [|done]. intros [?|[]]. done.
    + inversion IH as [|? ? Hw Hws]; subst. constructor; [|done].
      intros [?|?]; done.
Qed.

Lemma slot_key_not_proto (widgetName : jsstring) :
  MultiLora.slot_key widgetName <> js "__proto__".
Proof.
  unfold MultiLora.slot_key.
  destruct (split_on 95 widgetName !! 1) as [num|] eqn:E; [|done].
  intros ->. pose proof (split_on_no_sep 95 widgetName) as H.
  rewrite Forall_forall in H.
  apply (H (js "__proto__")).
  - by eapply list_elem_of_lookup_2.
  - by left.
Qed.

(* ===================================================================== *)
(** * JSON: strings survive quoting *)
(* ===================================================================== *)

Module JSONFacts.
Import JSON.

Lemma hex_value_digit (d : N) :
  (d < 16)%N -> hex_value (hex_digit d) = Some d.
Proof.
  intros H.
  assert (Hd : (d = 0 \/ d = 1 \/ d = 2 \/ d = 3 \/ d = 4 \/ d = 5 \/ d = 6 \/ d = 7
                \/ d = 8 \/ d = 9 \/ d = 10 \/ d = 11 \/ d = 12 \/ d = 13 \/ d = 14
                \/ d = 15)%N) by lia.
  repeat (destruct Hd as [-> | Hd]; [reflexivity|]). by subst.
Qed.

Lemma hex4_unicode_escape (c : N) :
  (c < 65536)%N ->
  exists h1 h2 h3 h4,
    unicode_escape c = [92; 117; h1; h2; h3; h4]%N /\ hex4 h1 h2 h3 h4 = Some c.
Proof.
  intros Hc. unfold unicode_escape. do 4 eexists. split; [reflexivity|].
  unfold hex4.
  rewrite !hex_value_digit by (apply N.mod_lt; lia).
  f_equal. zify. Z.to_euclidean_division_equations. lia.
Qed.

Ltac case_N :=
  repeat match goal with
    | |- context [(?a =? ?b)%N] => destruct (N.eqb_spec a b)
    | |- context [(?a <? ?b)%N] => destruct (N.ltb_spec a b)
    | |- context [(?a <=? ?b)%N] => destruct (N.leb_spec a b)
    end.

Lemma surrogate_range (c : N) :
  is_lead c || is_trail c = true -> (32 <= c < 65536)%N /\ c <> 34%N /\ c <> 92%N.
Proof. unfold is_lead, is_trail. case_N; simpl; intros; try discriminate; lia. Qed.

(** A code unit copied as it is reads back as itself. *)
Lemma parse_string_body_literal (c : N) (s : jsstring) :
  (32 <= c)%N -> c <> 34%N -> c <> 92%N ->
  parse_string_body (c :: s) =
    match parse_string_body s with
    | Some (r, rest) => Some (c :: r, rest)
    | None => None
    end.
Proof.
  intros H1 H2 H3. simpl.
  destruct (N.eqb_spec c 34); [done|].
  destruct (N.eqb_spec c 92); [done|].
  destruct (N.ltb_spec c 32); [lia | done].
Qed.

(** A [\uXXXX] escape reads back as the code unit escaped. *)
Lemma parse_string_body_unicode (c : N) (s : jsstring) :
  (c < 65536)%N ->
  parse_string_body (unicode_escape c ++ s) =
    match parse_string_body s with
    | Some (r, rest) => Some (c :: r, rest)
    | None => None
    end.
Proof.
  intros Hc. destruct (hex4_unicode_escape c Hc) as (h1 & h2 & h3 & h4 & -> & Hh).
  cbn [app parse_string_body]. cbn [N.eqb Pos.eqb]. by rewrite Hh.
Qed.

Lemma parse_string_body_escape (c : N) (s : jsstring) :
  is_lead c = false -> is_trail c = false ->
  parse_string_body (escape c ++ s) =
    match parse_string_body s with
    | Some (r, rest) => Some (c :: r, rest)
    | None => None
    end.
Proof.
  intros _ _. unfold escape.
  destruct (N.eqb_spec c 8) as [->|]; [done|].
  destruct (N.eqb_spec c 9) as [->|]; [done|].
  destruct (N.eqb_spec c 10) as [->|]; [done|].
  destruct (N.eqb_spec c 12) as [->|]; [done|].
  destruct (N.eqb_spec c 13) as [->|]; [done|].
  destruct (N.eqb_spec c 34) as [->|]; [done|].
  destruct (N.eqb_spec c 92) as [->|]; [done|].
  destruct (N.ltb_spec c 32).
  - apply parse_string_body_unicode. lia.
  - by apply parse_string_body_literal.
Qed.

(** QuoteJSONString is inverted by the string parser, whatever follows the
    closing quote. *)
Lemma parse_string_body_quote (s rest : jsstring) :
  parse_string_body (quote_body s ++ 34%N :: rest) = Some (s, rest).
Proof.
  remember (length s) as n eqn:Hn.
  revert s Hn. induction (lt_wf n) as [n _ IH]. intros s ->.
  destruct s as [|c s]; [done|].
  cbn [quote_body].
  destruct (is_lead c) eqn:Hlead.
  - destruct (surrogate_range c) as (Hr & H34 & H92); [by rewrite Hlead|].
    destruct s as [|d s].
    + rewrite parse_string_body_unicode by lia. done.
    + destruct (is_trail d) eqn:Htrail.
      * destruct (surrogate_range d) as (Hr' & H34' & H92');
          [by rewrite Htrail, orb_true_r|].
        cbn [app]. rewrite !parse_string_body_literal by lia.
        rewrite (IH (length s)) by (simpl; lia || done). done.
      * rewrite <- app_assoc, parse_string_body_unicode by lia.
        rewrite (IH (length (d :: s))) by (simpl; lia || done). done.
  - destruct (is_trail c) eqn:Htrail.
    + destruct (surrogate_range c) as (Hr & H34 & H92);
        [by rewrite Htrail, orb_true_r|].
      rewrite <- app_assoc, parse_string_body_unicode by lia.
      rewrite (IH (length s)) by (simpl; lia || done). done.
    + rewrite <- app_assoc, parse_string_body_escape by done.
      rewrite (IH (length s)) by (simpl; lia || done). done.
Qed.

(** ** Numbers: a literal is read the same way in front of a comma *)


Lemma span_digits_comma (s t : jsstring) :
  span_digits (s ++ 44%N :: t) =
    (fst (span_digits s), snd (span_digits s) ++ 44%N :: t).
Proof.
  induction s as [|c s IH]; [done|].
  cbn [app span_digits]. destruct (Number.is_digit c); [|done].
  rewrite IH. by destruct (span_digits s).
Qed.

Lemma parse_int_part_comma (s t : jsstring) :
  parse_int_part (s ++ 44%N :: t) = before_comma t (parse_int_part s).
Proof.
  destruct s as [|c s]; [done|].
  cbn [app parse_int_part].
  destruct (c =? 48)%N; [done|].
  destruct (Number.is_digit c) eqn:Hc; [|done].
  change (c :: s ++ 44%N :: t) with ((c :: s) ++ 44%N :: t).
  rewrite span_digits_comma. cbn [before_comma]. by destruct (span_digits (c :: s)).
Qed.

Lemma parse_frac_part_comma (s t : jsstring) :
  parse_frac_part (s ++ 44%N :: t) = before_comma t (parse_frac_part s).
Proof.
  destruct s as [|c s]; [done|].
  cbn [app parse_frac_part].
  destruct (c =? 46)%N; [|done].
  rewrite span_digits_comma. by destruct (span_digits s) as [[|f fs] r].
Qed.

Lemma parse_exp_part_comma (s t : jsstring) :
  parse_exp_part (s ++ 44%N :: t) = before_comma t (parse_exp_part s).
Proof.
  destruct s as [|c s]; [done|].
  cbn [app parse_exp_part].
  destruct ((c =? 101) || (c =? 69))%N; [|done].
  destruct s as [|d s]; [done|].
  cbn [app].
  destruct (d =? 45)%N.
  { rewrite span_digits_comma. by destruct (span_digits s) as [[|f fs] r]. }
  destruct (d =? 43)%N.
  { rewrite span_digits_comma. by destruct (span_digits s) as [[|f fs] r]. }
  change (d :: s ++ 44%N :: t) with ((d :: s) ++ 44%N :: t).
  rewrite span_digits_comma. by destruct (span_digits (d :: s)) as [[|f fs] r].
Qed.

Lemma parse_number_comma (s t : jsstring) :
  parse_number (s ++ 44%N :: t) = before_comma t (parse_number s).
Proof.
  assert (Hgen : forall neg s1,
    match parse_int_part (s1 ++ 44%N :: t) with
    | None => None
    | Some (ds, s2) =>
        match parse_frac_part s2 with
        | None => None
        | Some (fs, s3) =>
            match parse_exp_part s3 with
            | None => None
            | Some (e, s4) =>
                Some (Number.of_decimal neg (Number.digits_value (ds ++ fs))
                        (e - Z.of_nat (length fs)), s4)
            end
        end
    end =
    before_comma t
      match parse_int_part s1 with
      | None => None
      | Some (ds, s2) =>
          match parse_frac_part s2 with
          | None => None
          | Some (fs, s3) =>
              match parse_exp_part s3 with
              | None => None
              | Some (e, s4) =>
                  Some (Number.of_decimal neg (Number.digits_value (ds ++ fs))
                          (e - Z.of_nat (length fs)), s4)
              end
          end
      end).
  { intros neg s1. rewrite parse_int_part_comma.
    destruct (parse_int_part s1) as [[ds s2]|]; [|done]. cbn [before_comma].
    rewrite parse_frac_part_comma.
    destruct (parse_frac_part s2) as [[fs s3]|]; [|done]. cbn [before_comma].
    rewrite parse_exp_part_comma.
    by destruct (parse_exp_part s3) as [[e s4]|]. }
  unfold parse_number.
  destruct s as [|c s]; [done|].
  cbn [app]. destruct (c =? 45)%N; [apply Hgen|].
  apply (Hgen false (c :: s)).
Qed.

(** ** White space *)

Lemma skip_ws_app (s t : jsstring) :
  skip_ws s <> [] -> skip_ws (s ++ t) = skip_ws s ++ t.
Proof.
  induction s as [|c s IH]; [done|].
  cbn [app skip_ws]. destruct (is_ws c); auto.
Qed.

Lemma skip_ws_blank (r : jsstring) (c : N) (t : jsstring) :
  skip_ws r = [] -> is_ws c = false -> skip_ws (r ++ c :: t) = c :: t.
Proof.
  intros Hr Hc. induction r as [|d r IH]; cbn [app skip_ws].
  - by rewrite Hc.
  - cbn [skip_ws] in Hr. destruct (is_ws d); [auto | done].
Qed.

(** ** Unfolding the parser *)

Lemma parse_value_S (f : nat) (s : jsstring) :
  parse_value (S f) s =
    match skip_ws s with
    | [] => None
    | c :: s' =>
        if (c =? 34)%N then
          match parse_string_body s' with
          | Some (str, r) => Some (JStr str, r)
          | None => None
          end
        else if (c =? 91)%N then
          match skip_ws s' with
          | d :: r => if (d =? 93)%N then Some (JArr [], r)
                      else match parse_elements f s' with
                           | Some (vs, r') => Some (JArr vs, r')
                           | None => None
                           end
          | [] => None
          end
        else if (c =? 123)%N then
          match skip_ws s' with
          | d :: r => if (d =? 125)%N then Some (JObj [], r)
                      else match parse_members f s' with
                           | Some (ms, r') => Some (build_object ms, r')
                           | None => None
                           end
          | [] => None
          end
        else if (c =? 110)%N then
          match starts (js "null") (c :: s') with
          | Some r => Some (JNull, r) | None => None end
        else if (c =? 116)%N then
          match starts (js "true") (c :: s') with
          | Some r => Some (JBool true, r) | None => None end
        else if (c =? 102)%N then
          match starts (js "false") (c :: s') with
          | Some r => Some (JBool false, r) | None => None end
        else
          match parse_number (c :: s') with
          | Some (n, r) => Some (JNum n, r)
          | None => None
          end
    end.
Proof. reflexivity. Qed.

Lemma parse_elements_S (f : nat) (s : jsstring) :
  parse_elements (S f) s =
    match parse_value f s with
    | None => None
    | Some (v, r) =>
        match skip_ws r with
        | d :: r' =>
            if (d =? 44)%N then
              match parse_elements f r' with
              | Some (vs, r'') => Some (v :: vs, r'')
              | None => None
              end
            else if (d =? 93)%N then Some ([v], r')
            else None
        | [] => None
        end
    end.
Proof. reflexivity. Qed.

Lemma parse_members_S (f : nat) (s : jsstring) :
  parse_members (S f) s =
    match skip_ws s with
    | q :: s1 =>
        if (q =? 34)%N then
          match parse_string_body s1 with
          | None => None
          | Some (k, s2) =>
              match skip_ws s2 with
              | col :: s3 =>
                  if (col =? 58)%N then
                    match parse_value f s3 with
                    | None => None
                    | Some (v, r) =>
                        match skip_ws r with
                        | d :: r' =>
                            if (d =? 44)%N then
                              match parse_members f r' with
                              | Some (ms, r'') => Some ((k, v) :: ms, r'')
                              | None => None
                              end
                            else if (d =? 125)%N then Some ([(k, v)], r')
                            else None
                        | [] => None
                        end
                    end
                  else None
              | [] => None
              end
          end
        else None
    | [] => None
    end.
Proof. reflexivity. Qed.

(** A representable number is a JSON number; it is read back in front of
    a comma too. *)
Lemma parse_value_number_comma (x : number) (f : nat) (t : jsstring) :
  json_representable x ->
  exists r, parse_value (S f) (stringify (JNum x) ++ 44%N :: t) = Some (JNum x, r)
            /\ skip_ws r = 44%N :: t.
Proof.
  unfold json_representable, parse.
  set (text := stringify (JNum x)). intros H.
  rewrite parse_value_S in H. rewrite parse_value_S.
  destruct (skip_ws text) as [|c s'] eqn:Ews; [done|].
  rewrite skip_ws_app by (by rewrite Ews). rewrite Ews. cbn [app].
  destruct (c =? 34)%N. { repeat case_match; simplify_eq. }
  destruct (c =? 91)%N. { repeat case_match; simplify_eq. }
  destruct (c =? 123)%N. { unfold build_object in H. repeat case_match; simplify_eq. }
  destruct (c =? 110)%N. { repeat case_match; simplify_eq. }
  destruct (c =? 116)%N. { repeat case_match; simplify_eq. }
  destruct (c =? 102)%N. { repeat case_match; simplify_eq. }
  change (c :: s' ++ 44%N :: t) with ((c :: s') ++ 44%N :: t).
  rewrite parse_number_comma.
  destruct (parse_number (c :: s')) as [[n r]|]; [|done].
  cbn [before_comma].
  destruct (skip_ws r) eqn:Hr; [|done]. injection H as ->.
  eexists. split; [reflexivity|]. by apply skip_ws_blank.
Qed.

(** ** Fuel: the length of the text is enough *)

Lemma skip_ws_length (s : jsstring) : length (skip_ws s) <= length s.
Proof.
  induction s as [|c s IH]; cbn [skip_ws length]; [lia|].
  destruct (is_ws c); cbn [length]; lia.
Qed.

Lemma parse_string_body_length (s str r : jsstring) :
  parse_string_body s = Some (str, r) -> length r < length s.
Proof.
  remember (length s) as n eqn:Hn. revert s str r Hn.
  induction (lt_wf n) as [n _ IH]. intros s str r -> H.
  destruct s as [|c s]; [done|]. cbn [parse_string_body] in H.
  destruct (c =? 34)%N. { injection H as _ <-. cbn [length]. lia. }
  destruct (c =? 92)%N.
  - destruct s as [|e s]; [done|].
    destruct (e =? 117)%N.
    + destruct s as [|h1 [|h2 [|h3 [|h4 s]]]]; try done.
      destruct (hex4 h1 h2 h3 h4); [|done].
      destruct (parse_string_body s) as [[r0 rest]|] eqn:E; [|done].
      injection H as _ <-.
      specialize (IH (length s) ltac:(cbn [length]; lia) s r0 rest eq_refl E).
      cbn [length]. lia.
    + destruct (simple_escape e); [|done].
      destruct (parse_string_body s) as [[r0 rest]|] eqn:E; [|done].
      injection H as _ <-.
      specialize (IH (length s) ltac:(cbn [length]; lia) s r0 rest eq_refl E).
      cbn [length]. lia.
  - destruct (c <? 32)%N; [done|].
    destruct (parse_string_body s) as [[r0 rest]|] eqn:E; [|done].
    injection H as _ <-.
    specialize (IH (length s) ltac:(cbn [length]; lia) s r0 rest eq_refl E).
    cbn [length]. lia.
Qed.

Lemma span_digits_length (s : jsstring) :
  length (fst (span_digits s)) + length (snd (span_digits s)) = length s.
Proof.
  induction s as [|c s IH]; [done|]. cbn [span_digits].
  destruct (Number.is_digit c); [|done].
  destruct (span_digits s). cbn [fst snd length] in *. lia.
Qed.

Lemma parse_number_length (s : jsstring) (x : number) (r : jsstring) :
  parse_number s = Some (x, r) -> length r < length s.
Proof.
  unfold parse_number.
  assert (Hint : forall s1 ds s2, parse_int_part s1 = Some (ds, s2) -> length s2 < length s1).
  { intros [|c s1] ds s2; [done|]. cbn [parse_int_part].
    destruct (c =? 48)%N. { intros [= _ <-]. cbn [length]. lia. }
    destruct (Number.is_digit c) eqn:Hc; [|done].
    pose proof (span_digits_length s1) as Hl.
    cbn [span_digits]. rewrite Hc. destruct (span_digits s1) as [ds' r'].
    intros [= <- <-]. cbn [fst snd length] in *. lia. }
  assert (Hfrac : forall s2 fs s3, parse_frac_part s2 = Some (fs, s3) -> length s3 <= length s2).
  { intros [|c s2] fs s3; cbn [parse_frac_part]. { by intros [= _ <-]. }
    destruct (c =? 46)%N; [|by intros [= _ <-]].
    pose proof (span_digits_length s2) as Hl.
    destruct (span_digits s2) as [[|f0 fs0] r0]; [done|].
    intros [= _ <-]. cbn [fst snd length] in *. lia. }
  assert (Hexp : forall s3 e s4, parse_exp_part s3 = Some (e, s4) -> length s4 <= length s3).
  { intros [|c s3] e s4; cbn [parse_exp_part]. { by intros [= _ <-]. }
    destruct ((c =? 101) || (c =? 69))%N; [|by intros [= _ <-]].
    destruct s3 as [|d s3].
    - cbn [span_digits]. done.
    - destruct (d =? 45)%N.
      { destruct (span_digits s3) as [[|e0 es0] r0] eqn:E; [done|].
        intros [= _ <-]. pose proof (span_digits_length s3) as Hl. rewrite E in Hl.
        cbn [fst snd length] in *. lia. }
      destruct (d =? 43)%N.
      { destruct (span_digits s3) as [[|e0 es0] r0] eqn:E; [done|].
        intros [= _ <-]. pose proof (span_digits_length s3) as Hl. rewrite E in Hl.
        cbn [fst snd length] in *. lia. }
      destruct (span_digits (d :: s3)) as [[|e0 es0] r0] eqn:E; [done|].
      intros [= _ <-]. pose proof (span_digits_length (d :: s3)) as Hl. rewrite E in Hl.
      cbn [fst snd length] in *. lia. }
  assert (Hgen : forall neg s1,
    match parse_int_part s1 with
    | None => None
    | Some (ds, s2) =>
        match parse_frac_part s2 with
        | None => None
        | Some (fs, s3) =>
            match parse_exp_part s3 with
            | None => None
            | Some (e, s4) =>
                Some (Number.of_decimal neg (Number.digits_value (ds ++ fs))
                        (e - Z.of_nat (length fs)), s4)
            end
        end
    end = Some (x, r) -> length r < length s1).
  { intros neg s1.
    destruct (parse_int_part s1) as [[ds s2]|] eqn:E1; [|done].
    destruct (parse_frac_part s2) as [[fs s3]|] eqn:E2; [|done].
    destruct (parse_exp_part s3) as [[e s4]|] eqn:E3; [|done].
    intros [= _ <-]. apply Hint in E1. apply Hfrac in E2. apply Hexp in E3. lia. }
  destruct s as [|c s]; [done|].
  destruct (c =? 45)%N.
  - intros H%Hgen. cbn [length]. lia.
  - apply Hgen.
Qed.

Lemma starts_length (lit s r : jsstring) :
  starts lit s = Some r -> length lit <> 0 -> length r < length s.
Proof.
  unfold starts. destruct (starts_with lit s) eqn:E; [|done].
  intros [= <-] Hlit. apply starts_with_spec in E as [post ->].
  rewrite drop_app_length, length_app. lia.
Qed.

(** A run that succeeds consumes at least one character, and succeeds with
    any fuel that is at least the number of characters it consumes. *)
Lemma parse_fuel (f : nat) :
  (forall s v r, parse_value f s = Some (v, r) ->
     (length r < length s) /\
     (forall f', length s - length r <= f' -> parse_value f' s = Some (v, r)))
  /\ (forall s vs r, parse_elements f s = Some (vs, r) ->
        (length r < length s) /\
        (forall f', length s - length r <= f' -> parse_elements f' s = Some (vs, r)))
  /\ (forall s ms r, parse_members f s = Some (ms, r) ->
        (length r < length s) /\
        (forall f', length s - length r <= f' -> parse_members f' s = Some (ms, r))).
Proof.
  induction f as [|f (IHv & IHe & IHm)]; [done|].
  split; [|split].
  - intros s v r. rewrite parse_value_S.
    pose proof (skip_ws_length s) as Hws.
    destruct (skip_ws s) as [|c s'] eqn:Es; [done|]. cbn [length] in Hws.
    destruct (c =? 34)%N eqn:E34.
    { destruct (parse_string_body s') as [[str r0]|] eqn:E; [|done].
      intros [= <- <-]. pose proof (parse_string_body_length _ _ _ E) as HE.
      split; [lia|]. intros [|f'] Hf; [lia|].
      by rewrite parse_value_S, Es, E34, E. }
    destruct (c =? 91)%N eqn:E91.
    { pose proof (skip_ws_length s') as Hws'.
      destruct (skip_ws s') as [|d r0] eqn:Es'; [done|]. cbn [length] in Hws'.
      destruct (d =? 93)%N eqn:E93.
      - intros [= <- <-]. split; [lia|]. intros [|f'] Hf; [lia|].
        by rewrite parse_value_S, Es, E34, E91, Es', E93.
      - destruct (parse_elements f s') as [[vs r']|] eqn:E; [|done].
        intros [= <- <-]. destruct (IHe _ _ _ E) as [Hlen Hfuel].
        split; [lia|]. intros [|f'] Hf; [lia|].
        rewrite parse_value_S, Es, E34, E91, Es', E93, Hfuel by lia. done. }
    destruct (c =? 123)%N eqn:E123.
    { pose proof (skip_ws_length s') as Hws'.
      destruct (skip_ws s') as [|d r0] eqn:Es'; [done|]. cbn [length] in Hws'.
      destruct (d =? 125)%N eqn:E125.
      - intros [= <- <-]. split; [lia|]. intros [|f'] Hf; [lia|].
        by rewrite parse_value_S, Es, E34, E91, E123, Es', E125.
      - destruct (parse_members f s') as [[ms r']|] eqn:E; [|done].
        intros [= <- <-]. destruct (IHm _ _ _ E) as [Hlen Hfuel].
        split; [lia|]. intros [|f'] Hf; [lia|].
        rewrite parse_value_S, Es, E34, E91, E123, Es', E125, Hfuel by lia. done. }
    destruct (c =? 110)%N eqn:E110.
    { destruct (starts (js "null") (c :: s')) as [r0|] eqn:E; [|done].
      intros [= <- <-]. pose proof (starts_length _ _ _ E ltac:(done)) as HE. cbn [length] in HE.
      split; [lia|]. intros [|f'] Hf; [lia|].
      by rewrite parse_value_S, Es, E34, E91, E123, E110, E. }
    destruct (c =? 116)%N eqn:E116.
    { destruct (starts (js "true") (c :: s')) as [r0|] eqn:E; [|done].
      intros [= <- <-]. pose proof (starts_length _ _ _ E ltac:(done)) as HE. cbn [length] in HE.
      split; [lia|]. intros [|f'] Hf; [lia|].
      by rewrite parse_value_S, Es, E34, E91, E123, E110, E116, E. }
    destruct (c =? 102)%N eqn:E102.
    { destruct (starts (js "false") (c :: s')) as [r0|] eqn:E; [|done].
      intros [= <- <-]. pose proof (starts_length _ _ _ E ltac:(done)) as HE. cbn [length] in HE.
      split; [lia|]. intros [|f'] Hf; [lia|].
      by rewrite parse_value_S, Es, E34, E91, E123, E110, E116, E102, E. }
    destruct (parse_number (c :: s')) as [[n r0]|] eqn:E; [|done].
    intros [= <- <-]. pose proof (parse_number_length _ _ _ E) as HE. cbn [length] in HE.
    split; [lia|]. intros [|f'] Hf; [lia|].
    by rewrite parse_value_S, Es, E34, E91, E123, E110, E116, E102, E.
  - intros s vs r. rewrite parse_elements_S.
    destruct (parse_value f s) as [[v r1]|] eqn:Ev; [|done].
    destruct (IHv _ _ _ Ev) as [Hlen1 Hfuel1].
    pose proof (skip_ws_length r1) as Hws.
    destruct (skip_ws r1) as [|d r2] eqn:Es; [done|]. cbn [length] in Hws.
    destruct (d =? 44)%N eqn:E44.
    + destruct (parse_elements f r2) as [[vs' r3]|] eqn:Ee; [|done].
      intros [= <- <-]. destruct (IHe _ _ _ Ee) as [Hlen2 Hfuel2].
      split; [lia|]. intros [|f'] Hf; [lia|].
      rewrite parse_elements_S, Hfuel1 by lia. rewrite Es, E44, Hfuel2 by lia. done.
    + destruct (d =? 93)%N eqn:E93; [|done].
      intros [= <- <-]. split; [lia|]. intros [|f'] Hf; [lia|].
      rewrite parse_elements_S, Hfuel1 by lia. by rewrite Es, E44, E93.
  - intros s ms r. rewrite parse_members_S.
    pose proof (skip_ws_length s) as Hws.
    destruct (skip_ws s) as [|q s1] eqn:Es; [done|]. cbn [length] in Hws.
    destruct (q =? 34)%N eqn:E34; [|done].
    destruct (parse_string_body s1) as [[k s2]|] eqn:Ek; [|done].
    pose proof (parse_string_body_length _ _ _ Ek) as Hk.
    pose proof (skip_ws_length s2) as Hws2.
    destruct (skip_ws s2) as [|col s3] eqn:Es2; [done|]. cbn [length] in Hws2.
    destruct (col =? 58)%N eqn:E58; [|done].
    destruct (parse_value f s3) as [[v r1]|] eqn:Ev; [|done].
    destruct (IHv _ _ _ Ev) as [Hlen1 Hfuel1].
    pose proof (skip_ws_length r1) as Hws3.
    destruct (skip_ws r1) as [|d r2] eqn:Es3; [done|]. cbn [length] in Hws3.
    destruct (d =? 44)%N eqn:E44.
    + destruct (parse_members f r2) as [[ms' r3]|] eqn:Em; [|done].
      intros [= <- <-]. destruct (IHm _ _ _ Em) as [Hlen2 Hfuel2].
      split; [lia|]. intros [|f'] Hf; [lia|].
      rewrite parse_members_S, Es, E34, Ek, Es2, E58, Hfuel1 by lia.
      rewrite Es3, E44, Hfuel2 by lia. done.
    + destruct (d =? 125)%N eqn:E125; [|done].
      intros [= <- <-]. split; [lia|]. intros [|f'] Hf; [lia|].
      rewrite parse_members_S, Es, E34, Ek, Es2, E58, Hfuel1 by lia.
      by rewrite Es3, E44, E125.
Qed.

(** [JSON.parse] never fails for want of fuel: a text that some amount of
    fuel parses is parsed by [parse], with the same value. *)
Lemma parse_complete (f : nat) (text : jsstring) (v : Json) (r : jsstring) :
  parse_value f text = Some (v, r) -> skip_ws r = [] -> parse text = Returned v.
Proof.
  intros H Hr. destruct (parse_fuel f) as (Hv & _ & _).
  destruct (Hv _ _ _ H) as [_ Hfuel].
  unfold parse. rewrite Hfuel by lia. by rewrite Hr.
Qed.

(** ** Rows *)

Ltac eval_js :=
  repeat match goal with
    | |- context [js ?s] =>
        let v := eval vm_compute in (js s) in change (js s) with v
    end.


(** The text of one row, spelled out. *)
Lemma stringify_row (r : Row) (rest : jsstring) :
  stringify (row_json r) ++ rest =
    (123 :: 34 :: 108 :: 111 :: 114 :: 97 :: 34 :: 58 :: 34 :: quote_body (lora r) ++
     34 :: 44 :: 34 :: 115 :: 116 :: 114 :: 101 :: 110 :: 103 :: 116 :: 104 :: 34 :: 58 ::
     stringify (JNum (strength r)) ++
     44 :: 34 :: 111 :: 110 :: 34 :: 58 :: bool_text (on r) ++ 125 :: rest)%N.
Proof.
  destruct r as [l x b]. unfold row_json.
  cbn [stringify map fst snd join lora strength on].
  replace (match b with true => js "true" | false => js "false" end) with (bool_text b)
    by (by destruct b).
  unfold quote. eval_js. cbn [app quote_body is_lead is_trail escape N.eqb Pos.eqb
    N.leb N.ltb N.compare Pos.compare Pos.compare_cont andb].
  repeat (rewrite <- app_assoc; cbn [app]). reflexivity.
Qed.

Ltac step := cbn [skip_ws is_ws N.eqb Pos.eqb orb parse_string_body N.ltb N.compare
                  Pos.compare Pos.compare_cont simple_escape].

Lemma parse_value_row (r : Row) (f : nat) (rest : jsstring) :
  json_representable (strength r) ->
  parse_value (5 + f) (stringify (row_json r) ++ rest) = Some (row_json r, rest).
Proof.
  intros Hx. rewrite stringify_row.
  cbn [Nat.add]. rewrite parse_value_S. step.
  rewrite parse_members_S. step.
  rewrite parse_value_S. step.
  rewrite parse_string_body_quote. step.
  rewrite parse_members_S. step.
  destruct (parse_value_number_comma (strength r) (S f)
              (34 :: 111 :: 110 :: 34 :: 58 :: bool_text (on r) ++ 125 :: rest)%N Hx)
    as (r1 & -> & ->).
  step.
  rewrite parse_members_S. step.
  rewrite parse_value_S.
  destruct r as [l x []]; reflexivity.
Qed.


Lemma rows_text_one (r : Row) : rows_text [r] = stringify (row_json r).
Proof. reflexivity. Qed.

Lemma rows_text_cons (r0 r1 : Row) (rows : list Row) :
  rows_text (r0 :: r1 :: rows) = stringify (row_json r0) ++ 44%N :: rows_text (r1 :: rows).
Proof. reflexivity. Qed.

Lemma row_text_length (r : Row) : 29 <= length (stringify (row_json r)).
Proof.
  pose proof (f_equal (@length N) (stringify_row r [])) as H.
  rewrite app_nil_r in H. rewrite H.
  repeat (rewrite ?length_app; cbn [length]). lia.
Qed.

Lemma rows_text_length (r0 : Row) (rows : list Row) :
  29 * S (length rows) <= length (rows_text (r0 :: rows)).
Proof.
  revert r0. induction rows as [|r1 rows IH]; intros r0.
  - rewrite rows_text_one. pose proof (row_text_length r0). cbn [length]. lia.
  - rewrite rows_text_cons, length_app. cbn [length].
    pose proof (row_text_length r0). specialize (IH r1). lia.
Qed.

Lemma parse_elements_rows (rows : list Row) (r0 : Row) (f : nat) (rest : jsstring) :
  Forall (fun r => json_representable (strength r)) (r0 :: rows) ->
  parse_elements (6 + length rows + f) (rows_text (r0 :: rows) ++ 93%N :: rest)
  = Some (map row_json (r0 :: rows), rest).
Proof.
  revert r0 f. induction rows as [|r1 rows IH]; intros r0 f Hall.
  - apply Forall_inv in Hall.
    rewrite rows_text_one. cbn [map length Nat.add].
    rewrite parse_elements_S.
    rewrite (parse_value_row r0 f) by done. by step.
  - pose proof (Forall_inv Hall) as H0. apply Forall_inv_tail in Hall.
    rewrite rows_text_cons. cbn [length].
    replace (6 + S (length rows) + f) with (S (5 + (1 + length rows + f))) by lia.
    rewrite parse_elements_S.
    rewrite <- app_assoc.
    rewrite (parse_value_row r0) by done. cbn [app]. step.
    replace (5 + (1 + length rows + f)) with (6 + length rows + f) by lia.
    by rewrite (IH r1 f Hall).
Qed.

(** The text JSON.stringify writes for a non-empty row sequence is read
    back by JSON.parse as the same sequence. *)
Lemma parse_stringify_rows (rows : list Row) :
  rows <> [] ->
  Forall (fun r => json_representable (strength r)) rows ->
  parse (stringify (rows_json rows)) = Returned (rows_json rows).
Proof.
  destruct rows as [|r0 rows]; [done|]. intros _ Hall.
  unfold parse, rows_json.
  cbn [stringify]. eval_js.
  change (join [44%N] (map stringify (map row_json (r0 :: rows))))
    with (rows_text (r0 :: rows)).
  cbn [app length].
  rewrite parse_value_S. step.
  assert (Hhead : exists t, rows_text (r0 :: rows) ++ [93%N] = 123%N :: t).
  { destruct rows as [|r1 rows].
    - rewrite rows_text_one, stringify_row. eauto.
    - rewrite rows_text_cons, <- app_assoc, stringify_row. eauto. }
  destruct Hhead as [t Ht]. rewrite Ht. step. rewrite <- Ht.
  pose proof (rows_text_length r0 rows) as Hlen.
  rewrite length_app. cbn [length].
  replace (S (length (rows_text (r0 :: rows)) + 1))
    with (6 + length rows + (length (rows_text (r0 :: rows)) + 2 - 6 - length rows)) by lia.
  rewrite parse_elements_rows by done. done.
Qed.

(** Only the empty sequence is written as [[]]. *)
Lemma stringify_rows_empty (rows : list Row) :
  stringify (rows_json rows) = js "[]" -> rows = [].
Proof.
  destruct rows as [|r0 rows]; [done|]. intros H. exfalso.
  apply (f_equal (@length N)) in H. revert H.
  unfold rows_json. cbn [stringify]. eval_js.
  change (join [44%N] (map stringify (map row_json (r0 :: rows))))
    with (rows_text (r0 :: rows)).
  pose proof (rows_text_length r0 rows) as Hlen.
  rewrite !length_app. cbn [length]. lia.
Qed.

Lemma stringify_rows_truthy (rows : list Row) :
  str_truthy (stringify (rows_json rows)) = true.
Proof. unfold rows_json. cbn [stringify]. by eval_js. Qed.

End JSONFacts.

(* ===================================================================== *)
(** * Numbers that JSON represents *)
(* ===================================================================== *)

Lemma Number_eqb_eq (a b : number) : Number.eqb a b = true -> a = b.
Proof.
  destruct a as [s|s| |s m e], b as [t|t| |t m' e']; cbn [Number.eqb]; try done.
  - by intros ->%Bool.eqb_prop.
  - by intros ->%Bool.eqb_prop.
  - intros [[->%Bool.eqb_prop ->%Pos.eqb_eq]%andb_prop ->%Z.eqb_eq]%andb_prop. done.
Qed.

Lemma representableb_sound (x : number) :
  representableb x = true -> json_representable x.
Proof.
  unfold representableb, json_representable.
  destruct (JSON.parse (JSON.stringify (JNum x))) as [[| | y | | |]|]; try done.
  by intros <-%Number_eqb_eq.
Qed.

(** Every strength with two decimals between -20 and 20 is representable;
    so are +0 and 1. *)
Lemma hundredths_representable : Forall json_representable hundredths.
Proof.
  apply Forall_forall. intros x Hx. apply representableb_sound.
  assert (H : forallb representableb hundredths = true) by (vm_compute; reflexivity).
  rewrite forallb_forall in H. apply H. by apply list_elem_of_In.
Qed.

Lemma zero_one_representable :
  json_representable (S754_zero false) /\ json_representable Number.one.
Proof. split; vm_compute; reflexivity. Qed.

(** A strength of ordinary use survives JSON: each of them is written and
    read back. *)
Lemma two_decimals_representable (x : number) : two_decimals x -> json_representable x.
Proof.
  intros [-> | (neg & k & Hk & ->)]; [apply zero_one_representable|].
  pose proof hundredths_representable as H. rewrite Forall_forall in H. apply H.
  apply list_elem_of_In. unfold hundredths. apply in_flat_map.
  exists k. split.
  - apply in_map_iff. exists (Z.to_nat k). split; [lia|]. apply in_seq. lia.
  - destruct neg; cbn [In]; auto.
Qed.

(** [JSON.stringify] drops the sign of [-0]. *)
Lemma negative_zero_not_representable : ~ json_representable (S754_zero true).
Proof. vm_compute. discriminate. Qed.

(** Neither [NaN] nor the infinities are representable: they are written
    as [null]. *)
Lemma non_finite_not_representable (x : number) :
  Number.is_finite x = false -> ~ json_representable x.
Proof.
  unfold json_representable. cbn [JSON.stringify]. intros ->.
  vm_compute. discriminate.
Qed.

(* ===================================================================== *)
(** * The widget state store *)
(* ===================================================================== *)

(** Unfolds the operations of [M]. *)
Ltac run_M :=
  unfold mbind, M_bind, bind, mret, M_ret, ret, gets, modify, lift, throw, try_catch in *.

Module StoreFacts.
Import PowerLora.

Lemma find_set_widget_value (n v : jsstring) (ws : list Widget) (w : Widget) :
  List.find (fun w => str_eqb (name w) n) ws = Some w ->
  List.find (fun w => str_eqb (name w) n) (set_widget_value n v ws)
  = Some {| name := name w; value := Some v |}.
Proof.
  induction ws as [|w0 ws IH]; [done|].
  cbn [List.find set_widget_value].
  destruct (str_eqb (name w0) n) eqn:E.
  - intros [= ->]. cbn [List.find name]. by rewrite E.
  - intros H. cbn [List.find]. rewrite E. auto.
Qed.

(** After [syncToWidget] the [lora_data] widget, when there is one, holds
    the serialized rows. *)
Lemma syncToWidget_text (st : State) :
  is_Some (find_widget (js "lora_data") (widgets (node st))) ->
  exists st',
    syncToWidget st = (Returned tt, st')
    /\ loraRows (node st') = loraRows (node st)
    /\ widget_text (find_widget (js "lora_data") (widgets (node st')))
       = (if str_truthy (JSON.stringify (loraRows (node st)))
          then Some (JSON.stringify (loraRows (node st))) else None).
Proof.
  intros [w Hw]. unfold syncToWidget, setDirtyCanvas. run_M.
  eexists. split; [reflexivity|].
  destruct st as [[ws rows ll td h g d] tc bs rq pd cs pg]. cbn in *.
  destruct ws as [ws|]; [|done]. cbn in Hw.
  destruct g; cbn; (split; [done|]);
    by rewrite (find_set_widget_value _ _ _ _ Hw).
Qed.

(** [syncToWidget] returns normally and touches only the widget value and
    the canvas. *)
Lemma syncToWidget_frame (st : State) :
  exists st',
    syncToWidget st = (Returned tt, st')
    /\ loraRows (node st') = loraRows (node st)
    /\ loraList (node st') = loraList (node st)
    /\ triggerDisplays (node st') = triggerDisplays (node st)
    /\ triggerCache st' = triggerCache st
    /\ badges st' = badges st
    /\ requests st' = requests st
    /\ pending st' = pending st
    /\ console st' = console st.
Proof.
  unfold syncToWidget, setDirtyCanvas. run_M.
  eexists. split; [reflexivity|].
  destruct st as [[ws rows ll td h g d] tc bs rq pd cs pg].
  destruct ws as [ws|], g; cbn; done.
Qed.

End StoreFacts.




(** C6.  When the persisted text is absent (no widgets, no [lora_data]
    widget, no value, or the empty string) or [JSON.parse] rejects it,
    [parseLoraData] returns normally with the row sequence reset to the empty
    array; nothing else changes, except that a parse failure leaves one entry
    on the console. *)
Theorem parseLoraData_absent_or_malformed (st : PowerLora.State) :
  let w := PowerLora.widget_text
             (PowerLora.find_widget (js "lora_data") (PowerLora.widgets (PowerLora.node st))) in
  (w = None \/ exists text e, w = Some text /\ JSON.parse text = Threw e) ->
  exists st',
    PowerLora.parseLoraData st = (Returned tt, st')
    /\ PowerLora.loraRows (PowerLora.node st') = JArr []
    /\ PowerLora.console st' =
         PowerLora.console st ++
         match w with
         | Some text =>
             match JSON.parse text with
             | Threw e => [(js "[PowerLoRA] Error parsing lora_data:", e)]
             | Returned _ => []
             end
         | None => []
         end
    /\ PowerLora.widgets (PowerLora.node st') = PowerLora.widgets (PowerLora.node st)
    /\ PowerLora.triggerDisplays (PowerLora.node st') = PowerLora.triggerDisplays (PowerLora.node st)
    /\ PowerLora.triggerCache st' = PowerLora.triggerCache st
    /\ PowerLora.requests st' = PowerLora.requests st.
Proof.
  intros w H. unfold PowerLora.parseLoraData, PowerLora.console_log. run_M.
  fold w. destruct H as [-> | (text & e & -> & Hparse)].
  - eexists. split; [reflexivity|]. cbn. by rewrite app_nil_r.
  - destruct (str_eqb text (js "[]")) eqn:E.
    + apply str_eqb_eq in E. subst text. vm_compute in Hparse. discriminate.
    + rewrite Hparse. eexists. split; [reflexivity|]. done.
Qed.

Lemma parseLoraData_absent_or_malformed_witness :
  let st := sample_state (Some (js "[{bad")) (rows_json sample_rows) in
  JSON.parse (js "[{bad") = Threw SyntaxError
  /\ PowerLora.loraRows (PowerLora.node (snd (PowerLora.parseLoraData st))) = JArr [].
Proof.
  split; [reflexivity|].
  destruct (parseLoraData_absent_or_malformed
              (sample_state (Some (js "[{bad")) (rows_json sample_rows)))
    as (st' & Hrun & Hrows & _).
  - right. exists (js "[{bad"), SyntaxError. split; reflexivity.
  - cbv zeta. rewrite Hrun. exact Hrows.
Defined.

(** C10.  [parseLoraData] does not validate the shape of what it reads.
    For every text in the [lora_data] widget other than [[]]: whatever value
    [JSON.parse] returns becomes the row sequence as it is, array of rows or
    not; the row sequence is reset to the empty array exactly when
    [JSON.parse] throws. *)
Theorem parseLoraData_installs_parsed_value (st : PowerLora.State) (text : jsstring) :
  PowerLora.widget_text
    (PowerLora.find_widget (js "lora_data") (PowerLora.widgets (PowerLora.node st)))
    = Some text ->
  text <> js "[]" ->
  exists st',
    PowerLora.parseLoraData st = (Returned tt, st')
    /\ PowerLora.loraRows (PowerLora.node st') =
         match JSON.parse text with
         | Returned v => v
         | Threw _ => JArr []
         end.
Proof.
  intros Hw Hne. unfold PowerLora.parseLoraData, PowerLora.console_log. run_M.
  rewrite Hw, (str_eqb_neq _ _ Hne).
  destruct (JSON.parse text); eexists; (split; [reflexivity|done]).
Qed.

Lemma parseLoraData_installs_parsed_value_witness :
  let st := sample_state (Some (js "{}")) (rows_json sample_rows) in
  PowerLora.loraRows (PowerLora.node (snd (PowerLora.parseLoraData st))) = JObj [].
Proof.
  destruct (parseLoraData_installs_parsed_value
              (sample_state (Some (js "{}")) (rows_json sample_rows)) (js "{}"))
    as (st' & Hrun & Hrows).
  - reflexivity.
  - discriminate.
  - cbv zeta. rewrite Hrun. exact Hrows.
Defined.

(* ===================================================================== *)
(** * The strength field *)
(* ===================================================================== *)

Lemma assoc_get_replace (props : list (jsstring * Json)) (k : jsstring) (v : Json) :
  is_Some (assoc_get props k) -> assoc_get (JSON.assoc_replace props k v) k = Some v.
Proof.
  induction props as [|[k' v'] ps IH]; cbn [assoc_get JSON.assoc_replace].
  - by intros [? ?].
  - destruct (str_eqb k' k) eqn:E; cbn [assoc_get]; rewrite E; auto.
Qed.

Lemma assoc_get_app_new (props : list (jsstring * Json)) (k : jsstring) (v : Json) :
  assoc_get props k = None -> assoc_get (props ++ [(k, v)]) k = Some v.
Proof.
  induction props as [|[k' v'] ps IH]; cbn [assoc_get app].
  - by rewrite str_eqb_refl.
  - destruct (str_eqb k' k); [done | auto].
Qed.

Lemma get_strength_define (props : list (jsstring * Json)) (v : Json) :
  assoc_get (JSON.define_prop props (js "strength") v) (js "strength") = Some v.
Proof.
  unfold JSON.define_prop.
  destruct (assoc_get props (js "strength")) eqn:E.
  - apply assoc_get_replace. by rewrite E.
  - change (JSON.array_index (js "strength")) with (@None Z).
    by apply assoc_get_app_new.
Qed.

(** C9.  The strength field.  When the input of the row at [index] (an
    object) changes to the string [input], the row's [strength] becomes
    [parseFloat(input)] if that is a number other than zero, and 1.0 if it is
    [NaN] or zero; the stored strength is therefore never zero (nor [NaN]),
    and entering [0] stores 1.0. *)
Theorem strength_onchange_stores
    (st : PowerLora.State) (index : nat) (input : jsstring)
    (items : list Json) (props : list (jsstring * Json)) :
  PowerLora.loraRows (PowerLora.node st) = JArr items ->
  items !! index = Some (JObj props) ->
  let x := parseFloat input in
  let v := if Number.is_nan x || Number.is_zero x then Number.one else x in
  (exists st' row',
     PowerLora.strength_onchange index input st = (Returned tt, st')
     /\ PowerLora.loraRows (PowerLora.node st') = JArr (<[index := row']> items)
     /\ get_prop row' (js "strength") = Returned (Some (JNum v)))
  /\ Number.is_zero v = false
  /\ Number.is_nan v = false
  /\ PowerLora.strength_of_input (js "0") = Number.one.
Proof.
  intros Hrows Hrow x v.
  assert (Hv : PowerLora.strength_of_input input = v).
  { unfold PowerLora.strength_of_input, Number.truthy. fold x. subst v.
    by destruct (Number.is_nan x), (Number.is_zero x). }
  split; [|split; [|split]].
  - unfold PowerLora.strength_onchange. run_M.
    rewrite Hrows, Hrow. cbn [PowerLora.set_strength]. rewrite Hv.
    match goal with
    | |- context [PowerLora.syncToWidget ?s] =>
        destruct (StoreFacts.syncToWidget_frame s) as (st' & -> & Hr & _)
    end.
    do 2 eexists. split; [reflexivity|]. split; [exact Hr|].
    cbn [get_prop]. by rewrite get_strength_define.
  - subst v. destruct (Number.is_nan x) eqn:E1, (Number.is_zero x) eqn:E2; done.
  - subst v. destruct (Number.is_nan x) eqn:E1, (Number.is_zero x) eqn:E2; done.
  - reflexivity.
Qed.

Lemma strength_onchange_stores_witness :
  let st := sample_state (Some (js "[]")) (rows_json sample_rows) in
  exists st' row',
    PowerLora.strength_onchange 1 (js "0") st = (Returned tt, st')
    /\ PowerLora.loraRows (PowerLora.node st') = JArr (<[1 := row']> (map row_json sample_rows))
    /\ get_prop row' (js "strength") = Returned (Some (JNum Number.one)).
Proof.
  apply (strength_onchange_stores
           (sample_state (Some (js "[]")) (rows_json sample_rows)) 1 (js "0")
           (map row_json sample_rows)
           [(js "lora", JStr []); (js "strength", JNum Number.one); (js "on", JBool false)]
           eq_refl eq_refl).
Defined.

(* ===================================================================== *)
(** * The prompt search *)
(* ===================================================================== *)

(** C8.  A query that is empty or consists of white space only issues no
    request: [performSearch] ends at once, awaiting nothing, leaving the
    request log as it was and the dialog titled "Please enter a search term"
    with no results. *)
Theorem performSearch_blank_query
    (query category : jsstring) (st : PromptSearch.State) :
  forallb is_js_space query = true ->
  PromptSearch.performSearch query category st
  = (Returned None,
     {| PromptSearch.dialog :=
          Some {| PromptSearch.title := js "Please enter a search term";
                  PromptSearch.prompts := [] |};
        PromptSearch.requests := PromptSearch.requests st |}).
Proof.
  intros H. unfold PromptSearch.performSearch.
  by rewrite (trim_spaces _ H).
Qed.

Lemma performSearch_blank_query_witness :
  forallb is_js_space (js "  ") = true
  /\ PromptSearch.requests
       (snd (PromptSearch.performSearch (js "  ") (js "any")
               {| PromptSearch.dialog := None; PromptSearch.requests := [] |})) = [].
Proof.
  split; [reflexivity|].
  by rewrite (performSearch_blank_query (js "  ") (js "any")
                {| PromptSearch.dialog := None; PromptSearch.requests := [] |} eq_refl).
Defined.

(** Any other query goes to the network. *)
Lemma performSearch_query_requests
    (query category : jsstring) (st : PromptSearch.State) :
  forallb is_js_space query = false ->
  exists req st',
    PromptSearch.performSearch query category st = (Returned (Some req), st')
    /\ PromptSearch.requests st' = PromptSearch.requests st ++ [req]
    /\ PromptSearch.dialog st' = PromptSearch.dialog st.
Proof.
  intros H. unfold PromptSearch.performSearch.
  destruct (trim query) as [|c t] eqn:E.
  - apply trim_nil_spaces in E. congruence.
  - cbn [str_truthy negb]. run_M. do 2 eexists. split; [reflexivity|]. done.
Qed.

(* ===================================================================== *)
(** * The dropdown filter *)
(* ===================================================================== *)

Lemma matching_Selected
    (toLowerCase : jsstring -> jsstring) (candidates : list jsstring) (filter : jsstring) :
  Selected (fun lora => is_substring (toLowerCase filter) (toLowerCase lora))
    candidates (PowerLora.matching toLowerCase candidates filter).
Proof.
  unfold PowerLora.matching.
  induction candidates as [|x l IH]; cbn [List.filter]; [constructor|].
  destruct (includes (toLowerCase x) (toLowerCase filter)) eqn:E.
  - apply Selected_keep; [|done]. by apply includes_spec.
  - apply Selected_skip; [|done]. intros H%includes_spec. congruence.
Qed.

Lemma Selected_unique {A} (P : A -> Prop) (l l1 l2 : list A) :
  Selected P l l1 -> Selected P l l2 -> l1 = l2.
Proof.
  intros H1. revert l2. induction H1; intros l2 H2; inversion H2; subst;
    try done; f_equal; auto.
Qed.

(** C7, as amended.  Below the [None] entry, which always comes first, the
    dropdown lists the first fifty of the candidates whose lower-case form
    contains the lower-case filter, in their original order, and after them,
    when more than fifty match, one entry telling how many are hidden.  With
    the filter [abc] the candidates [abcd], [xyz], [ABCX] show as [abcd],
    [ABCX]. *)
Theorem renderItems_first_fifty_matches
    (toLowerCase : jsstring -> jsstring) (candidates : list jsstring) (filter : jsstring) :
  (exists ms,
     Selected (fun lora => is_substring (toLowerCase filter) (toLowerCase lora)) candidates ms
     /\ PowerLora.renderItems toLowerCase candidates filter
        = PowerLora.NoneItem :: map PowerLora.LoraItem (take 50 ms)
          ++ (if 50 <? length ms then [PowerLora.MoreItem (length ms - 50)] else []))
  /\ PowerLora.renderItems toLowerCase_latin1 [js "abcd"; js "xyz"; js "ABCX"] (js "abc")
     = [PowerLora.NoneItem; PowerLora.LoraItem (js "abcd"); PowerLora.LoraItem (js "ABCX")].
Proof.
  split; [|reflexivity].
  exists (PowerLora.matching toLowerCase candidates filter).
  split; [apply matching_Selected | reflexivity].
Qed.

(** When at most fifty candidates match, the list is exactly the matches. *)
Lemma renderItems_all_matches
    (toLowerCase : jsstring -> jsstring) (candidates : list jsstring) (filter : jsstring) :
  length (PowerLora.matching toLowerCase candidates filter) <= 50 ->
  dropdown_lists_every_match toLowerCase candidates filter.
Proof.
  intros Hlen. exists (PowerLora.matching toLowerCase candidates filter).
  split; [apply matching_Selected|].
  unfold PowerLora.renderItems. cbn [app tail].
  rewrite take_ge by done.
  destruct (Nat.ltb_spec 50 (length (PowerLora.matching toLowerCase candidates filter)));
    [lia|]. by rewrite app_nil_r.
Qed.

(** C7 as stated fails once more than fifty candidates match: of fifty-one
    matching candidates the dropdown shows fifty, then the "1 more" entry. *)
Lemma renderItems_cap_counterexample :
  ~ dropdown_lists_every_match toLowerCase_latin1 (repeat (js "a") 51) [].
Proof.
  intros (ms & _ & Heq).
  assert (Hin : In (PowerLora.MoreItem 1)
                  (tail (PowerLora.renderItems toLowerCase_latin1 (repeat (js "a") 51) []))).
  { apply in_or_app with
      (l := map PowerLora.LoraItem (repeat (js "a") 50)) (m := [PowerLora.MoreItem 1]).
    right. by left. }
  rewrite Heq in Hin. apply in_map_iff in Hin as (x & Hx & _). discriminate.
Qed.

(* ===================================================================== *)
(** * Trigger words *)
(* ===================================================================== *)

Module PageFacts.
Import PowerLora.

Lemma has_id_set_first (index j : nat) (b : Badge) (els : list (nat * Badge)) :
  has_id j (set_first index b els) = has_id j els.
Proof.
  unfold has_id. induction els as [|[i old] rest IH]; [done|].
  cbn [set_first]. destruct (Nat.eqb i index); cbn [existsb fst]; [done|].
  by rewrite IH.
Qed.

(** The badge [updateTriggerDisplay] writes. *)
Lemma updateTriggerDisplay_frame (index : nat) (trigger : slot jsstring) (st : State) :
  exists st',
    updateTriggerDisplay index trigger st = (Returned tt, st')
    /\ node st' = node st
    /\ triggerCache st' = triggerCache st
    /\ requests st' = requests st
    /\ pending st' = pending st
    /\ console st' = console st
    /\ length (badges st') = length (badges st)
    /\ (forall j, has_id j (ahead (page st')) = has_id j (ahead (page st)))
    /\ (forall j, j <> index -> badges st' !! j = badges st !! j)
    /\ badges st' !! index
       = if has_id index (ahead (page st)) then badges st !! index
         else (fun _ => {| textContent := trigger;
                           hidden := negb (PlainObject.truthy str_truthy (Some trigger)) |})
              <$> badges st !! index.
Proof.
  unfold updateTriggerDisplay, modify. eexists. split; [reflexivity|].
  destruct st as [n tc bs rq pd cs [ah bh]].
  cbn [page ahead behind badges node triggerCache requests pending console].
  destruct (has_id index ah) eqn:Hah.
  - cbn. split_and!; try done. intros j. apply has_id_set_first.
  - destruct (bs !! index) as [old|] eqn:Hb.
    + cbn. rewrite length_insert. split_and!; try done.
      * intros j Hj. by rewrite list_lookup_insert_ne.
      * rewrite list_lookup_insert_eq; [done|]. by eapply lookup_lt_Some.
    + cbn. split_and!; done.
Qed.

(** The cache plays no part in it. *)
Lemma updateTriggerDisplay_cache (index : nat) (trigger : slot jsstring)
    (f : gmap jsstring jsstring -> gmap jsstring jsstring) (st : State) :
  updateTriggerDisplay index trigger (with_triggerCache f st)
  = (Returned tt, with_triggerCache f (snd (updateTriggerDisplay index trigger st))).
Proof.
  unfold updateTriggerDisplay, modify. cbn [snd]. f_equal.
  destruct st as [n tc bs rq pd cs [ah bh]].
  cbn [with_triggerCache page ahead badges node triggerCache requests pending console].
  destruct (has_id index ah); [done|]. by destruct (bs !! index).
Qed.

End PageFacts.

(** Runs the [updateTriggerDisplay] call of the goal. *)
Ltac run_update :=
  match goal with
  | |- context [PowerLora.updateTriggerDisplay ?i ?t ?s] =>
      destruct (PageFacts.updateTriggerDisplay_frame i t s)
        as (su & Hu_run & Hu_node & Hu_cache & Hu_req & Hu_pend & Hu_cons & Hu_len
            & Hu_ahead & Hu_other & Hu_badge);
      rewrite Hu_run
  end.

Module TriggerFacts.
Import PowerLora.

Lemma get_miss_not_proto {V} (o : gmap jsstring V) (k : jsstring) :
  PlainObject.get o k = None -> o !! k = None /\ k <> js "__proto__".
Proof.
  unfold PlainObject.get. destruct (o !! k); [done|].
  case_bool_decide as Hin; [done|]. intros _. split; [done|].
  intros ->. apply Hin. vm_compute. set_solver.
Qed.

Lemma get_set_eq {V} (o : gmap jsstring V) (k : jsstring) (v : V) :
  k <> js "__proto__" -> PlainObject.get (PlainObject.set o k v) k = Some (Own v).
Proof.
  intros Hk. unfold PlainObject.get, PlainObject.set.
  rewrite bool_decide_eq_false_2 by done. by rewrite lookup_insert_eq.
Qed.

(** The sentinel ids end the call at once: the display of the row is
    cleared, no request is issued, the cache is neither read nor written. *)
Lemma start_sentinel (index : nat) (x : jsstring) (st : State) :
  x = [] \/ x = js "None" ->
  exists st',
    fetchTriggerWord_start index (JStr x) st = (Returned None, st')
    /\ triggerDisplays (node st') = <[index := Own []]> (triggerDisplays (node st))
    /\ loraRows (node st') = loraRows (node st)
    /\ requests st' = requests st
    /\ pending st' = pending st
    /\ console st' = console st
    /\ triggerCache st' = triggerCache st
    /\ forall cache,
         fetchTriggerWord_start index (JStr x) (with_triggerCache (fun _ => cache) st)
         = (Returned None, with_triggerCache (fun _ => cache) st').
Proof.
  intros Hx. unfold fetchTriggerWord_start.
  replace (negb (json_truthy (JStr x)) || is_str (JStr x) (js "None")) with true
    by (by destruct Hx as [-> | ->]).
  unfold set_display. run_M.
  match goal with
  | |- context [updateTriggerDisplay index (Own []) ?s] =>
      destruct (PageFacts.updateTriggerDisplay_frame index (Own []) s)
        as (st' & Hrun & Hn & Hc & Hrq & Hpd & Hcs & _)
  end.
  rewrite Hrun. exists st'. split; [reflexivity|].
  rewrite Hn, Hc, Hrq, Hpd, Hcs. split_and!; try done.
  intros cache.
  change (with_node ?f (with_triggerCache ?g st)) with (with_triggerCache g (with_node f st)).
  rewrite PageFacts.updateTriggerDisplay_cache, Hrun. done.
Qed.

(** A cache miss issues the request and suspends the call. *)
Lemma start_miss (index : nat) (x : jsstring) (st : State) :
  str_truthy x = true -> x <> js "None" ->
  PlainObject.get (triggerCache st) x = None ->
  fetchTriggerWord_start index (JStr x) st
  = (Returned (Some (trigger_request x)),
     with_requests (fun r => r ++ [trigger_request x]) st).
Proof.
  intros Hx Hnone Hmiss. unfold fetchTriggerWord_start.
  cbn [json_truthy is_str ToString]. rewrite Hx, (str_eqb_neq _ _ Hnone).
  cbn [negb orb]. run_M. by rewrite Hmiss.
Qed.

(** A cache hit shows the cached trigger without a request. *)
Lemma start_hit (index : nat) (x t : jsstring) (st : State) :
  str_truthy x = true -> x <> js "None" ->
  PlainObject.get (triggerCache st) x = Some (Own t) -> str_truthy t = true ->
  exists st',
    fetchTriggerWord_start index (JStr x) st = (Returned None, st')
    /\ triggerDisplays (node st') = <[index := Own t]> (triggerDisplays (node st))
    /\ requests st' = requests st
    /\ triggerCache st' = triggerCache st.
Proof.
  intros Hx Hnone Hhit Ht. unfold fetchTriggerWord_start.
  cbn [json_truthy is_str ToString]. rewrite Hx, (str_eqb_neq _ _ Hnone).
  cbn [negb orb]. unfold set_display. run_M.
  rewrite Hhit. cbn [PlainObject.truthy]. rewrite Ht.
  run_update. exists su. split; [reflexivity|].
  rewrite Hu_node, Hu_req, Hu_cache. done.
Qed.

(** A successful response with a trigger word: the trimmed word is cached
    under the item id and displayed. *)
Lemma resume_trigger (index : nat) (x w : jsstring) (data : Json) (st : State) :
  get_prop data (js "trigger_word") = Returned (Some (JStr w)) ->
  str_truthy w = true ->
  exists st',
    fetchTriggerWord_resume index (JStr x)
      (Resolved {| ok := true; json := Returned data |}) st = (Returned tt, st')
    /\ triggerCache st' = PlainObject.set (triggerCache st) x (trim w)
    /\ triggerDisplays (node st') = <[index := Own (trim w)]> (triggerDisplays (node st))
    /\ requests st' = requests st
    /\ console st' = console st.
Proof.
  intros Hdata Hw. unfold fetchTriggerWord_resume.
  unfold set_display. run_M. cbn [ok json ToString].
  rewrite Hdata. cbn [opt_truthy json_truthy]. rewrite Hw.
  run_update. exists su. split; [reflexivity|].
  rewrite Hu_node, Hu_req, Hu_cache, Hu_cons. done.
Qed.

End TriggerFacts.

Module MultiTriggerFacts.
Import MultiLora.

Lemma multi_start_sentinel (widgetName x : jsstring) (st : State) :
  x = [] \/ x = js "None" ->
  exists st',
    fetchTriggerWord_start widgetName x st = (Returned None, st')
    /\ triggerDisplays st' = <[slot_key widgetName := Own []]> (triggerDisplays st)
    /\ requests st' = requests st
    /\ console st' = console st
    /\ triggerCache st' = triggerCache st
    /\ forall cache,
         fetchTriggerWord_start widgetName x (with_triggerCache (fun _ => cache) st)
         = (Returned None, with_triggerCache (fun _ => cache) st').
Proof.
  intros Hx. unfold fetchTriggerWord_start.
  replace (negb (str_truthy x) || str_eqb x (js "None")) with true
    by (by destruct Hx as [-> | ->]).
  unfold set_display, setDirtyCanvas. run_M.
  eexists. split; [reflexivity|]. cbn. done.
Qed.

Lemma multi_start_miss (widgetName x : jsstring) (st : State) :
  str_truthy x = true -> x <> js "None" ->
  PlainObject.get (triggerCache st) x = None ->
  fetchTriggerWord_start widgetName x st
  = (Returned (Some (trigger_request x)),
     with_requests (fun r => r ++ [trigger_request x]) st).
Proof.
  intros Hx Hnone Hmiss. unfold fetchTriggerWord_start.
  rewrite Hx, (str_eqb_neq _ _ Hnone).
  cbn [negb orb]. run_M. by rewrite Hmiss.
Qed.

Lemma multi_start_hit (widgetName x t : jsstring) (st : State) :
  str_truthy x = true -> x <> js "None" ->
  PlainObject.get (triggerCache st) x = Some (Own t) -> str_truthy t = true ->
  exists st',
    fetchTriggerWord_start widgetName x st = (Returned None, st')
    /\ triggerDisplays st' = <[slot_key widgetName := Own t]> (triggerDisplays st)
    /\ requests st' = requests st
    /\ triggerCache st' = triggerCache st.
Proof.
  intros Hx Hnone Hhit Ht. unfold fetchTriggerWord_start.
  rewrite Hx, (str_eqb_neq _ _ Hnone).
  cbn [negb orb]. unfold set_display, setDirtyCanvas. run_M.
  rewrite Hhit. cbn [PlainObject.truthy]. rewrite Ht.
  eexists. split; [reflexivity|]. done.
Qed.

Lemma multi_resume_trigger (widgetName x w : jsstring) (data : Json) (st : State) :
  get_prop data (js "trigger_word") = Returned (Some (JStr w)) ->
  str_truthy w = true ->
  exists st',
    fetchTriggerWord_resume widgetName x
      (Resolved {| ok := true; json := Returned data |}) st = (Returned tt, st')
    /\ triggerCache st' = PlainObject.set (triggerCache st) x (trim w)
    /\ triggerDisplays st' = <[slot_key widgetName := Own (trim w)]> (triggerDisplays st)
    /\ requests st' = requests st
    /\ console st' = console st.
Proof.
  intros Hdata Hw. unfold fetchTriggerWord_resume.
  unfold set_display, setDirtyCanvas. run_M. cbn [ok json].
  rewrite Hdata. cbn [opt_truthy json_truthy]. rewrite Hw.
  eexists. split; [reflexivity|]. done.
Qed.

End MultiTriggerFacts.

(** C5.  For the empty id and for the sentinel ["None"], in the power-LoRA
    widget and in the multi-LoRA widget alike, [fetchTriggerWord] ends before
    its first [await]: the trigger display of the slot becomes the empty
    string, no request is issued whatever the network would answer, and the
    cache is neither written nor consulted (the outcome is the same for every
    content of the cache). *)
Theorem fetchTriggerWord_sentinel_no_request (x : jsstring) :
  x = [] \/ x = js "None" ->
  (forall (net : Network) (index : nat) (st : PowerLora.State),
     exists st',
       PowerLora.fetchTriggerWord_start index (JStr x) st = (Returned None, st')
       /\ PowerLora.fetchTriggerWord_await net index (JStr x) st = (Returned tt, st')
       /\ PowerLora.triggerDisplays (PowerLora.node st') !! index = Some (Own [])
       /\ PowerLora.requests st' = PowerLora.requests st
       /\ PowerLora.triggerCache st' = PowerLora.triggerCache st
       /\ forall cache,
            PowerLora.fetchTriggerWord_start index (JStr x)
              (PowerLora.with_triggerCache (fun _ => cache) st)
            = (Returned None, PowerLora.with_triggerCache (fun _ => cache) st'))
  /\ (forall (net : Network) (widgetName : jsstring) (st : MultiLora.State),
        exists st',
          MultiLora.fetchTriggerWord_start widgetName x st = (Returned None, st')
          /\ MultiLora.fetchTriggerWord_await net widgetName x st = (Returned tt, st')
          /\ MultiLora.triggerDisplays st' !! MultiLora.slot_key widgetName = Some (Own [])
          /\ MultiLora.requests st' = MultiLora.requests st
          /\ MultiLora.triggerCache st' = MultiLora.triggerCache st
          /\ forall cache,
               MultiLora.fetchTriggerWord_start widgetName x
                 (MultiLora.with_triggerCache (fun _ => cache) st)
               = (Returned None, MultiLora.with_triggerCache (fun _ => cache) st')).
Proof.
  intros Hx. split.
  - intros net index st.
    destruct (TriggerFacts.start_sentinel index x st Hx)
      as (st' & Hstart & Hdisp & _ & Hreq & _ & _ & Hcache & Hindep).
    exists st'. split; [done|]. split.
    { unfold PowerLora.fetchTriggerWord_await. run_M. by rewrite Hstart. }
    rewrite Hdisp, lookup_insert_eq. done.
  - intros net widgetName st.
    destruct (MultiTriggerFacts.multi_start_sentinel widgetName x st Hx)
      as (st' & Hstart & Hdisp & Hreq & _ & Hcache & Hindep).
    exists st'. split; [done|]. split.
    { unfold MultiLora.fetchTriggerWord_await. run_M. by rewrite Hstart. }
    rewrite Hdisp, lookup_insert_eq. done.
Qed.

Lemma fetchTriggerWord_sentinel_no_request_witness :
  PowerLora.requests
    (snd (PowerLora.fetchTriggerWord_await (fun _ _ => trigger_response (js "word")) 0
            (JStr (js "None")) (sample_state None (rows_json sample_rows)))) = []
  /\ MultiLora.requests
       (snd (MultiLora.fetchTriggerWord_await (fun _ _ => trigger_response (js "word"))
               (js "lora_1") (js "None") multi_state)) = [].
Proof.
  destruct (fetchTriggerWord_sentinel_no_request (js "None") (or_intror eq_refl))
    as [Hpower Hmulti].
  split.
  - destruct (Hpower (fun _ _ => trigger_response (js "word")) 0
                (sample_state None (rows_json sample_rows)))
      as (st' & _ & Hawait & _ & Hreq & _).
    rewrite Hawait. cbn [snd]. rewrite Hreq. reflexivity.
  - destruct (Hmulti (fun _ _ => trigger_response (js "word")) (js "lora_1") multi_state)
      as (st' & _ & Hawait & _ & Hreq & _).
    rewrite Hawait. cbn [snd]. rewrite Hreq. reflexivity.
Defined.

(** C4, as amended.  Let [x] be an item id other than the empty string and
    ["None"] for which the cache holds nothing, and let the request of a first
    call succeed with a trigger word that is not empty once trimmed.  Then
    the first call stores the trimmed word in the cache under [x] and displays
    it, and a second call, made after the first has completed, displays the
    cached word without a request: the two calls issue exactly one request.
    This holds in the power-LoRA widget and in the multi-LoRA widget. *)
Theorem fetchTriggerWord_twice_one_request
    (net : Network) (x w : jsstring) (data : Json) :
  str_truthy x = true -> x <> js "None" ->
  get_prop data (js "trigger_word") = Returned (Some (JStr w)) ->
  str_truthy (trim w) = true ->
  (forall (index : nat) (st : PowerLora.State),
     PlainObject.get (PowerLora.triggerCache st) x = None ->
     net (length (PowerLora.requests st)) (trigger_request x)
       = Resolved {| ok := true; json := Returned data |} ->
     exists st1 st2,
       PowerLora.fetchTriggerWord_await net index (JStr x) st = (Returned tt, st1)
       /\ PowerLora.fetchTriggerWord_await net index (JStr x) st1 = (Returned tt, st2)
       /\ PowerLora.triggerCache st1 !! x = Some (trim w)
       /\ PowerLora.triggerDisplays (PowerLora.node st1) !! index = Some (Own (trim w))
       /\ PowerLora.requests st1 = PowerLora.requests st ++ [trigger_request x]
       /\ PowerLora.requests st2 = PowerLora.requests st1
       /\ PowerLora.triggerDisplays (PowerLora.node st2) !! index = Some (Own (trim w)))
  /\ (forall (widgetName : jsstring) (st : MultiLora.State),
        PlainObject.get (MultiLora.triggerCache st) x = None ->
        net (length (MultiLora.requests st)) (trigger_request x)
          = Resolved {| ok := true; json := Returned data |} ->
        exists st1 st2,
          MultiLora.fetchTriggerWord_await net widgetName x st = (Returned tt, st1)
          /\ MultiLora.fetchTriggerWord_await net widgetName x st1 = (Returned tt, st2)
          /\ MultiLora.triggerCache st1 !! x = Some (trim w)
          /\ MultiLora.triggerDisplays st1 !! MultiLora.slot_key widgetName
             = Some (Own (trim w))
          /\ MultiLora.requests st1 = MultiLora.requests st ++ [trigger_request x]
          /\ MultiLora.requests st2 = MultiLora.requests st1
          /\ MultiLora.triggerDisplays st2 !! MultiLora.slot_key widgetName
             = Some (Own (trim w))).
Proof.
  intros Hx Hnone Hdata Htrim.
  assert (Hw : str_truthy w = true) by (by destruct w).
  split.
  - intros index st Hmiss Hnet.
    destruct (TriggerFacts.get_miss_not_proto _ _ Hmiss) as [_ Hproto].
    pose proof (TriggerFacts.start_miss index x st Hx Hnone Hmiss) as Hstart.
    destruct (TriggerFacts.resume_trigger index x w data
                (PowerLora.with_requests (fun r => r ++ [trigger_request x]) st) Hdata Hw)
      as (st1 & Hres & Hcache1 & Hdisp1 & Hreq1 & _).
    assert (Hhit : PlainObject.get (PowerLora.triggerCache st1) x = Some (Own (trim w))).
    { rewrite Hcache1. by apply TriggerFacts.get_set_eq. }
    destruct (TriggerFacts.start_hit index x (trim w) st1 Hx Hnone Hhit Htrim)
      as (st2 & Hstart2 & Hdisp2 & Hreq2 & _).
    exists st1, st2. repeat split.
    + unfold PowerLora.fetchTriggerWord_await. run_M. by rewrite Hstart, Hnet.
    + unfold PowerLora.fetchTriggerWord_await. run_M. by rewrite Hstart2.
    + rewrite Hcache1. unfold PlainObject.set.
      rewrite bool_decide_eq_false_2 by done. apply lookup_insert_eq.
    + rewrite Hdisp1. apply lookup_insert_eq.
    + by rewrite Hreq1.
    + done.
    + rewrite Hdisp2. apply lookup_insert_eq.
  - intros widgetName st Hmiss Hnet.
    destruct (TriggerFacts.get_miss_not_proto _ _ Hmiss) as [_ Hproto].
    pose proof (MultiTriggerFacts.multi_start_miss widgetName x st Hx Hnone Hmiss) as Hstart.
    destruct (MultiTriggerFacts.multi_resume_trigger widgetName x w data
                (MultiLora.with_requests (fun r => r ++ [trigger_request x]) st) Hdata Hw)
      as (st1 & Hres & Hcache1 & Hdisp1 & Hreq1 & _).
    assert (Hhit : PlainObject.get (MultiLora.triggerCache st1) x = Some (Own (trim w))).
    { rewrite Hcache1. by apply TriggerFacts.get_set_eq. }
    destruct (MultiTriggerFacts.multi_start_hit widgetName x (trim w) st1 Hx Hnone Hhit Htrim)
      as (st2 & Hstart2 & Hdisp2 & Hreq2 & _).
    exists st1, st2. repeat split.
    + unfold MultiLora.fetchTriggerWord_await. run_M. by rewrite Hstart, Hnet.
    + unfold MultiLora.fetchTriggerWord_await. run_M. by rewrite Hstart2.
    + rewrite Hcache1. unfold PlainObject.set.
      rewrite bool_decide_eq_false_2 by done. apply lookup_insert_eq.
    + rewrite Hdisp1. apply lookup_insert_eq.
    + by rewrite Hreq1.
    + done.
    + rewrite Hdisp2. apply lookup_insert_eq.
Qed.

Lemma fetchTriggerWord_twice_one_request_witness :
  two_calls_one_request (fun _ _ => trigger_response (js "  spark ")) 0
    (js "a.safetensors") (sample_state None (rows_json sample_rows))
  /\ PowerLora.triggerCache
       (snd (PowerLora.fetchTriggerWord_await (fun _ _ => trigger_response (js "  spark ")) 0
               (JStr (js "a.safetensors")) (sample_state None (rows_json sample_rows))))
     !! js "a.safetensors" = Some (js "spark").
Proof.
  destruct (fetchTriggerWord_twice_one_request
              (fun _ _ => trigger_response (js "  spark ")) (js "a.safetensors")
              (js "  spark ") (JObj [(js "trigger_word", JStr (js "  spark "))])
              eq_refl ltac:(discriminate) eq_refl eq_refl) as [Hpower _].
  destruct (Hpower 0 (sample_state None (rows_json sample_rows)) eq_refl eq_refl)
    as (st1 & st2 & H1 & H2 & Hcache & _ & Hreq1 & Hreq2 & _).
  unfold two_calls_one_request. rewrite H1. cbn [snd]. rewrite H2. cbn [snd].
  split; [|exact Hcache].
  rewrite Hreq2, Hreq1. reflexivity.
Defined.

(** C4 as stated fails when the lookup fails: nothing is cached then, and
    the second call asks the network again. *)
Lemma fetchTriggerWord_twice_counterexample :
  ~ two_calls_one_request (fun _ _ => Rejected) 0 (js "a.safetensors")
      (sample_state None (rows_json sample_rows)).
Proof. unfold two_calls_one_request. vm_compute. discriminate. Qed.

(* ===================================================================== *)
(** * Folder listings *)
(* ===================================================================== *)

(** C3, as amended.  For a folder name without lone surrogates for which
    the cache holds nothing: when the request settles with a JSON body, the
    listing [data.loras || []], empty or not, is written into the cache and
    returned, and every later call for the folder returns it from the cache
    without a request. *)
Theorem fetchLorasInFolder_caches_every_listing
    (net : Network) (folder : jsstring) (st : FolderLoader.State)
    (is_ok : bool) (data : Json) (loras : option Json) :
  FolderLoader.well_formed folder = true ->
  PlainObject.get (FolderLoader.loraCache st) folder = None ->
  net (length (FolderLoader.requests st)) (LorasInFolder folder)
    = Resolved {| ok := is_ok; json := Returned data |} ->
  get_prop data (js "loras") = Returned loras ->
  let listing := if opt_truthy loras then default (JArr []) loras else JArr [] in
  exists st1,
    FolderLoader.fetchLorasInFolder net folder st = (Returned (Own listing), st1)
    /\ FolderLoader.loraCache st1 !! folder = Some listing
    /\ FolderLoader.requests st1 = FolderLoader.requests st ++ [LorasInFolder folder]
    /\ forall net', FolderLoader.fetchLorasInFolder net' folder st1
                    = (Returned (Own listing), st1).
Proof.
  intros Hwf Hmiss Hnet Hloras listing.
  destruct (TriggerFacts.get_miss_not_proto _ _ Hmiss) as [Hnone Hproto].
  assert (Htruthy : json_truthy listing = true).
  { subst listing. destruct loras as [l|]; [|done]. cbn [opt_truthy default].
    by destruct (json_truthy l) eqn:E. }
  unfold FolderLoader.fetchLorasInFolder, FolderLoader.fetchLorasInFolder_start,
    FolderLoader.fetchLorasInFolder_resume, FolderLoader.console_error.
  run_M. rewrite Hmiss, Hwf. cbn [FolderLoader.requests]. rewrite Hnet. cbn [json].
  rewrite Hloras. fold listing.
  eexists. split; [reflexivity|].
  cbn [FolderLoader.loraCache FolderLoader.requests].
  unfold PlainObject.set. rewrite bool_decide_eq_false_2 by done.
  split; [apply lookup_insert_eq|]. split; [done|].
  intros net'. unfold PlainObject.get. rewrite lookup_insert_eq.
  cbn [PlainObject.truthy]. by rewrite Htruthy.
Qed.

Lemma fetchLorasInFolder_caches_every_listing_witness :
  let st1 := snd (FolderLoader.fetchLorasInFolder (fun _ _ => listing_response [])
                    (js "poses") folder_state) in
  FolderLoader.loraCache st1 !! js "poses" = Some (JArr [])
  /\ FolderLoader.fetchLorasInFolder (fun _ _ => Rejected) (js "poses") st1
     = (Returned (Own (JArr [])), st1).
Proof.
  destruct (fetchLorasInFolder_caches_every_listing
              (fun _ _ => listing_response []) (js "poses") folder_state
              true (JObj [(js "loras", JArr [])]) (Some (JArr []))
              eq_refl eq_refl eq_refl eq_refl)
    as (st1 & Hrun & Hcache & _ & Hagain).
  cbv zeta. rewrite Hrun. cbn [snd]. split; [exact Hcache | apply Hagain].
Defined.

(** C3 as stated fails: an empty listing is cached like any other (an empty
    array is truthy), and the next call is answered from the cache. *)
Lemma fetchLorasInFolder_empty_counterexample :
  ~ empty_listing_not_cached (fun _ _ => listing_response []) (js "poses") folder_state.
Proof.
  unfold empty_listing_not_cached. intros H.
  destruct (H eq_refl eq_refl) as [Hcache _].
  vm_compute in Hcache. discriminate.
Qed.

(* ===================================================================== *)
(** * Removing and adding rows *)
(* ===================================================================== *)

(** C2 fails on the code.  Two rows show the triggers ["ta"] and ["tb"].
    The first row is deleted: its display entry is dropped, the second row
    moves to index 0 and its trigger is shown there, but the entry at index 1
    stays.  A row is then added: it is the row at index 1, it has no LoRA, and
    it shows ["tb"], the trigger of the row that moved. *)
Theorem removeRow_addRow_stale_display :
  let st1 := snd (PowerLora.deleteBtn_onclick 0 two_loras_shown) in
  let st2 := snd (PowerLora.addBtn_onclick st1) in
  PowerLora.loraRows (PowerLora.node two_loras_shown) = rows_json two_loras
  /\ PowerLora.triggerDisplays (PowerLora.node two_loras_shown) !! 0 = Some (Own (js "ta"))
  /\ PowerLora.triggerDisplays (PowerLora.node two_loras_shown) !! 1 = Some (Own (js "tb"))
  /\ PowerLora.pending two_loras_shown = []
  /\ fst (PowerLora.deleteBtn_onclick 0 two_loras_shown) = Returned tt
  /\ fst (PowerLora.addBtn_onclick st1) = Returned tt
  /\ PowerLora.loraRows (PowerLora.node st2)
     = JArr [row_json {| lora := js "b.safetensors"; strength := Number.one; on := true |};
             PowerLora.new_row]
  /\ PowerLora.triggerDisplays (PowerLora.node st2) !! 1 = Some (Own (js "tb"))
  /\ PowerLora.badges st2 !! 1
     = Some {| PowerLora.textContent := Own (js "tb"); PowerLora.hidden := false |}
  /\ ~ display_empty st2 1.
Proof.
  cbv zeta. unfold display_empty. repeat split; try (vm_compute; reflexivity).
  vm_compute. discriminate.
Qed.

(** ** In general: what the added row displays *)

Module RowFacts.
Import PowerLora.

(** A dropped call touches the display of its own row only, and neither
    the rows nor the cache. *)
Lemma fetchTriggerWord_frame (index : nat) (l : Json) (st : State) :
  exists st',
    fetchTriggerWord index l st = (Returned tt, st')
    /\ loraRows (node st') = loraRows (node st)
    /\ widgets (node st') = widgets (node st)
    /\ triggerCache st' = triggerCache st
    /\ forall j, j <> index ->
         triggerDisplays (node st') !! j = triggerDisplays (node st) !! j.
Proof.
  unfold fetchTriggerWord, fetchTriggerWord_start, set_display.
  run_M.
  destruct (negb (json_truthy l) || is_str l (js "None")).
  { run_update. exists su. split; [reflexivity|]. rewrite Hu_node, Hu_cache.
    cbn. split_and!; try done. intros j Hj. by rewrite lookup_insert_ne. }
  destruct (ToString l) as [key|e].
  2:{ eexists. split; [reflexivity|]. done. }
  destruct (PlainObject.get (triggerCache st) key) as [v|] eqn:Hget.
  2:{ eexists. split; [reflexivity|]. done. }
  destruct (PlainObject.truthy str_truthy (Some v)).
  - run_update. exists su. split; [reflexivity|]. rewrite Hu_node, Hu_cache.
    cbn. split_and!; try done. intros j Hj. by rewrite lookup_insert_ne.
  - eexists. split; [reflexivity|]. done.
Qed.

(** Rendering rows none of which is [null] returns normally.  It leaves
    the display entry [j] as it was, unless a row with a LoRA is rendered at
    index [j]. *)
Lemma renderRows_forEach_frame (rows : list Json) (k : nat) (st : State) :
  Forall (fun row => row <> JNull) rows ->
  exists st',
    renderRows_forEach rows k st = (Returned tt, st')
    /\ loraRows (node st') = loraRows (node st)
    /\ widgets (node st') = widgets (node st)
    /\ triggerCache st' = triggerCache st
    /\ forall j,
         (forall i row, rows !! i = Some row -> k + i = j -> row = new_row) ->
         triggerDisplays (node st') !! j = triggerDisplays (node st) !! j.
Proof.
  revert k st. induction rows as [|row rest IH]; intros k st Hrows.
  { eexists. split; [reflexivity|]. done. }
  pose proof (Forall_inv Hrows) as Hrow. apply Forall_inv_tail in Hrows.
  cbn [renderRows_forEach]. unfold createRowElement. run_M.
  assert (Hprop : forall key, exists o, get_prop row key = Returned o).
  { intros key. destruct row; try done; cbn [get_prop]; eauto. }
  destruct (Hprop (js "on")) as [o1 ->]. destruct (Hprop (js "lora")) as [o2 Ho2].
  rewrite Ho2.
  set (st0 := with_badges _ st).
  assert (Hstep : exists st1,
    match o2 with
    | Some l => if json_truthy l && negb (is_str l (js "None"))
                then fetchTriggerWord k l else fun s => (Returned (), s)
    | None => fun s => (Returned (), s)
    end st0 = (Returned tt, st1)
    /\ loraRows (node st1) = loraRows (node st)
    /\ widgets (node st1) = widgets (node st)
    /\ triggerCache st1 = triggerCache st
    /\ forall j, (k = j -> row = new_row) ->
         triggerDisplays (node st1) !! j = triggerDisplays (node st) !! j).
  { destruct o2 as [l|]; [|exists st0; by repeat split].
    destruct (json_truthy l && negb (is_str l (js "None"))) eqn:El;
      [|exists st0; by repeat split].
    destruct (fetchTriggerWord_frame k l st0) as (st1 & Hrun & H1 & H2 & H3 & H4).
    exists st1. repeat split; try done.
    intros j Hj. destruct (decide (j = k)) as [->|Hne]; [|by rewrite H4].
    exfalso. rewrite (Hj eq_refl) in Ho2. injection Ho2 as <-. done. }
  destruct Hstep as (st1 & -> & H1 & H2 & H3 & H4).
  destruct (IH (S k) st1 Hrows) as (st2 & Hrun & G1 & G2 & G3 & G4).
  exists st2. split; [exact Hrun|]. repeat split; try congruence.
  intros j Hj. rewrite G4, H4; [done| |].
  - intros <-. apply (Hj 0 row eq_refl). lia.
  - intros i r Hi Hki. apply (Hj (S i) r Hi). lia.
Qed.

Lemma updateNodeSize_frame (st : State) (items : list Json) :
  loraRows (node st) = JArr items ->
  exists st',
    updateNodeSize st = (Returned tt, st')
    /\ loraRows (node st') = JArr items
    /\ triggerDisplays (node st') = triggerDisplays (node st)
    /\ height (node st') = Some (Z.max (100 + Z.of_nat (length items) * 36) 120).
Proof.
  intros Hrows. unfold updateNodeSize, setDirtyCanvas. run_M. rewrite Hrows.
  eexists. split; [reflexivity|].
  destruct st as [[ws rows ll td h g d] tc bs rq pd cs pg]. cbn in *.
  by destruct g.
Qed.

(** [renderRows] on an array without [null] rows. *)
Lemma renderRows_frame (st : State) (items : list Json) :
  loraRows (node st) = JArr items ->
  Forall (fun row => row <> JNull) items ->
  exists st',
    renderRows st = (Returned tt, st')
    /\ loraRows (node st') = JArr items
    /\ forall j,
         (forall row, items !! j = Some row -> row = new_row) ->
         triggerDisplays (node st') !! j = triggerDisplays (node st) !! j.
Proof.
  intros Hrows Hnn. unfold renderRows. run_M. cbn [node with_badges]. rewrite Hrows.
  destruct (renderRows_forEach_frame items 0 (with_badges (fun _ => []) st) Hnn)
    as (st' & Hrun & H1 & _ & _ & H4).
  exists st'. split; [exact Hrun|]. split; [by rewrite H1|].
  intros j Hj. rewrite H4; [done|]. intros i row Hi <-. by apply Hj.
Qed.

(** The delete handler drops the display entry of the deleted row and
    keeps the entries beyond the rows that remain. *)
Lemma deleteBtn_onclick_display (st : State) (items : list Json) (index : nat) :
  loraRows (node st) = JArr items ->
  Forall (fun row => row <> JNull) items ->
  exists st1,
    deleteBtn_onclick index st = (Returned tt, st1)
    /\ loraRows (node st1) = JArr (delete index items)
    /\ forall j, length (delete index items) <= j ->
         triggerDisplays (node st1) !! j = delete index (triggerDisplays (node st)) !! j.
Proof.
  intros Hrows Hnn.
  assert (Hnn1 : Forall (fun row => row <> JNull) (delete index items)).
  { apply Forall_forall. intros x Hx. rewrite Forall_forall in Hnn. apply Hnn.
    by eapply list_elem_of_delete_inv. }
  unfold deleteBtn_onclick. run_M. rewrite Hrows.
  match goal with
  | |- context [syncToWidget ?s] =>
      destruct (StoreFacts.syncToWidget_frame s) as (sa & -> & Ha1 & _ & Ha3 & _)
  end.
  cbn [node with_node loraRows set_loraRows set_triggerDisplays triggerDisplays] in Ha1, Ha3.
  destruct (renderRows_frame sa _ Ha1 Hnn1) as (sb & -> & Hb1 & Hb2).
  destruct (updateNodeSize_frame sb _ Hb1) as (st1 & -> & Hc1 & Hc2 & _).
  exists st1. repeat split; try done.
  intros j Hj. rewrite Hc2, Hb2, Ha3; [done|].
  intros row Hrow. apply lookup_lt_Some in Hrow. lia.
Qed.

(** The add handler appends the new row and leaves the display entry at
    its index as it finds it. *)
Lemma addBtn_onclick_display (st : State) (items : list Json) :
  loraRows (node st) = JArr items ->
  Forall (fun row => row <> JNull) items ->
  exists st2,
    addBtn_onclick st = (Returned tt, st2)
    /\ loraRows (node st2) = JArr (items ++ [new_row])
    /\ triggerDisplays (node st2) !! length items
       = triggerDisplays (node st) !! length items.
Proof.
  intros Hrows Hnn.
  assert (Hnn2 : Forall (fun row => row <> JNull) (items ++ [new_row])).
  { apply Forall_app. split; [done|]. by repeat constructor. }
  unfold addBtn_onclick. run_M. rewrite Hrows.
  match goal with
  | |- context [syncToWidget ?s] =>
      destruct (StoreFacts.syncToWidget_frame s) as (sd & -> & Hd1 & _ & Hd3 & _)
  end.
  cbn [node with_node loraRows set_loraRows triggerDisplays] in Hd1, Hd3.
  destruct (renderRows_frame sd _ Hd1 Hnn2) as (se & -> & He1 & He2).
  destruct (updateNodeSize_frame se _ He1) as (st2 & -> & Hf1 & Hf2 & _).
  exists st2. repeat split; try done.
  rewrite Hf2, He2, Hd3; [done|].
  intros row. rewrite lookup_app_r by lia. rewrite Nat.sub_diag. by intros [= <-].
Qed.

(** Deleting the row at [index] and then adding a row: the row added sits
    at the index of the old last row and inherits its display entry, unless
    the old last row is the one that was deleted. *)
Lemma delete_then_add_display (st : State) (items : list Json) (index : nat) :
  loraRows (node st) = JArr items ->
  Forall (fun row => row <> JNull) items ->
  index < length items ->
  exists st1 st2,
    deleteBtn_onclick index st = (Returned tt, st1)
    /\ addBtn_onclick st1 = (Returned tt, st2)
    /\ loraRows (node st2) = JArr (delete index items ++ [new_row])
    /\ triggerDisplays (node st2) !! (length items - 1)
       = if decide (index = length items - 1) then None
         else triggerDisplays (node st) !! (length items - 1).
Proof.
  intros Hrows Hnn Hidx.
  assert (Hlen : length (delete index items) = length items - 1).
  { rewrite length_delete; [done|]. by apply lookup_lt_is_Some. }
  assert (Hnn1 : Forall (fun row => row <> JNull) (delete index items)).
  { apply Forall_forall. intros x Hx. rewrite Forall_forall in Hnn. apply Hnn.
    by eapply list_elem_of_delete_inv. }
  destruct (deleteBtn_onclick_display st items index Hrows Hnn) as (st1 & Hdel & H1 & H2).
  destruct (addBtn_onclick_display st1 _ H1 Hnn1) as (st2 & Hadd & H3 & H4).
  exists st1, st2. repeat split; try done.
  rewrite Hlen in H4. rewrite H4, H2 by lia.
  rewrite lookup_delete. by destruct (decide (index = length items - 1)).
Qed.

End RowFacts.

(* ===================================================================== *)
(** * Further properties: the power-LoRA widget *)
(* ===================================================================== *)

Module HandlerFacts.
Import PowerLora PowerLoraUI.

(** What [renderRows], the lookups and [updateNodeSize] never touch. *)
Definition same_store (st st' : State) : Prop :=
  widgets (node st') = widgets (node st) /\ loraRows (node st') = loraRows (node st).

Lemma same_store_refl (st : State) : same_store st st.
Proof. done. Qed.

Lemma same_store_trans (a b c : State) : same_store a b -> same_store b c -> same_store a c.
Proof. intros [H1 H2] [H3 H4]. split; congruence. Qed.

Lemma same_store_in_sync (st st' : State) : same_store st st' -> in_sync st -> in_sync st'.
Proof. intros [H1 H2]. unfold in_sync, persisted. by rewrite H1, H2. Qed.

Lemma renderRows_forEach_store (rows : list Json) (k : nat) (st : State) :
  same_store st (snd (renderRows_forEach rows k st)).
Proof.
  revert k st. induction rows as [|row rest IH]; intros k st; [done|].
  cbn [renderRows_forEach]. unfold createRowElement. run_M.
  destruct (get_prop row (js "on")) as [o1|e]; [|done].
  destruct (get_prop row (js "lora")) as [o2|e]; [|done].
  set (st0 := with_badges _ st).
  assert (Hstep : exists st1,
    match o2 with
    | Some l => if json_truthy l && negb (is_str l (js "None"))
                then fetchTriggerWord k l else fun s => (Returned (), s)
    | None => fun s => (Returned (), s)
    end st0 = (Returned tt, st1) /\ same_store st st1).
  { destruct o2 as [l|]; [|by exists st0].
    destruct (json_truthy l && negb (is_str l (js "None"))); [|by exists st0].
    destruct (RowFacts.fetchTriggerWord_frame k l st0) as (st1 & Hrun & H1 & H2 & _).
    exists st1. split; [done|]. split; [by rewrite H2 | by rewrite H1]. }
  destruct Hstep as (st1 & -> & Hs). eapply same_store_trans; [exact Hs | apply IH].
Qed.

Lemma renderRows_store (st : State) : same_store st (snd (renderRows st)).
Proof.
  unfold renderRows. run_M. cbn [node with_badges].
  destruct (loraRows (node st)); try done.
  apply (renderRows_forEach_store items 0 (with_badges (fun _ => []) st)).
Qed.

Lemma updateNodeSize_store (st : State) : same_store st (snd (updateNodeSize st)).
Proof.
  unfold updateNodeSize, setDirtyCanvas. run_M.
  destruct st as [[ws rows ll td h g d] tc bs rq pd cs pg]. cbn.
  destruct rows; try done; by destruct g.
Qed.

(** After [syncToWidget] a node with a [lora_data] widget is in sync. *)
Lemma syncToWidget_in_sync (st : State) :
  is_Some (find_widget (js "lora_data") (widgets (node st))) ->
  exists st', syncToWidget st = (Returned tt, st') /\ in_sync st'
              /\ loraRows (node st') = loraRows (node st).
Proof.
  intros [w Hw]. unfold syncToWidget, setDirtyCanvas, in_sync, persisted. run_M.
  eexists. split; [reflexivity|].
  destruct st as [[ws rows ll td h g d] tc bs rq pd cs pg]. cbn in *.
  destruct ws as [ws|]; [|done]. cbn in Hw.
  destruct g; cbn; by rewrite (StoreFacts.find_set_widget_value _ _ _ _ Hw).
Qed.

Lemma in_sync_has_widget (st : State) :
  in_sync st -> is_Some (find_widget (js "lora_data") (widgets (node st))).
Proof.
  unfold in_sync, persisted.
  destruct (find_widget (js "lora_data") (widgets (node st))); [eauto | done].
Qed.

Lemma has_widget_set_loraRows (st : State) (v : Json) :
  find_widget (js "lora_data") (widgets (node (with_node (set_loraRows v) st)))
  = find_widget (js "lora_data") (widgets (node st)).
Proof. done. Qed.

(** [update_row] either throws and changes nothing, or returns and changes
    the rows only. *)
Lemma update_row_cases (index : nat) (f : Json -> outcome Json) (st : State) :
  (exists e, update_row index f st = (Threw e, st))
  \/ (exists v, update_row index f st = (Returned tt, with_node (set_loraRows v) st))
  \/ update_row index f st = (Returned tt, st).
Proof.
  unfold update_row. run_M.
  destruct (loraRows (node st)); try (by right; right).
  destruct (items !! index) as [row|]; [|by right; right].
  destruct (f row) as [row'|e]; [right; left; eauto | left; eauto].
Qed.

End HandlerFacts.

Module SyncFacts.
Import PowerLora PowerLoraUI HandlerFacts.

Lemma sync_then (k : M State unit) (st : State) :
  is_Some (find_widget (js "lora_data") (widgets (node st))) ->
  (forall s, same_store s (snd (k s))) ->
  in_sync (snd ((syncToWidget;; k) st)).
Proof.
  intros Hw Hk. destruct (syncToWidget_in_sync st Hw) as (st1 & Hrun & Hs & _).
  change ((syncToWidget;; k) st) with (bind syncToWidget (fun _ => k) st).
  unfold bind. rewrite Hrun. eapply same_store_in_sync; [apply Hk | exact Hs].
Qed.

Lemma bind_store {A B} (a : M State A) (b : A -> M State B) :
  (forall s, same_store s (snd (a s))) ->
  (forall x s, same_store s (snd (b x s))) ->
  forall s, same_store s (snd ((x ← a; b x) s)).
Proof.
  intros Ha Hb s. change ((x ← a; b x) s) with (bind a b s). unfold bind.
  specialize (Ha s). destruct (a s) as [[x|e] s1]; [|exact Ha].
  eapply same_store_trans; [exact Ha | apply Hb].
Qed.

Lemma fetchTriggerWord_store (index : nat) (l : Json) (s : State) :
  same_store s (snd (fetchTriggerWord index l s)).
Proof.
  destruct (RowFacts.fetchTriggerWord_frame index l s) as (st1 & -> & H1 & H2 & _).
  split; cbn; congruence.
Qed.

Lemma set_display_store (index : nat) (v : slot jsstring) (s : State) :
  same_store s (snd (set_display index v s)).
Proof. by destruct s as [[]]. Qed.

Lemma updateTriggerDisplay_store (index : nat) (v : slot jsstring) (s : State) :
  same_store s (snd (updateTriggerDisplay index v s)).
Proof.
  destruct (PageFacts.updateTriggerDisplay_frame index v s) as (su & -> & Hn & _).
  split; cbn [snd]; by rewrite Hn.
Qed.

Lemma sync_after_update (index : nat) (f : Json -> outcome Json) (k : M State unit)
    (st : State) :
  in_sync st ->
  (forall s, is_Some (find_widget (js "lora_data") (widgets (node s))) ->
             in_sync (snd (k s))) ->
  in_sync (snd ((update_row index f;; k) st)).
Proof.
  intros Hin Hk. pose proof (in_sync_has_widget st Hin) as Hw.
  change ((update_row index f;; k) st) with (bind (update_row index f) (fun _ => k) st).
  unfold bind.
  destruct (update_row_cases index f st) as [[e ->] | [[v ->] | ->]]; [exact Hin | |];
    by apply Hk.
Qed.

End SyncFacts.

(** X1.  Every handler of the editor that changes the rows keeps the
    [lora_data] widget equal to the serialization of [node.loraRows]: if it
    was so before the handler ran, it is so afterwards, whether the handler
    returned or threw. *)
Theorem handlers_keep_widget_in_sync (h : Handler) (st : PowerLora.State) :
  in_sync st -> in_sync (snd (run_handler h st)).
Proof.
  intros Hin. pose proof (HandlerFacts.in_sync_has_widget st Hin) as Hw.
  destruct h as [|index|index input|index|index|index lora]; cbn [run_handler].
  - unfold PowerLora.addBtn_onclick.
    change (in_sync (snd (bind (bind (gets (fun st => PowerLora.loraRows (PowerLora.node st)))
      (fun rows => match rows with
                   | JArr items => modify (PowerLora.with_node
                       (PowerLora.set_loraRows (JArr (items ++ [PowerLora.new_row]))))
                   | _ => throw TypeError end))
      (fun _ => PowerLora.syncToWidget;; (PowerLora.renderRows;; PowerLora.updateNodeSize)) st))).
    unfold bind at 1 2, gets.
    destruct (PowerLora.loraRows (PowerLora.node st)) eqn:E; try exact Hin.
    unfold modify. apply SyncFacts.sync_then; [exact Hw|].
    apply SyncFacts.bind_store; [apply HandlerFacts.renderRows_store|].
    intros _. apply HandlerFacts.updateNodeSize_store.
  - unfold PowerLora.deleteBtn_onclick.
    change (in_sync (snd (bind (bind (gets (fun st => PowerLora.loraRows (PowerLora.node st)))
      (fun rows => match rows with
                   | JArr items => modify (PowerLora.with_node
                       (PowerLora.set_loraRows (JArr (delete index items))))
                   | _ => throw TypeError end))
      (fun _ => bind (modify (PowerLora.with_node (fun n =>
                  PowerLora.set_triggerDisplays (delete index (PowerLora.triggerDisplays n)) n)))
         (fun _ => PowerLora.syncToWidget;; (PowerLora.renderRows;; PowerLora.updateNodeSize))) st))).
    unfold bind at 1 2 3, gets.
    destruct (PowerLora.loraRows (PowerLora.node st)) eqn:E; try exact Hin.
    unfold modify. apply SyncFacts.sync_then; [exact Hw|].
    apply SyncFacts.bind_store; [apply HandlerFacts.renderRows_store|].
    intros _. apply HandlerFacts.updateNodeSize_store.
  - change (PowerLora.strength_onchange index input)
      with (PowerLoraUI.update_row index
              (fun row => PowerLora.set_strength row (PowerLora.strength_of_input input));;
            PowerLora.syncToWidget).
    apply SyncFacts.sync_after_update; [exact Hin|]. intros s Hs.
    destruct (HandlerFacts.syncToWidget_in_sync s Hs) as (s1 & -> & H1 & _). exact H1.
  - unfold PowerLoraUI.toggle_onclick.
    apply SyncFacts.sync_after_update; [exact Hin|]. intros s Hs.
    destruct (HandlerFacts.syncToWidget_in_sync s Hs) as (s1 & -> & H1 & _). exact H1.
  - unfold PowerLoraUI.noneItem_onclick.
    apply SyncFacts.sync_after_update; [exact Hin|]. intros s Hs.
    unfold PowerLora.set_display. run_M. run_update.
    destruct (HandlerFacts.syncToWidget_in_sync su) as (s1 & -> & H1 & _); [|exact H1].
    rewrite Hu_node. by destruct s as [[]].
  - unfold PowerLoraUI.item_onclick.
    apply SyncFacts.sync_after_update; [exact Hin|]. intros s Hs.
    apply SyncFacts.sync_then; [exact Hs|]. apply SyncFacts.fetchTriggerWord_store.
Qed.

Module RenderFacts.
Import PowerLora.

Lemma get_prop_row_lora (r : Row) :
  get_prop (row_json r) (js "lora") = Returned (Some (JStr (lora r))).
Proof. reflexivity. Qed.

Lemma get_prop_row_on (r : Row) :
  get_prop (row_json r) (js "on") = Returned (Some (JBool (on r))).
Proof. reflexivity. Qed.

Lemma wants_trigger_spec (r : Row) :
  wants_trigger r = true <-> str_truthy (lora r) = true /\ lora r <> js "None".
Proof.
  unfold wants_trigger. rewrite andb_true_iff, negb_true_iff. split.
  - intros [H1 H2]. split; [done|]. intros E. rewrite E, str_eqb_refl in H2. done.
  - intros [H1 H2]. split; [done|]. by apply str_eqb_neq.
Qed.

(** A dropped call for a LoRA that wants a trigger: the cached trigger is
    shown, or the request goes out and the call is parked. *)
Lemma fetchTriggerWord_wanted (k : nat) (x : jsstring) (st : State) :
  str_truthy x = true -> x <> js "None" ->
  fetchTriggerWord k (JStr x) st
  = (Returned tt,
     match cache_hit (triggerCache st) x with
     | Some t => snd (updateTriggerDisplay k t (snd (set_display k t st)))
     | None => with_pending (fun p => p ++ [(k, JStr x)])
                 (with_requests (fun r => r ++ [request_of (k, JStr x)]) st)
     end).
Proof.
  intros Hx Hnone. unfold fetchTriggerWord, fetchTriggerWord_start, cache_hit.
  cbn [json_truthy is_str ToString]. rewrite Hx, (str_eqb_neq _ _ Hnone).
  cbn [negb orb]. unfold set_display, updateTriggerDisplay. run_M.
  destruct (PlainObject.get (triggerCache st) x) as [v|] eqn:Hget; [|done].
  destruct (PlainObject.truthy str_truthy (Some v)) eqn:E; [|reflexivity].
  cbn [snd]. rewrite ?E. reflexivity.
Qed.

(** What rendering one row does, [k] being the number of badges rendered
    before it. *)
Lemma render_row (r : Row) (rest : list Json) (k : nat) (st : State) :
  length (badges st) = k ->
  exists st1,
    renderRows_forEach (row_json r :: rest) k st = renderRows_forEach rest (S k) st1
    /\ triggerCache st1 = triggerCache st
    /\ console st1 = console st
    /\ requests st1
       = requests st ++ map request_of (lookups_from (triggerCache st) k [r])
    /\ pending st1 = pending st ++ lookups_from (triggerCache st) k [r]
    /\ length (badges st1) = S k
    /\ (forall j, has_id j (ahead (page st1)) = has_id j (ahead (page st)))
    /\ (forall j, j < k -> badges st1 !! j = badges st !! j)
    /\ (forall j, j <> k ->
          triggerDisplays (node st1) !! j = triggerDisplays (node st) !! j)
    /\ (forall t, wants_trigger r = true -> cache_hit (triggerCache st) (lora r) = Some t ->
          triggerDisplays (node st1) !! k = Some t
          /\ badges st1 !! k
             = Some (if has_id k (ahead (page st))
                     then badge_of (triggerDisplays (node st) !! k)
                     else {| textContent := t; hidden := false |}))
    /\ (wants_trigger r = false \/ cache_hit (triggerCache st) (lora r) = None ->
          triggerDisplays (node st1) !! k = triggerDisplays (node st) !! k
          /\ badges st1 !! k = Some (badge_of (triggerDisplays (node st) !! k))).
Proof.
  intros Hk. cbn [renderRows_forEach]. unfold createRowElement. run_M.
  rewrite get_prop_row_on, get_prop_row_lora.
  change (json_truthy (JStr (lora r)) && negb (is_str (JStr (lora r)) (js "None")))
    with (wants_trigger r).
  cbn [lookups_from]. rewrite app_nil_r.
  change {| textContent :=
              if PlainObject.truthy str_truthy (triggerDisplays (node st) !! k)
              then default (Own []) (triggerDisplays (node st) !! k) else Own [];
            hidden := negb (PlainObject.truthy str_truthy (triggerDisplays (node st) !! k)) |}
    with (badge_of (triggerDisplays (node st) !! k)).
  set (b0 := badge_of (triggerDisplays (node st) !! k)).
  destruct (wants_trigger r) eqn:Hw.
  - apply wants_trigger_spec in Hw as [Hx Hnone].
    rewrite (fetchTriggerWord_wanted _ _ _ Hx Hnone).
    change (triggerCache (with_badges _ st)) with (triggerCache st).
    unfold cache_hit in *.
    destruct (PlainObject.truthy str_truthy (PlainObject.get (triggerCache st) (lora r)))
      eqn:Htr.
    + destruct (PlainObject.get (triggerCache st) (lora r)) as [t|] eqn:Hget; [|done].
      match goal with
      | |- context [updateTriggerDisplay k t ?s] =>
          destruct (PageFacts.updateTriggerDisplay_frame k t s)
            as (su & Hrun & Hn & Hc & Hrq & Hpd & Hcs & Hlen & Hah & Hoth & Hbk)
      end.
      rewrite Hrun. cbn [snd]. exists su. split; [reflexivity|].
      unfold set_display, modify in Hn, Hc, Hrq, Hpd, Hcs, Hlen, Hah, Hoth, Hbk.
      cbn [snd] in Hn, Hc, Hrq, Hpd, Hcs, Hlen, Hah, Hoth, Hbk.
      rewrite Hn, Hc, Hrq, Hpd, Hcs, Hlen.
      destruct st as [[ws rows ll td h g d] tc bs rq pd cs pg].
      cbn in Hk, Htr, Hah, Hoth, Hbk, b0 |- *. subst k.
      rewrite ?app_nil_r. split_and!; try done.
      * rewrite length_app. cbn. lia.
      * intros j Hj. rewrite Hoth by lia. by rewrite lookup_app_l.
      * intros j Hj. by rewrite lookup_insert_ne.
      * intros t' _ [= <-]. split; [by rewrite lookup_insert_eq|].
        rewrite Hbk. rewrite lookup_app_r, Nat.sub_diag by lia. cbn [lookup list_lookup].
        destruct (has_id (length bs) (ahead pg)); [done|]. cbn. by rewrite Htr.
      * by intros [|].
    + eexists. split; [reflexivity|].
      destruct st as [[ws rows ll td h g d] tc bs rq pd cs pg]. cbn in Hk, b0 |- *. subst k.
      split_and!; try done.
      * rewrite length_app. cbn. lia.
      * intros j Hj. by rewrite lookup_app_l.
      * intros _. split; [done|]. rewrite lookup_app_r, Nat.sub_diag by lia. done.
  - eexists. split; [reflexivity|].
    destruct st as [[ws rows ll td h g d] tc bs rq pd cs pg]. cbn in Hk, b0 |- *. subst k.
    rewrite !app_nil_r. split_and!; try done.
    + rewrite length_app. cbn. lia.
    + intros j Hj. by rewrite lookup_app_l.
    + intros _. split; [done|]. rewrite lookup_app_r, Nat.sub_diag by lia. done.
Qed.

Lemma lookups_from_cons (c : gmap jsstring jsstring) (k : nat) (r : Row) (rest : list Row) :
  lookups_from c k (r :: rest) = lookups_from c k [r] ++ lookups_from c (S k) rest.
Proof. cbn [lookups_from]. by rewrite app_nil_r. Qed.

(** Rendering typed rows, [k] being the number of badges rendered before
    them. *)
Lemma render_rows (rs : list Row) (k : nat) (st : State) :
  length (badges st) = k ->
  exists st',
    renderRows_forEach (map row_json rs) k st = (Returned tt, st')
    /\ triggerCache st' = triggerCache st
    /\ console st' = console st
    /\ requests st'
       = requests st ++ map request_of (lookups_from (triggerCache st) k rs)
    /\ pending st' = pending st ++ lookups_from (triggerCache st) k rs
    /\ length (badges st') = k + length rs
    /\ (forall j, has_id j (ahead (page st')) = has_id j (ahead (page st)))
    /\ (forall j, j < k -> badges st' !! j = badges st !! j)
    /\ (forall j, j < k \/ k + length rs <= j ->
          triggerDisplays (node st') !! j = triggerDisplays (node st) !! j)
    /\ (forall i r, rs !! i = Some r ->
          (forall t, wants_trigger r = true ->
                     cache_hit (triggerCache st) (lora r) = Some t ->
             triggerDisplays (node st') !! (k + i) = Some t
             /\ badges st' !! (k + i)
                = Some (if has_id (k + i) (ahead (page st))
                        then badge_of (triggerDisplays (node st) !! (k + i))
                        else {| textContent := t; hidden := false |}))
          /\ (wants_trigger r = false \/ cache_hit (triggerCache st) (lora r) = None ->
             triggerDisplays (node st') !! (k + i) = triggerDisplays (node st) !! (k + i)
             /\ badges st' !! (k + i)
                = Some (badge_of (triggerDisplays (node st) !! (k + i))))).
Proof.
  revert k st. induction rs as [|r rest IH]; intros k st Hk.
  { exists st. cbn [map renderRows_forEach lookups_from length]. rewrite !app_nil_r.
    split_and!; try done; lia. }
  cbn [map]. destruct (render_row r (map row_json rest) k st Hk)
    as (st1 & -> & Hc & Hcs & Hrq & Hpd & Hlen & Hah & Hbs & Htd & Hhit & Hmiss).
  destruct (IH (S k) st1 Hlen)
    as (st' & Hrun & Gc & Gcs & Grq & Gpd & Glen & Gah & Gbs & Gtd & Grow).
  rewrite Hc in *.
  exists st'. split; [exact Hrun|]. rewrite lookups_from_cons, map_app.
  split_and!.
  - congruence.
  - congruence.
  - rewrite Grq, Hrq. by rewrite app_assoc.
  - rewrite Gpd, Hpd. by rewrite app_assoc.
  - rewrite Glen. cbn [length]. lia.
  - intros j. by rewrite Gah, Hah.
  - intros j Hj. rewrite Gbs by lia. by apply Hbs.
  - intros j Hj. cbn [length] in Hj. rewrite Gtd by lia. apply Htd. lia.
  - intros [|i] r' Hi.
    + injection Hi as <-. rewrite Nat.add_0_r.
      rewrite Gtd by lia. rewrite Gbs by lia. split; [apply Hhit | apply Hmiss].
    + cbn in Hi. destruct (Grow i r' Hi) as [G1 G2].
      replace (k + S i) with (S k + i) by lia.
      rewrite <- (Htd (S k + i)) by lia. rewrite <- Hah. split; [exact G1 | exact G2].
Qed.

End RenderFacts.

(** X2.  [renderRows] on saved rows: every row whose LoRA is set and for
    which the cache has no trigger gets one request, in row order and with no
    deduplication (two rows with the same LoRA give two requests); the cache
    is not written, and one badge is rendered per row. *)
Theorem renderRows_one_lookup_per_uncached_row (rs : list Row) (st : PowerLora.State) :
  PowerLora.loraRows (PowerLora.node st) = rows_json rs ->
  exists st',
    PowerLora.renderRows st = (Returned tt, st')
    /\ PowerLora.requests st'
       = PowerLora.requests st
         ++ map request_of (lookups_from (PowerLora.triggerCache st) 0 rs)
    /\ PowerLora.pending st'
       = PowerLora.pending st ++ lookups_from (PowerLora.triggerCache st) 0 rs
    /\ PowerLora.triggerCache st' = PowerLora.triggerCache st
    /\ length (PowerLora.badges st') = length rs.
Proof.
  intros Hrows. unfold PowerLora.renderRows. run_M.
  cbn [PowerLora.node PowerLora.with_badges]. rewrite Hrows. unfold rows_json.
  destruct (RenderFacts.render_rows rs 0 (PowerLora.with_badges (fun _ => []) st) eq_refl)
    as (st' & Hrun & Hc & _ & Hrq & Hpd & Hlen & _).
  exists st'. split; [exact Hrun|]. by destruct st.
Qed.

(** X3.  [renderRows] on saved rows, the rows being in the document as
    they are when a handler renders them again.  A row whose LoRA has a
    trigger in the cache gets it at once as its display entry; its badge shows
    it too, visible, unless an element with the same id [trigger-i] comes
    earlier in the document (a badge of another node of this kind): the
    lookup by id then finds that element, and the badge of the row keeps
    showing the display entry found at its index.  Any other row keeps its
    display entry, and its badge shows that entry, whatever row it was written
    for. *)
Theorem renderRows_badges (rs : list Row) (st : PowerLora.State) (i : nat) (r : Row) :
  PowerLora.loraRows (PowerLora.node st) = rows_json rs ->
  rs !! i = Some r ->
  let st' := snd (PowerLora.renderRows st) in
  let shown := PowerLora.triggerDisplays (PowerLora.node st) !! i in
  match (if wants_trigger r then cache_hit (PowerLora.triggerCache st) (lora r) else None) with
  | Some t =>
      PowerLora.triggerDisplays (PowerLora.node st') !! i = Some t
      /\ PowerLora.badges st' !! i
         = Some (if PowerLora.has_id i (PowerLora.ahead (PowerLora.page st))
                 then badge_of shown
                 else {| PowerLora.textContent := t; PowerLora.hidden := false |})
  | None =>
      PowerLora.triggerDisplays (PowerLora.node st') !! i = shown
      /\ PowerLora.badges st' !! i = Some (badge_of shown)
  end.
Proof.
  intros Hrows Hi. unfold PowerLora.renderRows. run_M.
  cbn [PowerLora.node PowerLora.with_badges]. rewrite Hrows. unfold rows_json.
  destruct (RenderFacts.render_rows rs 0 (PowerLora.with_badges (fun _ => []) st) eq_refl)
    as (st' & -> & _ & _ & _ & _ & _ & _ & _ & _ & Hrow).
  destruct (Hrow i r Hi) as [H1 H2]. cbn [snd plus] in *.
  replace (PowerLora.triggerCache (PowerLora.with_badges (fun _ => []) st))
    with (PowerLora.triggerCache st) in * by (by destruct st).
  replace (PowerLora.triggerDisplays (PowerLora.node (PowerLora.with_badges (fun _ => []) st)))
    with (PowerLora.triggerDisplays (PowerLora.node st)) in * by (by destruct st).
  replace (PowerLora.page (PowerLora.with_badges (fun _ => []) st))
    with (PowerLora.page st) in * by (by destruct st).
  destruct (wants_trigger r) eqn:Hw.
  - destruct (cache_hit (PowerLora.triggerCache st) (lora r)) as [t|] eqn:Hc.
    + by apply H1.
    + apply H2. by right.
  - apply H2. by left.
Qed.


Module LookupFacts.
Import PowerLora PowerLoraUI.

(** A response without a trigger word changes nothing but the console. *)
Lemma resume_no_trigger (index : nat) (l : Json) (res : FetchResult) (st : State) :
  no_trigger res = true ->
  exists st',
    fetchTriggerWord_resume index l res st = (Returned tt, st')
    /\ node st' = node st
    /\ triggerCache st' = triggerCache st
    /\ badges st' = badges st
    /\ requests st' = requests st
    /\ pending st' = pending st.
Proof.
  unfold no_trigger, fetchTriggerWord_resume, console_log. run_M.
  destruct res as [|[okb body]]; cbn [ok json].
  { intros _. eexists. split; [reflexivity|]. by destruct st. }
  destruct okb; [|intros _; by eexists].
  destruct body as [data|e]; [|intros _; eexists; split; [reflexivity|]; by destruct st].
  destruct (get_prop data (js "trigger_word")) as [[tw|]|e].
  - destruct tw as [|b|x|w|items|props]; cbn [opt_truthy json_truthy].
    + intros _. by eexists.
    + intros _. destruct b; eexists; (split; [reflexivity|]); by destruct st.
    + intros _. destruct (Number.truthy x); eexists; (split; [reflexivity|]); by destruct st.
    + intros Hw. apply negb_true_iff in Hw. rewrite Hw. by eexists.
    + intros _. eexists. split; [reflexivity|]. by destruct st.
    + intros _. eexists. split; [reflexivity|]. by destruct st.
  - intros _. by eexists.
  - intros _. eexists. split; [reflexivity|]. by destruct st.
Qed.

(** Picking a LoRA the cache has no trigger for: the row is updated and
    persisted, the request goes out, the call is parked; displays, badges and
    cache stay. *)
Lemma item_onclick_uncached (st : State) (items : list Json) (index : nat)
    (props : list (jsstring * Json)) (x : jsstring) :
  loraRows (node st) = JArr items ->
  items !! index = Some (JObj props) ->
  str_truthy x = true -> x <> js "None" ->
  cache_hit (triggerCache st) x = None ->
  exists st1,
    item_onclick index x st = (Returned tt, st1)
    /\ loraRows (node st1)
       = JArr (<[index := JObj (JSON.define_prop props (js "lora") (JStr x))]> items)
    /\ triggerDisplays (node st1) = triggerDisplays (node st)
    /\ triggerCache st1 = triggerCache st
    /\ badges st1 = badges st
    /\ requests st1 = requests st ++ [trigger_request x]
    /\ pending st1 = pending st ++ [(index, JStr x)].
Proof.
  intros Hrows Hrow Hx Hnone Hmiss. unfold item_onclick, update_row, assign. run_M.
  rewrite Hrows, Hrow.
  match goal with
  | |- context [syncToWidget ?s] =>
      destruct (StoreFacts.syncToWidget_frame s)
        as (sa & -> & Ha1 & _ & Ha3 & Ha4 & Ha5 & Ha6 & Ha7 & _)
  end.
  rewrite (RenderFacts.fetchTriggerWord_wanted _ _ _ Hx Hnone).
  assert (Hc : triggerCache sa = triggerCache st) by (by rewrite Ha4).
  rewrite Hc, Hmiss. eexists. split; [reflexivity|].
  destruct sa as [[]]. cbn in *. subst. by destruct st as [[]].
Qed.

End LookupFacts.

Module PropFacts.

Lemma assoc_get_define (props : list (jsstring * Json)) (k : jsstring) (v : Json) :
  JSON.array_index k = None -> assoc_get (JSON.define_prop props k v) k = Some v.
Proof.
  intros Hk. unfold JSON.define_prop. rewrite Hk.
  destruct (assoc_get props k) eqn:E.
  - apply assoc_get_replace. by rewrite E.
  - by apply assoc_get_app_new.
Qed.

Lemma assoc_get_replace_ne (props : list (jsstring * Json)) (k k2 : jsstring) (v : Json) :
  k2 <> k -> assoc_get (JSON.assoc_replace props k v) k2 = assoc_get props k2.
Proof.
  intros Hne. induction props as [|[k' v'] ps IH]; [done|].
  cbn [assoc_get JSON.assoc_replace].
  destruct (str_eqb k' k) eqn:E; cbn [assoc_get].
  - apply str_eqb_eq in E as ->. by rewrite (str_eqb_neq k k2).
  - by rewrite IH.
Qed.

Lemma assoc_get_app_ne (props : list (jsstring * Json)) (k k2 : jsstring) (v : Json) :
  k2 <> k -> assoc_get (props ++ [(k, v)]) k2 = assoc_get props k2.
Proof.
  intros Hne. induction props as [|[k' v'] ps IH]; cbn [assoc_get app].
  - by rewrite (str_eqb_neq k k2).
  - by rewrite IH.
Qed.

Lemma assoc_get_define_ne (props : list (jsstring * Json)) (k k2 : jsstring) (v : Json) :
  JSON.array_index k = None -> k2 <> k ->
  assoc_get (JSON.define_prop props k v) k2 = assoc_get props k2.
Proof.
  intros Hk Hne. unfold JSON.define_prop. rewrite Hk.
  destruct (assoc_get props k); [by apply assoc_get_replace_ne | by apply assoc_get_app_ne].
Qed.

Lemma assoc_replace_twice (props : list (jsstring * Json)) (k : jsstring) (v v' : Json) :
  assoc_get props k = Some v ->
  JSON.assoc_replace (JSON.assoc_replace props k v') k v = props.
Proof.
  induction props as [|[k0 v0] ps IH]; [done|].
  cbn [assoc_get JSON.assoc_replace].
  destruct (str_eqb k0 k) eqn:E; cbn [JSON.assoc_replace]; rewrite E.
  - by intros [= ->].
  - intros H. by rewrite IH.
Qed.

Lemma define_prop_twice (props : list (jsstring * Json)) (k : jsstring) (v v' : Json) :
  assoc_get props k = Some v ->
  JSON.define_prop (JSON.define_prop props k v') k v = props.
Proof.
  intros H. unfold JSON.define_prop at 2. rewrite H.
  unfold JSON.define_prop. rewrite assoc_get_replace by (by rewrite H).
  by apply assoc_replace_twice.
Qed.

Lemma delete_app_last {A} (l : list A) (x : A) : delete (length l) (l ++ [x]) = l.
Proof. induction l as [|y l IH]; [done|]. simpl. f_equal. exact IH. Qed.

End PropFacts.

(** X5.  Picking a LoRA for which the lookup yields no trigger word (the
    request fails, or the answer has none): the row takes the new LoRA, and
    the display entry and the badge of the row stay as they were, showing the
    trigger of the LoRA that was there before. *)
Theorem pick_without_trigger_keeps_display
    (st : PowerLora.State) (items : list Json) (index : nat)
    (props : list (jsstring * Json)) (x : jsstring) (res : FetchResult) :
  PowerLora.loraRows (PowerLora.node st) = JArr items ->
  items !! index = Some (JObj props) ->
  str_truthy x = true -> x <> js "None" ->
  cache_hit (PowerLora.triggerCache st) x = None ->
  no_trigger res = true ->
  exists st1 st2,
    PowerLoraUI.item_onclick index x st = (Returned tt, st1)
    /\ PowerLora.resolve (length (PowerLora.pending st)) res st1 = (Returned tt, st2)
    /\ PowerLora.loraRows (PowerLora.node st2)
       = JArr (<[index := JObj (JSON.define_prop props (js "lora") (JStr x))]> items)
    /\ PowerLora.requests st2 = PowerLora.requests st ++ [trigger_request x]
    /\ PowerLora.triggerDisplays (PowerLora.node st2)
       = PowerLora.triggerDisplays (PowerLora.node st)
    /\ PowerLora.badges st2 = PowerLora.badges st
    /\ PowerLora.triggerCache st2 = PowerLora.triggerCache st
    /\ PowerLora.pending st2 = PowerLora.pending st.
Proof.
  intros Hrows Hrow Hx Hnone Hmiss Hres.
  destruct (LookupFacts.item_onclick_uncached st items index props x Hrows Hrow Hx Hnone Hmiss)
    as (st1 & Hrun & H1 & H2 & H3 & H4 & H5 & H6).
  exists st1. unfold PowerLora.resolve. run_M. rewrite H6.
  rewrite lookup_app_r, Nat.sub_diag by lia. cbn [lookup list_lookup].
  match goal with
  | |- context [PowerLora.fetchTriggerWord_resume _ _ _ ?s] =>
      destruct (LookupFacts.resume_no_trigger index (JStr x) res s Hres)
        as (st2 & -> & G1 & G2 & G3 & G4 & G5)
  end.
  exists st2. split; [exact Hrun|]. split; [reflexivity|].
  rewrite G1, G2, G3, G4, G5. destruct st1 as [[]]. cbn in *. subst.
  by rewrite PropFacts.delete_app_last.
Qed.

Module PickFacts.
Import PowerLora PowerLoraUI.

(** The None entry: the row loses its LoRA, the display entry of the row
    becomes the empty string, nothing is requested. *)
Lemma noneItem_onclick_row (st : State) (items : list Json) (index : nat)
    (props : list (jsstring * Json)) :
  loraRows (node st) = JArr items ->
  items !! index = Some (JObj props) ->
  exists st1,
    noneItem_onclick index st = (Returned tt, st1)
    /\ loraRows (node st1)
       = JArr (<[index := JObj (JSON.define_prop props (js "lora") (JStr []))]> items)
    /\ triggerDisplays (node st1) = <[index := Own []]> (triggerDisplays (node st))
    /\ triggerCache st1 = triggerCache st
    /\ requests st1 = requests st
    /\ pending st1 = pending st.
Proof.
  intros Hrows Hrow.
  unfold noneItem_onclick, update_row, assign, set_display. run_M.
  rewrite Hrows, Hrow. run_update.
  destruct (StoreFacts.syncToWidget_frame su)
    as (sa & -> & Ha1 & _ & Ha3 & Ha4 & Ha5 & Ha6 & Ha7 & _).
  exists sa. split; [reflexivity|].
  rewrite Ha1, Ha3, Ha4, Ha6, Ha7, Hu_node, Hu_cache, Hu_req, Hu_pend.
  by destruct st as [[]].
Qed.

(** A response with the trigger word [w]. *)
Lemma resume_with_trigger (index : nat) (x w : jsstring) (st : State) :
  str_truthy w = true ->
  exists st',
    fetchTriggerWord_resume index (JStr x) (trigger_response w) st = (Returned tt, st')
    /\ loraRows (node st') = loraRows (node st)
    /\ triggerDisplays (node st') = <[index := Own (trim w)]> (triggerDisplays (node st))
    /\ triggerCache st' = PlainObject.set (triggerCache st) x (trim w)
    /\ requests st' = requests st
    /\ pending st' = pending st.
Proof.
  intros Hw. unfold fetchTriggerWord_resume, trigger_response.
  unfold set_display. run_M. cbn [ok json ToString].
  change (get_prop (JObj [(js "trigger_word", JStr w)]) (js "trigger_word"))
    with (Returned (Some (JStr w))).
  cbn [opt_truthy json_truthy]. rewrite Hw. run_update.
  exists su. split; [reflexivity|].
  rewrite Hu_node, Hu_cache, Hu_req, Hu_pend. by destruct st as [[]].
Qed.

End PickFacts.

(** X6.  A lookup is not cancelled when its row changes.  A LoRA is picked
    for a row and, before the answer arrives, the None entry is picked for
    the same row: the row ends with no LoRA, and the late answer writes its
    trigger into the display entry of the row all the same. *)
Theorem late_response_after_none
    (st : PowerLora.State) (items : list Json) (index : nat)
    (props : list (jsstring * Json)) (x w : jsstring) :
  PowerLora.loraRows (PowerLora.node st) = JArr items ->
  items !! index = Some (JObj props) ->
  str_truthy x = true -> x <> js "None" ->
  cache_hit (PowerLora.triggerCache st) x = None ->
  str_truthy w = true ->
  exists st1 st2 st3 row,
    PowerLoraUI.item_onclick index x st = (Returned tt, st1)
    /\ PowerLoraUI.noneItem_onclick index st1 = (Returned tt, st2)
    /\ PowerLora.resolve (length (PowerLora.pending st)) (trigger_response w) st2
       = (Returned tt, st3)
    /\ PowerLora.loraRows (PowerLora.node st3) = JArr (<[index := row]> items)
    /\ get_prop row (js "lora") = Returned (Some (JStr []))
    /\ PowerLora.triggerDisplays (PowerLora.node st3) !! index = Some (Own (trim w))
    /\ PowerLora.requests st3 = PowerLora.requests st ++ [trigger_request x].
Proof.
  intros Hrows Hrow Hx Hnone Hmiss Hw.
  assert (Hlt : index < length items) by (by eapply lookup_lt_Some).
  destruct (LookupFacts.item_onclick_uncached st items index props x Hrows Hrow Hx Hnone Hmiss)
    as (st1 & Hrun1 & H1 & H2 & H3 & H4 & H5 & H6).
  destruct (PickFacts.noneItem_onclick_row st1 _ index _ H1 (list_lookup_insert_eq _ _ _ Hlt))
    as (st2 & Hrun2 & G1 & G2 & G3 & G4 & G5).
  rewrite list_insert_insert_eq in G1.
  exists st1, st2. unfold PowerLora.resolve. run_M. rewrite G5, H6.
  rewrite lookup_app_r, Nat.sub_diag by lia. cbn [lookup list_lookup].
  match goal with
  | |- context [PowerLora.fetchTriggerWord_resume _ _ _ ?s] =>
      destruct (PickFacts.resume_with_trigger index x w s Hw)
        as (st3 & -> & K1 & K2 & K3 & K4 & K5)
  end.
  exists st3, (JObj (JSON.define_prop (JSON.define_prop props (js "lora") (JStr x))
                       (js "lora") (JStr []))).
  split; [exact Hrun1|]. split; [exact Hrun2|]. split; [reflexivity|].
  split_and!.
  - rewrite K1. by destruct st2 as [[]].
  - cbn [get_prop]. by rewrite PropFacts.assoc_get_define.
  - rewrite K2. by rewrite lookup_insert_eq.
  - rewrite K4. destruct st2 as [[]]. cbn in *. congruence.
Qed.

Lemma toggle_onclick_row (st : PowerLora.State) (items : list Json) (index : nat)
    (props : list (jsstring * Json)) (b : bool) :
  PowerLora.loraRows (PowerLora.node st) = JArr items ->
  items !! index = Some (JObj props) ->
  assoc_get props (js "on") = Some (JBool b) ->
  exists st1,
    PowerLoraUI.toggle_onclick index st = (Returned tt, st1)
    /\ PowerLora.loraRows (PowerLora.node st1)
       = JArr (<[index := JObj (JSON.define_prop props (js "on") (JBool (negb b)))]> items).
Proof.
  intros Hrows Hrow Hon.
  unfold PowerLoraUI.toggle_onclick, PowerLoraUI.update_row, PowerLoraUI.assign. run_M.
  rewrite Hrows, Hrow. cbn [get_prop]. rewrite Hon. cbn [opt_truthy json_truthy].
  match goal with
  | |- context [PowerLora.syncToWidget ?s] =>
      destruct (StoreFacts.syncToWidget_frame s) as (st1 & -> & Ha1 & _)
  end.
  exists st1. split; [done|]. by rewrite Ha1.
Qed.

(** X7.  The on/off switch of a row that is an object with a boolean [on]:
    one click negates [on] and leaves the other properties of the row and the
    other rows alone; a second click restores the rows exactly. *)
Theorem toggle_onclick_twice
    (st : PowerLora.State) (items : list Json) (index : nat)
    (props : list (jsstring * Json)) (b : bool) :
  PowerLora.loraRows (PowerLora.node st) = JArr items ->
  items !! index = Some (JObj props) ->
  assoc_get props (js "on") = Some (JBool b) ->
  exists st1 st2 props1,
    PowerLoraUI.toggle_onclick index st = (Returned tt, st1)
    /\ PowerLoraUI.toggle_onclick index st1 = (Returned tt, st2)
    /\ PowerLora.loraRows (PowerLora.node st1) = JArr (<[index := JObj props1]> items)
    /\ assoc_get props1 (js "on") = Some (JBool (negb b))
    /\ (forall k, k <> js "on" -> assoc_get props1 k = assoc_get props k)
    /\ PowerLora.loraRows (PowerLora.node st2) = JArr items.
Proof.
  intros Hrows Hrow Hon.
  assert (Hlt : index < length items) by (by eapply lookup_lt_Some).
  destruct (toggle_onclick_row st items index props b Hrows Hrow Hon) as (st1 & Hrun1 & H1).
  destruct (toggle_onclick_row st1 _ index _ (negb b) H1 (list_lookup_insert_eq _ _ _ Hlt))
    as (st2 & Hrun2 & H2); [by apply PropFacts.assoc_get_define|].
  rewrite negb_involutive, list_insert_insert_eq in H2.
  rewrite (PropFacts.define_prop_twice _ _ _ _ Hon), (list_insert_id _ _ _ Hrow) in H2.
  exists st1, st2, (JSON.define_prop props (js "on") (JBool (negb b))).
  split_and!; try done.
  - by apply PropFacts.assoc_get_define.
  - intros k Hk. by apply PropFacts.assoc_get_define_ne.
Qed.

Module RetryFacts.
Import PowerLora.

Lemma start_uncached (index : nat) (x : jsstring) (st : State) :
  str_truthy x = true -> x <> js "None" ->
  cache_hit (triggerCache st) x = None ->
  fetchTriggerWord_start index (JStr x) st
  = (Returned (Some (trigger_request x)),
     with_requests (fun r => r ++ [trigger_request x]) st).
Proof.
  intros Hx Hnone Hmiss. unfold fetchTriggerWord_start, cache_hit in *.
  cbn [json_truthy is_str ToString]. rewrite Hx, (str_eqb_neq _ _ Hnone).
  cbn [negb orb]. run_M.
  destruct (PlainObject.get (triggerCache st) x) as [v|] eqn:Hget; [|done].
  by destruct (PlainObject.truthy str_truthy (Some v)).
Qed.

(** However the request settles, the rest of the call returns, and issues
    no request. *)
Lemma resume_returns (index : nat) (l : Json) (res : FetchResult) (st : State) :
  exists st',
    fetchTriggerWord_resume index l res st = (Returned tt, st')
    /\ requests st' = requests st.
Proof.
  unfold fetchTriggerWord_resume, console_log, set_display. run_M.
  destruct res as [|[okb body]]; cbn [ok json]; [by eexists|].
  destruct okb; [|by eexists].
  destruct body as [data|e]; [|by eexists].
  destruct (get_prop data (js "trigger_word")) as [tw|e]; [|by eexists].
  destruct (opt_truthy tw); [|by eexists].
  destruct tw as [[|b|n|w|items|props]|]; try by eexists.
  destruct (ToString l); [|by eexists].
  run_update. exists su. split; [reflexivity|]. rewrite Hu_req. by destruct st.
Qed.

Lemma cache_hit_set_blank (c : gmap jsstring jsstring) (x : jsstring) :
  cache_hit c x = None -> cache_hit (PlainObject.set c x []) x = None.
Proof.
  unfold cache_hit, PlainObject.set, PlainObject.get.
  destruct (bool_decide (x = js "__proto__")); [done|].
  intros _. by rewrite lookup_insert_eq.
Qed.

End RetryFacts.

(** X8.  A lookup that yields no trigger is not remembered.  When the
    request of a call yields no trigger word, or a trigger word made of white
    space only (which is cached as the empty string), the cache still has no
    answer for the LoRA afterwards, and the next call for it issues the same
    request again. *)
Theorem unanswered_lookup_asks_again
    (net : Network) (index : nat) (x : jsstring) (st : PowerLora.State) :
  str_truthy x = true -> x <> js "None" ->
  cache_hit (PowerLora.triggerCache st) x = None ->
  (no_trigger (net (length (PowerLora.requests st)) (trigger_request x)) = true
   \/ exists w, net (length (PowerLora.requests st)) (trigger_request x) = trigger_response w
                /\ str_truthy w = true /\ trim w = []) ->
  exists st1 st2,
    PowerLora.fetchTriggerWord_await net index (JStr x) st = (Returned tt, st1)
    /\ PowerLora.fetchTriggerWord_await net index (JStr x) st1 = (Returned tt, st2)
    /\ cache_hit (PowerLora.triggerCache st1) x = None
    /\ PowerLora.requests st2
       = PowerLora.requests st ++ [trigger_request x; trigger_request x].
Proof.
  intros Hx Hnone Hmiss Hres.
  assert (Hfirst : exists st1,
    PowerLora.fetchTriggerWord_await net index (JStr x) st = (Returned tt, st1)
    /\ cache_hit (PowerLora.triggerCache st1) x = None
    /\ PowerLora.requests st1 = PowerLora.requests st ++ [trigger_request x]).
  { unfold PowerLora.fetchTriggerWord_await. run_M.
    rewrite (RetryFacts.start_uncached index x st Hx Hnone Hmiss).
    destruct Hres as [Hno | (w & -> & Hw & Hblank)].
    - match goal with
      | |- context [PowerLora.fetchTriggerWord_resume _ _ ?r ?s] =>
          destruct (LookupFacts.resume_no_trigger index (JStr x) r s Hno)
            as (st1 & -> & _ & G2 & _ & G4 & _)
      end.
      exists st1. split; [done|]. rewrite G2, G4. by destruct st.
    - match goal with
      | |- context [PowerLora.fetchTriggerWord_resume _ _ _ ?s] =>
          destruct (PickFacts.resume_with_trigger index x w s Hw)
            as (st1 & -> & _ & _ & K3 & K4 & _)
      end.
      exists st1. split; [done|]. rewrite K3, K4, Hblank. split; [|by destruct st].
      apply RetryFacts.cache_hit_set_blank. by destruct st. }
  destruct Hfirst as (st1 & Hrun1 & Hmiss1 & Hreq1).
  exists st1. unfold PowerLora.fetchTriggerWord_await at 2. run_M.
  rewrite (RetryFacts.start_uncached index x st1 Hx Hnone Hmiss1).
  match goal with
  | |- context [PowerLora.fetchTriggerWord_resume _ _ ?r ?s] =>
      destruct (RetryFacts.resume_returns index (JStr x) r s) as (st2 & -> & G)
  end.
  exists st2. split; [exact Hrun1|]. split; [done|]. split; [exact Hmiss1|].
  rewrite G. destruct st1. cbn in *. rewrite Hreq1. by rewrite <- app_assoc.
Qed.

(* ===================================================================== *)
(** * Further properties: the list of LoRAs *)
(* ===================================================================== *)

Module ListFacts.
Import PowerLoraUI.

(** The loop stops at the first node type with a truthy [lora_name]
    input. *)
Lemma find_lora_list_first (pre post : list Json) (info : Json) (inp : option Json)
    (v : Json) :
  Forall (fun i => exists inp0, get_prop i (js "input") = Returned inp0
            /\ opt_truthy (get_opt (get_opt inp0 (js "required")) (js "lora_name")) = false) pre ->
  get_prop info (js "input") = Returned inp ->
  get_opt (get_opt inp (js "required")) (js "lora_name") = Some v ->
  json_truthy v = true ->
  find_lora_list (pre ++ info :: post)
  = Returned (Some (if opt_truthy (first_element v)
                    then default (JArr []) (first_element v) else JArr [])).
Proof.
  intros Hpre Hinfo Hname Hv. induction Hpre as [|i pre (inp0 & Hi & Hno) _ IH].
  - cbn [app find_lora_list]. rewrite Hinfo, Hname. cbn [opt_truthy]. by rewrite Hv.
  - cbn [app find_lora_list]. rewrite Hi, Hno. exact IH.
Qed.

(** The loop throws, finds nothing, or finds a value other than [null]. *)
Lemma find_lora_list_not_null (infos : list Json) :
  find_lora_list infos <> Returned (Some JNull).
Proof.
  induction infos as [|i rest IH]; [done|]. cbn [find_lora_list].
  destruct (get_prop i (js "input")) as [inp|e]; [|done].
  destruct (opt_truthy (get_opt (get_opt inp (js "required")) (js "lora_name"))); [|done].
  destruct (get_opt (get_opt inp (js "required")) (js "lora_name")) as [v|]; [|done].
  destruct (first_element v) as [[]|]; cbn [opt_truthy json_truthy default]; try done.
  all: repeat case_match; done.
Qed.

Lemma length_truthy_returns (v : Json) :
  v <> JNull -> exists b, length_truthy v = Returned b.
Proof. destruct v; cbn; eauto. done. Qed.

End ListFacts.

(** X9.  [loadLoraList] on an [/object_info] answer: the candidates are
    the first element of the [lora_name] input of the first node type that
    has one, later node types are not looked at; when that list is empty the
    candidates are the single entry ["None"]. *)
Theorem loadLoraList_takes_first_list
    (entries : list (jsstring * Json)) (pre post : list Json) (info : Json)
    (inp : option Json) (names rest : list Json) (st : PowerLoraUI.ListState) :
  map snd entries = pre ++ info :: post ->
  Forall (fun i => exists inp0, get_prop i (js "input") = Returned inp0
            /\ opt_truthy (PowerLoraUI.get_opt (PowerLoraUI.get_opt inp0 (js "required"))
                             (js "lora_name")) = false) pre ->
  get_prop info (js "input") = Returned inp ->
  PowerLoraUI.get_opt (PowerLoraUI.get_opt inp (js "required")) (js "lora_name")
  = Some (JArr (JArr names :: rest)) ->
  PowerLoraUI.loadLoraList (Resolved {| ok := true; json := Returned (JObj entries) |}) st
  = (Returned tt,
     {| PowerLoraUI.loraListValue :=
          JArr (if bool_decide (names = []) then [JStr (js "None")] else names);
        PowerLoraUI.listConsole := PowerLoraUI.listConsole st |}).
Proof.
  intros Hentries Hpre Hinfo Hname. unfold PowerLoraUI.loadLoraList. run_M.
  cbn [ok json PowerLoraUI.entries_values]. rewrite Hentries.
  rewrite (ListFacts.find_lora_list_first pre post info inp _ Hpre Hinfo Hname eq_refl).
  cbn [PowerLoraUI.first_element head opt_truthy json_truthy default
       PowerLoraUI.loraListValue PowerLoraUI.listConsole PowerLoraUI.length_truthy id].
  by case_bool_decide.
Qed.

(** X10.  [loadLoraList] always leaves a list to choose from.  Whatever
    the request yields (rejection, an error status, a body that is not JSON or
    has no node type with a [lora_name] input), the call returns, given that
    [node.loraList] was not [null] before, and [node.loraList] then has a
    truthy length: the fallback is the single entry ["None"]. *)
Theorem loadLoraList_never_empty (res : FetchResult) (st : PowerLoraUI.ListState) :
  PowerLoraUI.loraListValue st <> JNull ->
  exists st',
    PowerLoraUI.loadLoraList res st = (Returned tt, st')
    /\ PowerLoraUI.length_truthy (PowerLoraUI.loraListValue st') = Returned true
    /\ (PowerLoraUI.length_truthy (PowerLoraUI.loraListValue st) = Returned false ->
        no_listing res = true ->
        PowerLoraUI.loraListValue st' = JArr [JStr (js "None")]).
Proof.
  intros Hnn. unfold PowerLoraUI.loadLoraList, no_listing. run_M.
  assert (Hend : forall l c, l <> JNull ->
    (l = PowerLoraUI.loraListValue st \/
     no_listing res = false) ->
    exists st',
      match PowerLoraUI.length_truthy l with
      | Returned a =>
          (if negb a
           then fun s => (Returned tt,
                  {| PowerLoraUI.loraListValue := JArr [JStr (js "None")];
                     PowerLoraUI.listConsole := PowerLoraUI.listConsole s |})
           else fun s => (Returned tt, s))
            {| PowerLoraUI.loraListValue := l; PowerLoraUI.listConsole := c |}
      | Threw e => (Threw e, {| PowerLoraUI.loraListValue := l; PowerLoraUI.listConsole := c |})
      end = (Returned tt, st')
      /\ PowerLoraUI.length_truthy (PowerLoraUI.loraListValue st') = Returned true
      /\ (PowerLoraUI.length_truthy (PowerLoraUI.loraListValue st) = Returned false ->
          no_listing res = true ->
          PowerLoraUI.loraListValue st' = JArr [JStr (js "None")])).
  { intros l c Hl Hcase. destruct (ListFacts.length_truthy_returns _ Hl) as [b Hb].
    rewrite Hb. destruct b; cbn [negb]; (eexists; split; [reflexivity|]); [|done].
    split; [done|]. intros Hprev Hres. destruct Hcase as [-> | Hcase]; congruence. }
  unfold no_listing in Hend.
  destruct st as [l0 c0]. cbn [PowerLoraUI.loraListValue PowerLoraUI.listConsole] in *.
  destruct res as [|[okb body]]; cbn [ok json] in *; [apply Hend; auto|].
  destruct okb; [|apply Hend; auto].
  destruct body as [data|e]; [|apply Hend; auto].
  destruct (PowerLoraUI.entries_values data) as [infos|e]; [|apply Hend; auto].
  pose proof (ListFacts.find_lora_list_not_null infos) as Hfind.
  destruct (PowerLoraUI.find_lora_list infos) as [[l|]|e]; apply Hend; auto.
  congruence.
Qed.

(* ===================================================================== *)
(** * Further properties: the dropdown filter *)
(* ===================================================================== *)

Lemma is_substring_trans (a b c : jsstring) :
  is_substring a b -> is_substring b c -> is_substring a c.
Proof.
  intros (p1 & q1 & ->) (p2 & q2 & ->). exists (p2 ++ p1), (q1 ++ q2).
  by rewrite <- !app_assoc.
Qed.

Lemma filter_sublist_impl {A} (p q : A -> bool) (l : list A) :
  Forall (fun x => p x = true -> q x = true) l ->
  sublist (List.filter p l) (List.filter q l).
Proof.
  induction 1 as [|x l Hpq _ IH]; cbn [List.filter]; [constructor|].
  destruct (p x) eqn:Hp.
  - rewrite (Hpq eq_refl). by constructor.
  - destruct (q x); [by constructor | done].
Qed.

Lemma latin1_app (a b : jsstring) : latin1 (a ++ b) = latin1 a && latin1 b.
Proof. apply forallb_app. Qed.

(** X11.  Narrowing the search.  [toLowerCase] is the lower-casing of
    the engine, of which one fact is used: on a string of code units below
    U+0100 it is the map [toLowerCase_latin1] (no case rule that looks at the
    neighbours of a character applies there).  For candidates and a filter
    made of such code units, a filter that contains another filter matches a
    part of what the other matches, in the same order; and the empty filter
    matches every candidate. *)
Theorem matching_narrows
    (toLowerCase : jsstring -> jsstring) (candidates : list jsstring) (f f' : jsstring) :
  (forall s, latin1 s = true -> toLowerCase s = toLowerCase_latin1 s) ->
  Forall (fun c => latin1 c = true) candidates ->
  latin1 f' = true ->
  is_substring f f' ->
  sublist (PowerLora.matching toLowerCase candidates f')
          (PowerLora.matching toLowerCase candidates f)
  /\ PowerLora.matching toLowerCase candidates [] = candidates.
Proof.
  intros Hlower Hcs Hf' (pre & post & ->). split.
  - rewrite !latin1_app in Hf'. apply andb_prop in Hf' as [Hpre Hf'].
    apply andb_prop in Hf' as [Hf Hpost].
    assert (Hall : latin1 (pre ++ f ++ post) = true).
    { rewrite !latin1_app. by rewrite Hpre, Hf, Hpost. }
    unfold PowerLora.matching. apply filter_sublist_impl.
    eapply Forall_impl; [exact Hcs|]. intros x Hlx Hx. cbv beta in *.
    rewrite (Hlower _ Hall) in Hx. rewrite (Hlower _ Hf).
    apply includes_spec. apply includes_spec in Hx.
    eapply is_substring_trans; [|exact Hx].
    exists (toLowerCase_latin1 pre), (toLowerCase_latin1 post).
    unfold toLowerCase_latin1. by rewrite !map_app.
  - unfold PowerLora.matching. rewrite (Hlower [] eq_refl).
    change (toLowerCase_latin1 []) with (@nil N). clear.
    induction candidates as [|x l IH]; [done|]. cbn [List.filter].
    replace (includes (toLowerCase x) []) with true; [by rewrite IH|].
    symmetry. apply includes_spec. by exists [], (toLowerCase x).
Qed.

Lemma matching_narrows_witness :
  sublist (PowerLora.matching toLowerCase_latin1 [js "abcd"; js "xyz"; js "ABCX"] (js "abc"))
          (PowerLora.matching toLowerCase_latin1 [js "abcd"; js "xyz"; js "ABCX"] (js "b"))
  /\ PowerLora.matching toLowerCase_latin1 [js "abcd"; js "xyz"; js "ABCX"] []
     = [js "abcd"; js "xyz"; js "ABCX"].
Proof.
  apply (matching_narrows toLowerCase_latin1 _ (js "b") (js "abc")).
  - intros s _. reflexivity.
  - repeat constructor.
  - reflexivity.
  - by exists (js "a"), (js "c").
Defined.

(* ===================================================================== *)
(** * Further properties: the multi-LoRA widget *)
(* ===================================================================== *)

Module MultiRetryFacts.
Import MultiLora.

Lemma multi_start_uncached (widgetName x : jsstring) (st : State) :
  str_truthy x = true -> x <> js "None" ->
  cache_hit (triggerCache st) x = None ->
  fetchTriggerWord_start widgetName x st
  = (Returned (Some (trigger_request x)),
     with_requests (fun r => r ++ [trigger_request x]) st).
Proof.
  intros Hx Hnone Hmiss. unfold fetchTriggerWord_start, cache_hit in *.
  rewrite Hx, (str_eqb_neq _ _ Hnone). cbn [negb orb]. run_M.
  destruct (PlainObject.get (triggerCache st) x) as [v|] eqn:Hget; [|done].
  by destruct (PlainObject.truthy str_truthy (Some v)).
Qed.

Lemma multi_resume_returns (widgetName x : jsstring) (res : FetchResult) (st : State) :
  exists st',
    fetchTriggerWord_resume widgetName x res st = (Returned tt, st')
    /\ requests st' = requests st.
Proof.
  unfold fetchTriggerWord_resume, set_display, setDirtyCanvas. run_M.
  destruct res as [|[okb body]]; cbn [ok json]; [by eexists|].
  destruct okb; [|by eexists].
  destruct body as [data|e]; [|by eexists].
  destruct (get_prop data (js "trigger_word")) as [tw|e]; [|by eexists].
  destruct (opt_truthy tw); [|by eexists].
  destruct tw as [[|b|n|w|items|props]|]; by eexists.
Qed.

(** A response without a trigger word changes neither the cache nor the
    displays. *)
Lemma multi_resume_no_trigger (widgetName x : jsstring) (res : FetchResult) (st : State) :
  no_trigger res = true ->
  exists st',
    fetchTriggerWord_resume widgetName x res st = (Returned tt, st')
    /\ triggerDisplays st' = triggerDisplays st
    /\ triggerCache st' = triggerCache st
    /\ requests st' = requests st.
Proof.
  unfold no_trigger, fetchTriggerWord_resume, set_display, setDirtyCanvas. run_M.
  destruct res as [|[okb body]]; cbn [ok json]; [by eexists|].
  destruct okb; [|by eexists].
  destruct body as [data|e]; [|by eexists].
  destruct (get_prop data (js "trigger_word")) as [[tw|]|e]; [|by eexists..].
  destruct tw as [|b|n|w|items|props]; cbn [opt_truthy json_truthy]; try by eexists.
  - destruct b; by eexists.
  - destruct (Number.truthy n); by eexists.
  - intros Hw. apply negb_true_iff in Hw. rewrite Hw. by eexists.
Qed.

End MultiRetryFacts.

(** X12.  In the multi-LoRA widget too a lookup that yields no trigger is
    not remembered: after a request that yields no trigger word, or one made
    of white space only, the cache has no answer for the LoRA, and the next
    call for it issues the same request again. *)
Theorem multi_unanswered_lookup_asks_again
    (net : Network) (widgetName x : jsstring) (st : MultiLora.State) :
  str_truthy x = true -> x <> js "None" ->
  cache_hit (MultiLora.triggerCache st) x = None ->
  (no_trigger (net (length (MultiLora.requests st)) (trigger_request x)) = true
   \/ exists w, net (length (MultiLora.requests st)) (trigger_request x) = trigger_response w
                /\ str_truthy w = true /\ trim w = []) ->
  exists st1 st2,
    MultiLora.fetchTriggerWord_await net widgetName x st = (Returned tt, st1)
    /\ MultiLora.fetchTriggerWord_await net widgetName x st1 = (Returned tt, st2)
    /\ cache_hit (MultiLora.triggerCache st1) x = None
    /\ MultiLora.requests st2
       = MultiLora.requests st ++ [trigger_request x; trigger_request x].
Proof.
  intros Hx Hnone Hmiss Hres.
  assert (Hfirst : exists st1,
    MultiLora.fetchTriggerWord_await net widgetName x st = (Returned tt, st1)
    /\ cache_hit (MultiLora.triggerCache st1) x = None
    /\ MultiLora.requests st1 = MultiLora.requests st ++ [trigger_request x]).
  { unfold MultiLora.fetchTriggerWord_await. run_M.
    rewrite (MultiRetryFacts.multi_start_uncached widgetName x st Hx Hnone Hmiss).
    destruct Hres as [Hno | (w & -> & Hw & Hblank)].
    - match goal with
      | |- context [MultiLora.fetchTriggerWord_resume _ _ ?r ?s] =>
          destruct (MultiRetryFacts.multi_resume_no_trigger widgetName x r s Hno)
            as (st1 & -> & _ & G2 & G4)
      end.
      exists st1. split; [done|]. rewrite G2, G4. by destruct st.
    - match goal with
      | |- context [MultiLora.fetchTriggerWord_resume _ _ _ ?s] =>
          destruct (MultiTriggerFacts.multi_resume_trigger widgetName x w
                      (JObj [(js "trigger_word", JStr w)]) s eq_refl Hw)
            as (st1 & Hrun & K1 & _ & K4 & _)
      end.
      unfold trigger_response. rewrite Hrun.
      exists st1. split; [done|]. rewrite K1, K4, Hblank. split; [|by destruct st].
      apply RetryFacts.cache_hit_set_blank. by destruct st. }
  destruct Hfirst as (st1 & Hrun1 & Hmiss1 & Hreq1).
  exists st1. unfold MultiLora.fetchTriggerWord_await at 2. run_M.
  rewrite (MultiRetryFacts.multi_start_uncached widgetName x st1 Hx Hnone Hmiss1).
  match goal with
  | |- context [MultiLora.fetchTriggerWord_resume _ _ ?r ?s] =>
      destruct (MultiRetryFacts.multi_resume_returns widgetName x r s) as (st2 & -> & G)
  end.
  exists st2. split; [exact Hrun1|]. split; [done|]. split; [exact Hmiss1|].
  rewrite G. destruct st1. cbn in *. rewrite Hreq1. by rewrite <- app_assoc.
Qed.

(* ===================================================================== *)
(** * Further properties: folder listings *)
(* ===================================================================== *)

Module FolderFacts.
Import FolderLoader.

(** A call that obtains no listing returns the empty list and leaves the
    cache as it is. *)
Lemma fetch_no_body (net : Network) (folder : jsstring) (st : State) :
  PlainObject.get (loraCache st) folder = None ->
  (well_formed folder = true ->
   no_body (net (length (requests st)) (LorasInFolder folder)) = true) ->
  exists e,
    fetchLorasInFolder net folder st
    = (Returned (Own (JArr [])),
       {| loraCache := loraCache st;
          requests := requests st
                      ++ (if well_formed folder then [LorasInFolder folder] else []);
          console := console st ++ [(js "Error fetching loras for folder:" ++ folder, e)] |}).
Proof.
  intros Hmiss Hres.
  unfold fetchLorasInFolder, fetchLorasInFolder_start, fetchLorasInFolder_resume, console_error.
  run_M. rewrite Hmiss.
  destruct (well_formed folder).
  2:{ exists URIError. by rewrite app_nil_r. }
  specialize (Hres eq_refl). unfold no_body in Hres. cbn [requests loraCache console].
  destruct (net (length (requests st)) (LorasInFolder folder)) as [|[okb body]];
    cbn [json] in *; [by exists FetchError|].
  destruct body as [data|e]; [|by exists e].
  destruct (get_prop data (js "loras")) as [loras|e]; [done | by exists e].
Qed.

End FolderFacts.

(** X13.  A folder listing that cannot be obtained is not remembered.
    When the folder name cannot be encoded (it has a lone surrogate), the
    request is rejected, or its body is not JSON or is [null], the call
    returns the empty list, logs one error and leaves the cache as it is; a
    request went out unless the name could not be encoded, and the next call
    for the folder goes to the network again. *)
Theorem failed_listing_not_cached
    (net : Network) (folder : jsstring) (st : FolderLoader.State) :
  PlainObject.get (FolderLoader.loraCache st) folder = None ->
  (FolderLoader.well_formed folder = true ->
   no_body (net (length (FolderLoader.requests st)) (LorasInFolder folder)) = true) ->
  let st1 := snd (FolderLoader.fetchLorasInFolder net folder st) in
  fst (FolderLoader.fetchLorasInFolder net folder st) = Returned (Own (JArr []))
  /\ FolderLoader.loraCache st1 = FolderLoader.loraCache st
  /\ length (FolderLoader.console st1) = S (length (FolderLoader.console st))
  /\ FolderLoader.requests st1
     = FolderLoader.requests st
       ++ (if FolderLoader.well_formed folder then [LorasInFolder folder] else [])
  /\ FolderLoader.requests (snd (FolderLoader.fetchLorasInFolder net folder st1))
     = FolderLoader.requests st1
       ++ (if FolderLoader.well_formed folder then [LorasInFolder folder] else []).
Proof.
  intros Hmiss Hres. destruct (FolderFacts.fetch_no_body net folder st Hmiss Hres) as [e Hrun].
  rewrite Hrun. cbn [fst snd].
  cbn [FolderLoader.loraCache FolderLoader.console FolderLoader.requests].
  split_and!; try done.
  { rewrite length_app. cbn. lia. }
  match goal with |- context [FolderLoader.fetchLorasInFolder net folder ?s] =>
    set (st1 := s) end.
  unfold FolderLoader.fetchLorasInFolder, FolderLoader.fetchLorasInFolder_start,
    FolderLoader.fetchLorasInFolder_resume, FolderLoader.console_error.
  run_M. subst st1. cbn [FolderLoader.loraCache FolderLoader.requests FolderLoader.console].
  rewrite Hmiss.
  destruct (FolderLoader.well_formed folder); [|by rewrite !app_nil_r].
  match goal with |- context [net ?i ?r] => destruct (net i r) as [|[okb body]] end;
    cbn [json]; [done|].
  destruct body as [data|e']; [|done].
  destruct (get_prop data (js "loras")) as [loras|e']; done.
Qed.

(* ===================================================================== *)
(** * Further properties: the display of the enhanced prompt *)
(* ===================================================================== *)

Module EnhancerFacts.
Import Enhancer.

Lemma find_update_display (f : Widget -> Widget) (l : list Widget) (w : Widget) :
  (forall w, name (f w) = name w) ->
  List.find is_display l = Some w ->
  List.find is_display (update_display f l) = Some (f w).
Proof.
  intros Hf. induction l as [|w0 l IH]; [done|]. cbn [List.find update_display].
  destruct (is_display w0) eqn:E.
  - intros [= ->]. cbn [List.find]. unfold is_display in *. by rewrite Hf, E.
  - intros H. cbn [List.find]. rewrite E. auto.
Qed.

(** Whether the text area takes the value or not, the widget has it. *)
Lemma show_value (w : Widget) (v : option Json) (st : State) :
  find_display st = Some w ->
  value <$> find_display (snd (show w v st)) = Some v.
Proof.
  unfold find_display, show, modify_display. intros Hw. run_M.
  destruct (widgets st) as [l|]; [|done]. cbn [option_map widgets].
  pose proof (find_update_display
    (fun w => {| name := name w; value := v; inputEl := inputEl w |}) l w
    (fun _ => eq_refl) Hw) as H1.
  destruct (inputEl w) as [el|]; cbn [snd widgets].
  - destruct (to_DOMString v) as [s|e]; cbn [snd widgets option_map].
    + by rewrite (find_update_display
        (fun w => {| name := name w; value := value w; inputEl := Some s |}) _ _
        (fun _ => eq_refl) H1).
    + by rewrite H1.
  - by rewrite H1.
Qed.

End EnhancerFacts.

(** X14.  The enhanced prompt survives saving and loading when it is
    truthy, and only then.  After [onExecuted] the display widget holds the
    text of the message (its first element when the text is an array);
    [onSerialize] saves that value; [onConfigure] with the saved object puts
    it into the display widget of the node being loaded when it is truthy,
    and leaves that node untouched when it is falsy (an empty text, or the
    [undefined] first element of an empty array). *)
Theorem enhanced_display_roundtrip
    (message : option Json) (o : Enhancer.Saved) (st st2 : Enhancer.State)
    (w w2 : Enhancer.Widget) :
  Enhancer.find_display st = Some w ->
  Enhancer.find_display st2 = Some w2 ->
  opt_truthy (Enhancer.message_text message) = true ->
  let text := match Enhancer.message_text message with
              | Some (JArr items) => head items
              | other => other
              end in
  let st1 := snd (Enhancer.onExecuted message st) in
  let saved := Enhancer.onSerialize o st1 in
  let st3 := snd (Enhancer.onConfigure saved st2) in
  Enhancer.value <$> Enhancer.find_display st1 = Some text
  /\ Enhancer.enhancedDisplayValue saved = text
  /\ (if opt_truthy text
      then Enhancer.value <$> Enhancer.find_display st3 = Some text
      else st3 = st2).
Proof.
  intros Hw Hw2 Hmsg text st1 saved st3.
  assert (H1 : Enhancer.value <$> Enhancer.find_display st1 = Some text).
  { subst st1. unfold Enhancer.onExecuted. rewrite Hmsg. run_M. rewrite Hw.
    by apply EnhancerFacts.show_value. }
  assert (H2 : Enhancer.enhancedDisplayValue saved = text).
  { subst saved. unfold Enhancer.onSerialize.
    destruct (Enhancer.find_display st1) as [w1|]; [|done].
    cbn in H1. by injection H1. }
  split; [exact H1|]. split; [exact H2|].
  subst st3. unfold Enhancer.onConfigure. rewrite H2.
  destruct (opt_truthy text); [|done].
  run_M. rewrite Hw2. by apply EnhancerFacts.show_value.
Qed.

(* ===================================================================== *)
(** * Further properties: the trigger pills *)
(* ===================================================================== *)

Module PillFacts.
Import MultiLora MultiLoraNode.

Lemma init_slot_lookup (d : gmap jsstring (slot jsstring)) (i k : jsstring) :
  k <> i \/ PlainObject.truthy str_truthy (display_get d k) = true ->
  init_slot d i !! k = d !! k.
Proof.
  unfold init_slot. intros Hk.
  destruct (PlainObject.truthy str_truthy (display_get d i)) eqn:E; [done|].
  apply lookup_insert_ne. intros ->. destruct Hk as [Hk|Hk]; [done | congruence].
Qed.

Lemma init_slot_get (d : gmap jsstring (slot jsstring)) (i k : jsstring) :
  k <> i \/ PlainObject.truthy str_truthy (display_get d k) = true ->
  display_get (init_slot d i) k = display_get d k.
Proof. intros Hk. unfold display_get. by rewrite init_slot_lookup. Qed.

Lemma setup_lookup (l : list jsstring) (d : gmap jsstring (slot jsstring)) (k : jsstring) :
  k ∉ l \/ PlainObject.truthy str_truthy (display_get d k) = true ->
  foldl init_slot d l !! k = d !! k.
Proof.
  revert d. induction l as [|i l IH]; intros d Hk; [done|]. cbn [foldl].
  assert (Hi : k <> i \/ PlainObject.truthy str_truthy (display_get d k) = true).
  { destruct Hk as [Hk|Hk]; [left | by right]. intros ->. apply Hk. by left. }
  rewrite IH, init_slot_lookup; [done | exact Hi |].
  destruct Hk as [Hk|Hk]; [left | right].
  - intros H. apply Hk. by right.
  - by rewrite init_slot_get.
Qed.

Lemma init_slot_defined (d : gmap jsstring (slot jsstring)) (i : jsstring) :
  i ∉ PlainObject.prototype_names ->
  exists v, init_slot d i !! i = Some v
            /\ (PlainObject.truthy str_truthy (display_get d i) = false -> v = Own [])
            /\ PlainObject.truthy str_truthy (display_get (init_slot d i) i)
               = PlainObject.truthy str_truthy (display_get d i).
Proof.
  intros Hi. unfold init_slot.
  destruct (PlainObject.truthy str_truthy (display_get d i)) eqn:E.
  - unfold display_get in E. rewrite bool_decide_eq_false_2 in E by done.
    destruct (d !! i) as [v|] eqn:Hd; [|done]. exists v. split; [done|]. split; [done|].
    unfold display_get. by rewrite Hd.
  - exists (Own []). rewrite lookup_insert_eq. split; [done|]. split; [done|].
    unfold display_get. by rewrite lookup_insert_eq.
Qed.

Lemma setup_defined (l : list jsstring) (d : gmap jsstring (slot jsstring)) (i : jsstring) :
  i ∈ l -> i ∉ PlainObject.prototype_names ->
  exists v, foldl init_slot d l !! i = Some v
            /\ (PlainObject.truthy str_truthy (display_get d i) = false -> v = Own []).
Proof.
  revert d. induction l as [|j l IH]; intros d Hin Hi; [by apply elem_of_nil in Hin|].
  cbn [foldl]. destruct (decide (i ∈ l)) as [Hl|Hl].
  - destruct (IH (init_slot d j) Hl Hi) as (v & Hv & Hfalsy). exists v. split; [done|].
    intros Hd. apply Hfalsy. destruct (decide (i = j)) as [->|Hne].
    + destruct (init_slot_defined d j Hi) as (_ & _ & _ & Ht). congruence.
    + rewrite init_slot_get; [done | by left].
  - apply elem_of_cons in Hin as [->|Hin]; [|done].
    destruct (init_slot_defined d j Hi) as (v & Hv & Hfalsy & _).
    exists v. split; [|done]. rewrite setup_lookup; [done | by left].
Qed.

(** A second pass of the loop changes nothing. *)
Lemma setup_idempotent (l : list jsstring) (d : gmap jsstring (slot jsstring)) :
  Forall (fun i => i ∉ PlainObject.prototype_names) l ->
  foldl init_slot (foldl init_slot d l) l = foldl init_slot d l.
Proof.
  intros Hl. apply map_eq. intros k.
  destruct (decide (k ∈ l)) as [Hk|Hk]; [|apply setup_lookup; by left].
  rewrite Forall_forall in Hl.
  destruct (setup_defined l d k Hk (Hl k Hk)) as (v & Hv & _).
  destruct (setup_defined l (foldl init_slot d l) k Hk (Hl k Hk)) as (v' & Hv' & Hfalsy).
  destruct (PlainObject.truthy str_truthy (display_get (foldl init_slot d l) k)) eqn:E.
  - apply setup_lookup. by right.
  - rewrite Hv', Hv, (Hfalsy eq_refl). f_equal.
    unfold display_get in E. rewrite Hv in E. cbn in E. destruct v as [s|]; [|done].
    by destruct s.
Qed.

Lemma slot_names_plain : Forall (fun i => i ∉ PlainObject.prototype_names) slot_names.
Proof. apply (bool_decide_unpack _). vm_compute. exact I. Qed.

Lemma layers_result (k : nat) (n : Node) (st : State) :
  onDrawForeground_layers (S k) n st
  = match drawTriggers n st with
    | Returned ps => Returned (concat (replicate (S k) ps))
    | Threw e => Threw e
    end.
Proof.
  induction k as [|k IH].
  - cbn [onDrawForeground_layers]. destruct (drawTriggers n st); [|done].
    cbn. by rewrite app_nil_r.
  - change (onDrawForeground_layers (S (S k)) n st)
      with (match onDrawForeground_layers (S k) n st with
            | Threw e => Threw e
            | Returned below =>
                match drawTriggers n st with
                | Threw e => Threw e
                | Returned ps => Returned (below ++ ps)
                end
            end).
    rewrite IH. destruct (drawTriggers n st) as [ps|e]; [|done]. f_equal.
    change (replicate (S (S k)) ps) with (ps :: replicate (S k) ps).
    rewrite concat_cons. clear IH.
    induction k as [|k IH]; [cbn; by rewrite !app_nil_r|].
    change (replicate (S (S k)) ps) with (ps :: replicate (S k) ps).
    rewrite concat_cons, <- app_assoc. by rewrite IH.
Qed.

End PillFacts.

Module TrimFacts.

Lemma trimStart_idem (s : jsstring) : trimStart (trimStart s) = trimStart s.
Proof.
  induction s as [|c s IH]; [done|]. cbn [trimStart].
  destruct (is_js_space c) eqn:E; [done|]. cbn [trimStart]. by rewrite E.
Qed.

Lemma trimStart_suffix (s : jsstring) : exists p, s = p ++ trimStart s.
Proof.
  induction s as [|c s [p IH]]; [by exists []|]. cbn [trimStart].
  destruct (is_js_space c); [|by exists []]. exists (c :: p). cbn. by f_equal.
Qed.

Lemma trimStart_fixed (s : jsstring) :
  match s with c :: _ => is_js_space c = false | [] => True end -> trimStart s = s.
Proof. destruct s as [|c s]; [done|]. cbn [trimStart]. by intros ->. Qed.

Lemma trimStart_head (s : jsstring) :
  match trimStart s with c :: _ => is_js_space c = false | [] => True end.
Proof.
  induction s as [|c s IH]; [done|]. cbn [trimStart].
  by destruct (is_js_space c) eqn:E.
Qed.

Lemma trim_idem (s : jsstring) : trim (trim s) = trim s.
Proof.
  unfold trim. set (t := trimStart s).
  assert (Ht : match t with c :: _ => is_js_space c = false | [] => True end)
    by apply trimStart_head.
  assert (Hu : trimStart (trimEnd t) = trimEnd t).
  { apply trimStart_fixed. unfold trimEnd.
    destruct (trimStart_suffix (rev t)) as [p Hp].
    apply (f_equal (@rev N)) in Hp. rewrite rev_involutive, rev_app_distr in Hp.
    destruct (rev (trimStart (rev t))) as [|c u]; [done|].
    rewrite Hp in Ht. exact Ht. }
  rewrite Hu. unfold trimEnd. by rewrite rev_involutive, trimStart_idem.
Qed.

End TrimFacts.

(** X15.  [setupTriggerDisplays] on a node with widgets, called once or
    several times in a row (the timers of [onNodeCreated], [nodeCreated] and
    [onConfigure] each call it): the display slots 1 to 5 are defined
    afterwards, a slot that showed a trigger keeps it and any other slot holds
    the empty string; keys other than 1 to 5, the cache and the requests are
    not touched; and every call wraps [onDrawForeground] once more, so that
    on a node with no wrapper before, a frame draws the pills as many times as
    [setupTriggerDisplays] was called. *)
Theorem setupTriggerDisplays_slots_and_layers
    (k : nat) (n : MultiLoraNode.Node) (st : MultiLora.State)
    (ws : list MultiLoraNode.Widget) :
  MultiLoraNode.widgets n = Some ws ->
  let nk := fst (setup_times (S k) n st) in
  let stk := snd (setup_times (S k) n st) in
  let d := MultiLora.triggerDisplays st in
  MultiLoraNode.widgets nk = Some ws
  /\ MultiLoraNode.drawLayers nk = MultiLoraNode.drawLayers n + S k
  /\ (forall i, i ∈ MultiLoraNode.slot_names ->
        MultiLora.triggerDisplays stk !! i
        = Some (if PlainObject.truthy str_truthy (d !! i) then default (Own []) (d !! i)
                else Own []))
  /\ (forall key, key ∉ MultiLoraNode.slot_names ->
        MultiLora.triggerDisplays stk !! key = d !! key)
  /\ MultiLora.triggerCache stk = MultiLora.triggerCache st
  /\ MultiLora.requests stk = MultiLora.requests st
  /\ (MultiLoraNode.drawLayers n = 0 ->
      MultiLoraNode.onDrawForeground nk stk
      = match MultiLoraNode.drawTriggers nk stk with
        | Returned ps => Returned (concat (replicate (S k) ps))
        | Threw e => Threw e
        end).
Proof.
  intros Hws.
  assert (Hk : forall k,
    MultiLoraNode.widgets (fst (setup_times (S k) n st)) = Some ws
    /\ MultiLoraNode.drawLayers (fst (setup_times (S k) n st))
       = MultiLoraNode.drawLayers n + S k
    /\ snd (setup_times (S k) n st)
       = MultiLora.with_triggerDisplays
           (fun d => foldl MultiLoraNode.init_slot d MultiLoraNode.slot_names) st).
  { clear k. intros k. induction k as [|k (IH1 & IH2 & IH3)].
    - cbn [setup_times fst snd]. unfold MultiLoraNode.setupTriggerDisplays. rewrite Hws.
      cbn [fst snd MultiLoraNode.widgets MultiLoraNode.drawLayers]. split_and!; [done|lia|done].
    - change (setup_times (S (S k)) n st)
        with (MultiLoraNode.setupTriggerDisplays (fst (setup_times (S k) n st))
                (snd (setup_times (S k) n st))).
      unfold MultiLoraNode.setupTriggerDisplays at 1 2 3. rewrite IH1.
      cbn [fst snd MultiLoraNode.widgets MultiLoraNode.drawLayers].
      split_and!; [done|lia|]. rewrite IH3. destruct st as [d0 dr tc rq cs].
      unfold MultiLora.with_triggerDisplays.
      cbn [MultiLora.triggerDisplays MultiLora.dirty MultiLora.triggerCache
           MultiLora.requests MultiLora.console].
      f_equal. apply PillFacts.setup_idempotent, PillFacts.slot_names_plain. }
  destruct (Hk k) as (H1 & H2 & H3). cbn zeta. rewrite H3.
  split; [exact H1|]. split; [exact H2|].
  replace (MultiLora.triggerDisplays (MultiLora.with_triggerDisplays _ st))
    with (foldl MultiLoraNode.init_slot (MultiLora.triggerDisplays st) MultiLoraNode.slot_names)
    by (by destruct st).
  split_and!.
  - intros i Hi. pose proof PillFacts.slot_names_plain as Hplain.
    rewrite Forall_forall in Hplain.
    destruct (PillFacts.setup_defined _ (MultiLora.triggerDisplays st) i Hi (Hplain i Hi))
      as (v & Hv & Hfalsy).
    assert (Hget : MultiLoraNode.display_get (MultiLora.triggerDisplays st) i
                   = MultiLora.triggerDisplays st !! i).
    { unfold MultiLoraNode.display_get. rewrite bool_decide_eq_false_2 by auto.
      by destruct (MultiLora.triggerDisplays st !! i). }
    rewrite Hget in Hfalsy.
    destruct (PlainObject.truthy str_truthy (MultiLora.triggerDisplays st !! i)) eqn:E.
    + rewrite PillFacts.setup_lookup by (right; by rewrite Hget).
      by destruct (MultiLora.triggerDisplays st !! i).
    + by rewrite Hv, Hfalsy.
  - intros key Hkey. apply PillFacts.setup_lookup. by left.
  - by destruct st.
  - by destruct st.
  - intros H0. unfold MultiLoraNode.onDrawForeground. rewrite H2, H0.
    apply PillFacts.layers_result.
Qed.

(** X16.  The pill beside a LoRA combo follows the lookup made for it.
    For a combo widget whose name begins with [lora_] and that has been drawn
    at height [y]: after a lookup for it that is answered with a trigger word
    the pill shows the trimmed word at [y]; after a lookup for the empty
    choice or ["None"] no pill is drawn; and the pill of a widget with another
    slot number is what it was before the lookup. *)
Theorem pill_follows_lookup
    (net : Network) (w : MultiLoraNode.Widget) (y : number) (x tw : jsstring)
    (st : MultiLora.State) :
  starts_with (js "lora_") (MultiLoraNode.name w) = true ->
  MultiLoraNode.type w = js "combo" ->
  MultiLoraNode.last_y w = Some y ->
  let st1 := snd (MultiLora.fetchTriggerWord_await net (MultiLoraNode.name w) x st) in
  (str_truthy x = true -> x <> js "None" ->
   cache_hit (MultiLora.triggerCache st) x = None ->
   net (length (MultiLora.requests st)) (trigger_request x) = trigger_response tw ->
   str_truthy (trim tw) = true ->
   MultiLoraNode.pill_for (MultiLora.triggerDisplays st1) w
   = Returned (Some {| MultiLoraNode.pill_text := trim tw; MultiLoraNode.pill_y := y |}))
  /\ (x = [] \/ x = js "None" ->
      MultiLoraNode.pill_for (MultiLora.triggerDisplays st1) w = Returned None)
  /\ (forall w' : MultiLoraNode.Widget,
        MultiLora.slot_key (MultiLoraNode.name w') <> MultiLora.slot_key (MultiLoraNode.name w) ->
        MultiLoraNode.pill_for (MultiLora.triggerDisplays st1) w'
        = MultiLoraNode.pill_for (MultiLora.triggerDisplays st) w').
Proof.
  intros Hname Htype Hy st1. split_and!.
  - intros Hx Hnone Hmiss Hnet Htw.
    assert (Hw : str_truthy tw = true) by (by destruct tw).
    subst st1. unfold MultiLora.fetchTriggerWord_await. run_M.
    rewrite (MultiRetryFacts.multi_start_uncached _ x st Hx Hnone Hmiss).
    rewrite Hnet. unfold trigger_response.
    match goal with
    | |- context [MultiLora.fetchTriggerWord_resume _ _ _ ?s] =>
        destruct (MultiTriggerFacts.multi_resume_trigger (MultiLoraNode.name w) x tw
                    (JObj [(js "trigger_word", JStr tw)]) s eq_refl Hw)
          as (s1 & -> & _ & K & _)
    end.
    cbn [snd]. rewrite K. unfold MultiLoraNode.pill_for, MultiLoraNode.display_get.
    rewrite Hname, Htype, str_eqb_refl, Hy, lookup_insert_eq. cbn [andb PlainObject.truthy].
    rewrite Htw, TrimFacts.trim_idem. by rewrite Htw.
  - intros Hx. subst st1. unfold MultiLora.fetchTriggerWord_await. run_M.
    destruct (MultiTriggerFacts.multi_start_sentinel (MultiLoraNode.name w) x st Hx)
      as (s1 & -> & K & _).
    cbn [snd]. rewrite K. unfold MultiLoraNode.pill_for, MultiLoraNode.display_get.
    rewrite Hname, Htype, str_eqb_refl, Hy, lookup_insert_eq. done.
  - intros w' Hw'.
    assert (Hd : MultiLora.triggerDisplays st1 !! MultiLora.slot_key (MultiLoraNode.name w')
                 = MultiLora.triggerDisplays st !! MultiLora.slot_key (MultiLoraNode.name w')).
    { subst st1. unfold MultiLora.fetchTriggerWord_await, MultiLora.fetchTriggerWord_start,
        MultiLora.fetchTriggerWord_resume, MultiLora.set_display, MultiLora.setDirtyCanvas.
      run_M.
      destruct (negb (str_truthy x) || str_eqb x (js "None")).
      { cbn. by rewrite lookup_insert_ne. }
      assert (Hres : forall r s,
        MultiLora.triggerDisplays s !! MultiLora.slot_key (MultiLoraNode.name w')
        = MultiLora.triggerDisplays st !! MultiLora.slot_key (MultiLoraNode.name w') ->
        MultiLora.triggerDisplays (snd (MultiLora.fetchTriggerWord_resume
                                          (MultiLoraNode.name w) x r s))
          !! MultiLora.slot_key (MultiLoraNode.name w')
        = MultiLora.triggerDisplays st !! MultiLora.slot_key (MultiLoraNode.name w')).
      { intros r s Hs. unfold MultiLora.fetchTriggerWord_resume, MultiLora.set_display,
          MultiLora.setDirtyCanvas. run_M.
        destruct r as [|[okb body]]; cbn [ok json]; [done|].
        destruct okb; [|done].
        destruct body as [data|e]; [|done].
        destruct (get_prop data (js "trigger_word")) as [t|e]; [|done].
        destruct (opt_truthy t); [|done].
        destruct t as [[|b|num|s0|items|props]|]; try done.
        cbn. by rewrite lookup_insert_ne. }
      unfold MultiLora.fetchTriggerWord_resume, MultiLora.set_display,
        MultiLora.setDirtyCanvas in Hres. run_M.
      destruct (PlainObject.get (MultiLora.triggerCache st) x) as [v|] eqn:Hget.
      - destruct (PlainObject.truthy str_truthy (Some v)).
        + cbn. by rewrite lookup_insert_ne.
        + apply Hres. done.
      - apply Hres. done. }
    unfold MultiLoraNode.pill_for, MultiLoraNode.display_get. by rewrite Hd.
Qed.

(* ===================================================================== *)
(** * Further properties: the display of the selected prompt *)
(* ===================================================================== *)

(** X17.  The display text that is saved with a workflow is never what a
    loaded node shows: whatever [selectedDisplay] the saved object carries,
    [onConfigure] leaves the node as [updateSelectedDisplayFromWidgets] alone
    does, the display being computed from the prompt and category widgets. *)
Theorem onConfigure_ignores_saved_display
    (selectedDisplay : option Json) (st : PromptNode.State) :
  PromptNode.onConfigure selectedDisplay st = PromptNode.updateSelectedDisplayFromWidgets st.
Proof.
  unfold PromptNode.onConfigure.
  destruct selectedDisplay as [v|]; [|done].
  destruct (PromptNode.selectedWidget st) as [old|] eqn:Hsel; [|done].
  destruct (json_truthy v); [|done].
  unfold PromptNode.updateSelectedDisplayFromWidgets, PromptNode.set_selected.
  destruct st as [pw iw cw sw dr dl]. cbn in *. subst sw. cbn.
  destruct pw as [[|c t]|]; done.
Qed.

(** X18.  What a node shows for a selection, and what it shows for the
    same selection once it is recomputed from the widgets (as after loading).
    [selectPrompt] shows the category in brackets and the first 80 code units
    of the text, followed by three dots when the text is longer.  Recomputed,
    the display is the same when neither the text nor the category is empty;
    with an empty category the brackets are gone, and with an empty text the
    display says that no prompt is selected. *)
Theorem selected_display_recomputed
    (prompt : PromptNode.Prompt) (st : PromptNode.State) (p c : jsstring) (d : Json) :
  PromptNode.promptWidget st = Some p ->
  PromptNode.categoryWidget st = Some c ->
  PromptNode.selectedWidget st = Some d ->
  let st1 := PromptNode.selectPrompt prompt st in
  let st2 := PromptNode.updateSelectedDisplayFromWidgets st1 in
  let shown := PromptNode.preview (PromptNode.text prompt) in
  PromptNode.selectedWidget st1
  = Some (JStr (js "[" ++ PromptNode.category prompt ++ js "] " ++ shown))
  /\ length shown <= 83
  /\ PromptNode.selectedWidget st2
     = Some (JStr (if str_truthy (PromptNode.text prompt)
                   then if str_truthy (PromptNode.category prompt)
                        then js "[" ++ PromptNode.category prompt ++ js "] " ++ shown
                        else shown
                   else js "(no prompt selected)"))
  /\ PromptNode.promptWidget st2 = Some (PromptNode.text prompt)
  /\ PromptNode.categoryWidget st2 = Some (PromptNode.category prompt).
Proof.
  intros Hp Hc Hd st1 st2 shown. subst st1 st2 shown.
  destruct prompt as [i cat txt]. destruct st as [pw iw cw sw dr dl].
  cbn in Hp, Hc, Hd. subst pw cw sw.
  unfold PromptNode.updateSelectedDisplayFromWidgets, PromptNode.selectPrompt,
    PromptNode.set_selected, PromptNode.labelled.
  cbn [PromptNode.selectedWidget PromptNode.promptWidget PromptNode.categoryWidget
       PromptNode.text PromptNode.category option_map].
  split; [done|]. split.
  { unfold PromptNode.preview. destruct (Nat.ltb_spec 80 (length txt)); [|lia].
    rewrite length_app, length_take. change (length (js "...")) with 3. lia. }
  destruct txt as [|c0 t]; [done|]. destruct cat as [|d0 cat']; done.
Qed.

(* ===================================================================== *)
(** * Further properties: a row added after a deletion *)
(* ===================================================================== *)

(** X19.  A row added after a deletion shows a trigger that is not its
    own.  When a row other than the last is deleted from saved rows and a row
    is then added, both handlers return; the new row, which has no LoRA, sits
    at the index the old last row had, the display entry at that index is
    still the one of the old last row, and the badge of the new row shows
    it. *)
Theorem added_row_shows_stale_trigger
    (rs : list Row) (index : nat) (t : slot jsstring) (st : PowerLora.State) :
  PowerLora.loraRows (PowerLora.node st) = rows_json rs ->
  index < length rs - 1 ->
  PowerLora.triggerDisplays (PowerLora.node st) !! (length rs - 1) = Some t ->
  exists st1 st2,
    PowerLora.deleteBtn_onclick index st = (Returned tt, st1)
    /\ PowerLora.addBtn_onclick st1 = (Returned tt, st2)
    /\ PowerLora.loraRows (PowerLora.node st2)
       = rows_json (delete index rs
                    ++ [{| lora := []; strength := Number.one; on := true |}])
    /\ PowerLora.triggerDisplays (PowerLora.node st2) !! (length rs - 1) = Some t
    /\ PowerLora.badges st2 !! (length rs - 1) = Some (badge_of (Some t)).
Proof.
  intros Hrows Hidx Hshown. unfold rows_json in Hrows.
  assert (Hnn : Forall (fun row => row <> JNull) (map row_json rs)).
  { apply Forall_forall. intros x Hx. apply list_elem_of_fmap in Hx as (r & -> & _). done. }
  assert (Hlen : length (delete index rs) = length rs - 1).
  { rewrite length_delete; [done|]. apply lookup_lt_is_Some. lia. }
  destruct (RowFacts.deleteBtn_onclick_display st _ index Hrows Hnn) as (st1 & Hdel & H1 & H2).
  assert (Hmap : delete index (map row_json rs) = map row_json (delete index rs)).
  { clear. revert index. induction rs as [|r rs IH]; intros [|i]; cbn; try done.
    f_equal. apply IH. }
  rewrite Hmap in H1, H2.
  assert (Hd1 : PowerLora.triggerDisplays (PowerLora.node st1) !! (length rs - 1) = Some t).
  { rewrite H2 by (rewrite length_map; lia). rewrite lookup_delete_ne by lia. exact Hshown. }
  exists st1. unfold PowerLora.addBtn_onclick. run_M. rewrite H1.
  match goal with
  | |- context [PowerLora.syncToWidget ?s] =>
      destruct (StoreFacts.syncToWidget_frame s) as (sd & -> & Hs1 & _ & Hs3 & _)
  end.
  cbn [PowerLora.node PowerLora.with_node PowerLora.loraRows PowerLora.set_loraRows
       PowerLora.triggerDisplays] in Hs1, Hs3.
  change (map row_json (delete index rs) ++ [PowerLora.new_row])
    with (map row_json (delete index rs)
          ++ map row_json [{| lora := []; strength := Number.one; on := true |}]) in Hs1.
  rewrite <- map_app in Hs1.
  unfold PowerLora.renderRows. run_M. cbn [PowerLora.node PowerLora.with_badges]. rewrite Hs1.
  destruct (RenderFacts.render_rows
              (delete index rs ++ [{| lora := []; strength := Number.one; on := true |}]) 0
              (PowerLora.with_badges (fun _ => []) sd) eq_refl)
    as (se & Hrun & _ & _ & _ & _ & _ & _ & _ & _ & Hrow).
  pose proof (HandlerFacts.renderRows_forEach_store
                (map row_json (delete index rs
                   ++ [{| lora := []; strength := Number.one; on := true |}])) 0
                (PowerLora.with_badges (fun _ => []) sd)) as [_ Hrows_e].
  rewrite Hrun in Hrows_e |- *. cbn [snd] in Hrows_e.
  replace (PowerLora.loraRows (PowerLora.node (PowerLora.with_badges (fun _ => []) sd)))
    with (PowerLora.loraRows (PowerLora.node sd)) in Hrows_e by (by destruct sd).
  rewrite Hs1 in Hrows_e.
  destruct (Hrow (length rs - 1) {| lora := []; strength := Number.one; on := true |})
    as [_ Hstale].
  { rewrite lookup_app_r by lia. by rewrite Hlen, Nat.sub_diag. }
  destruct Hstale as [He1 He2]; [by left|]. cbn [plus] in He1, He2.
  replace (PowerLora.triggerDisplays (PowerLora.node (PowerLora.with_badges (fun _ => []) sd)))
    with (PowerLora.triggerDisplays (PowerLora.node sd)) in He1, He2 by (by destruct sd).
  rewrite Hs3, Hd1 in He1, He2.
  unfold PowerLora.updateNodeSize, PowerLora.setDirtyCanvas. run_M. rewrite Hrows_e.
  eexists. split; [exact Hdel|]. split; [reflexivity|].
  destruct se as [[ws rows ll td h g d] tc bs rq pd cs pg]. cbn in Hrows_e, He1, He2 |- *.
  by destruct g.
Qed.

(* ===================================================================== *)
(** * Further properties: the first rendering *)
(* ===================================================================== *)

Module CreateFacts.
Import PowerLora PowerLoraUI.

(** What rendering one row into a container outside the document does. *)
Lemma create_row (r : Row) (rest : list Json) (k : nat) (acc : list Badge) (st : State) :
  badges st = [] ->
  exists st1,
    createUI_forEach (row_json r :: rest) k acc st
    = createUI_forEach rest (S k) (acc ++ [badge_of (triggerDisplays (node st) !! k)]) st1
    /\ badges st1 = []
    /\ triggerCache st1 = triggerCache st
    /\ loraRows (node st1) = loraRows (node st)
    /\ requests st1
       = requests st ++ map request_of (lookups_from (triggerCache st) k [r])
    /\ (forall j, j <> k ->
          triggerDisplays (node st1) !! j = triggerDisplays (node st) !! j)
    /\ triggerDisplays (node st1) !! k
       = match (if wants_trigger r then cache_hit (triggerCache st) (lora r) else None) with
         | Some t => Some t
         | None => triggerDisplays (node st) !! k
         end.
Proof.
  intros Hb. cbn [createUI_forEach]. unfold createRowElement. run_M.
  rewrite RenderFacts.get_prop_row_on, RenderFacts.get_prop_row_lora.
  change (json_truthy (JStr (lora r)) && negb (is_str (JStr (lora r)) (js "None")))
    with (wants_trigger r).
  cbn [lookups_from]. rewrite app_nil_r.
  change {| textContent :=
              if PlainObject.truthy str_truthy (triggerDisplays (node st) !! k)
              then default (Own []) (triggerDisplays (node st) !! k) else Own [];
            hidden := negb (PlainObject.truthy str_truthy (triggerDisplays (node st) !! k)) |}
    with (badge_of (triggerDisplays (node st) !! k)).
  destruct (wants_trigger r) eqn:Hw.
  - apply RenderFacts.wants_trigger_spec in Hw as [Hx Hnone].
    rewrite (RenderFacts.fetchTriggerWord_wanted _ _ _ Hx Hnone).
    unfold cache_hit in *.
    destruct (PlainObject.truthy str_truthy (PlainObject.get (triggerCache st) (lora r)))
      eqn:Htr.
    + destruct (PlainObject.get (triggerCache st) (lora r)) as [t|] eqn:Hget; [|done].
      unfold set_display. run_M. cbn [snd]. run_update. cbn [snd].
      exists su. split; [reflexivity|].
      rewrite Hu_node, Hu_cache, Hu_req.
      assert (Hnil : badges su = []).
      { apply nil_length_inv. rewrite Hu_len. by destruct st as [[]]; cbn in *; subst. }
      destruct st as [[ws rows ll td h g d] tc bs rq pd cs pg]. cbn in Hb |- *. subst bs.
      rewrite ?app_nil_r. split_and!; try done.
      * intros j Hj. by rewrite lookup_insert_ne.
      * by rewrite lookup_insert_eq.
    + eexists. split; [reflexivity|].
      destruct st as [[ws rows ll td h g d] tc bs rq pd cs pg]. cbn in Hb |- *. subst bs.
      split_and!; done.
  - eexists. split; [reflexivity|].
    destruct st as [[ws rows ll td h g d] tc bs rq pd cs pg]. cbn in Hb |- *. subst bs.
    rewrite ?app_nil_r. split_and!; done.
Qed.

Lemma create_rows (rs : list Row) (k : nat) (acc : list Badge) (st : State) :
  badges st = [] ->
  exists container st',
    createUI_forEach (map row_json rs) k acc st = (Returned container, st')
    /\ badges st' = []
    /\ triggerCache st' = triggerCache st
    /\ loraRows (node st') = loraRows (node st)
    /\ requests st'
       = requests st ++ map request_of (lookups_from (triggerCache st) k rs)
    /\ length container = length acc + length rs
    /\ (forall j, j < length acc -> container !! j = acc !! j)
    /\ (forall j, j < k ->
          triggerDisplays (node st') !! j = triggerDisplays (node st) !! j)
    /\ (forall i r, rs !! i = Some r ->
          container !! (length acc + i)
          = Some (badge_of (triggerDisplays (node st) !! (k + i)))
          /\ triggerDisplays (node st') !! (k + i)
             = match (if wants_trigger r then cache_hit (triggerCache st) (lora r)
                      else None) with
               | Some t => Some t
               | None => triggerDisplays (node st) !! (k + i)
               end).
Proof.
  revert k acc st. induction rs as [|r rest IH]; intros k acc st Hb.
  { exists acc, st. cbn [map createUI_forEach lookups_from length]. rewrite !app_nil_r.
    split_and!; try done; lia. }
  cbn [map]. destruct (create_row r (map row_json rest) k acc st Hb)
    as (st1 & -> & Hb1 & Hc & Hrows & Hrq & Htd & Hk).
  destruct (IH (S k) (acc ++ [badge_of (triggerDisplays (node st) !! k)]) st1 Hb1)
    as (container & st' & Hrun & Gb & Gc & Grows & Grq & Glen & Gacc & Gtd & Grow).
  rewrite Hc in *. rewrite length_app in Glen, Gacc, Grow. cbn [length] in Glen, Gacc, Grow.
  exists container, st'. split; [exact Hrun|].
  rewrite RenderFacts.lookups_from_cons, map_app.
  split_and!; try congruence.
  - rewrite Grq, Hrq. by rewrite app_assoc.
  - cbn [length]. lia.
  - intros j Hj. rewrite Gacc by lia. by rewrite lookup_app_l.
  - intros j Hj. rewrite Gtd by lia. apply Htd. lia.
  - intros [|i] r' Hi.
    + injection Hi as <-. rewrite !Nat.add_0_r. split.
      * rewrite Gacc by lia. rewrite lookup_app_r by lia. by rewrite Nat.sub_diag.
      * rewrite Gtd by lia. exact Hk.
    + cbn in Hi. destruct (Grow i r' Hi) as [G1 G2].
      replace (length acc + S i) with (length acc + 1 + i) by lia.
      replace (k + S i) with (S k + i) by lia.
      rewrite <- (Htd (S k + i)) by lia. split; [exact G1 | exact G2].
Qed.

End CreateFacts.

(** X20.  The first rendering does not show cached triggers.  [createUI]
    renders the rows into a container that is in no document yet, so a trigger
    found in the cache goes to the display entry of its row and not to the
    badge: every badge shows the display entry that its index had before
    [createUI] ran (none on a node just loaded), until the rows are rendered
    again.  The requests are those of [renderRows], and the node is resized
    to the number of rows. *)
Theorem createUI_badges_are_snapshots (rs : list Row) (st : PowerLora.State) :
  PowerLora.loraRows (PowerLora.node st) = rows_json rs ->
  exists st',
    PowerLoraUI.createUI st = (Returned tt, st')
    /\ length (PowerLora.badges st') = length rs
    /\ PowerLora.requests st'
       = PowerLora.requests st
         ++ map request_of (lookups_from (PowerLora.triggerCache st) 0 rs)
    /\ PowerLora.height (PowerLora.node st')
       = Some (Z.max (100 + Z.of_nat (length rs) * 36) 120)
    /\ (forall i r, rs !! i = Some r ->
          PowerLora.badges st' !! i
          = Some (badge_of (PowerLora.triggerDisplays (PowerLora.node st) !! i))
          /\ PowerLora.triggerDisplays (PowerLora.node st') !! i
             = match (if wants_trigger r
                      then cache_hit (PowerLora.triggerCache st) (lora r) else None) with
               | Some t => Some t
               | None => PowerLora.triggerDisplays (PowerLora.node st) !! i
               end).
Proof.
  intros Hrows. unfold PowerLoraUI.createUI. run_M.
  cbn [PowerLora.node PowerLora.with_badges]. rewrite Hrows. unfold rows_json.
  destruct (CreateFacts.create_rows rs 0 [] (PowerLora.with_badges (fun _ => []) st) eq_refl)
    as (container & se & -> & Hb & Hc & Hr & Hrq & Hlen & _ & _ & Hrow).
  unfold PowerLora.updateNodeSize, PowerLora.setDirtyCanvas. run_M.
  cbn [PowerLora.node PowerLora.with_badges]. rewrite Hr.
  replace (PowerLora.loraRows (PowerLora.node (PowerLora.with_badges (fun _ => []) st)))
    with (PowerLora.loraRows (PowerLora.node st)) by (by destruct st).
  rewrite Hrows. unfold rows_json.
  eexists. split; [reflexivity|].
  replace (PowerLora.triggerCache (PowerLora.with_badges (fun _ => []) st))
    with (PowerLora.triggerCache st) in * by (by destruct st).
  replace (PowerLora.requests (PowerLora.with_badges (fun _ => []) st))
    with (PowerLora.requests st) in * by (by destruct st).
  assert (Hdisp : PowerLora.triggerDisplays
                    (PowerLora.node (PowerLora.with_badges (fun _ => []) st))
                  = PowerLora.triggerDisplays (PowerLora.node st)) by (by destruct st).
  rewrite length_map. rewrite Hdisp in Hrow. cbn [length plus] in Hlen, Hrow.
  destruct se as [[ws rows ll td h g d] tc bs rq pd cs pg]. cbn in Hb, Hc, Hr, Hrq.
  split_and!.
  - by destruct g.
  - by destruct g.
  - by destruct g.
  - intros i r Hi. destruct (Hrow i r Hi) as [H1 H2]. by destruct g.
Qed.

(* ===================================================================== *)
(** * The further properties at work *)
(* ===================================================================== *)

Lemma handlers_keep_widget_in_sync_witness :
  in_sync two_loras_state
  /\ in_sync (snd (run_handler (PickLora 1 (js "c.safetensors")) two_loras_state)).
Proof.
  assert (H : in_sync two_loras_state) by (vm_compute; reflexivity).
  split; [exact H|]. exact (handlers_keep_widget_in_sync _ _ H).
Defined.

Lemma renderRows_one_lookup_per_uncached_row_witness :
  exists st',
    PowerLora.renderRows two_loras_state = (Returned tt, st')
    /\ PowerLora.requests st'
       = PowerLora.requests two_loras_state
         ++ map request_of (lookups_from (PowerLora.triggerCache two_loras_state) 0 two_loras)
    /\ PowerLora.pending st'
       = PowerLora.pending two_loras_state
         ++ lookups_from (PowerLora.triggerCache two_loras_state) 0 two_loras
    /\ PowerLora.triggerCache st' = PowerLora.triggerCache two_loras_state
    /\ length (PowerLora.badges st') = length two_loras.
Proof. exact (renderRows_one_lookup_per_uncached_row two_loras two_loras_state eq_refl). Defined.

Lemma renderRows_badges_witness :
  PowerLora.triggerDisplays (PowerLora.node (snd (PowerLora.renderRows first_row_deleted))) !! 0
  = Some (Own (js "tb"))
  /\ PowerLora.badges (snd (PowerLora.renderRows first_row_deleted)) !! 0
     = Some (badge_of None)
  /\ PowerLora.badges (snd (PowerLora.renderRows two_loras_shown)) !! 0
     = Some {| PowerLora.textContent := Own (js "ta"); PowerLora.hidden := false |}.
Proof.
  pose proof (renderRows_badges
                [{| lora := js "b.safetensors"; strength := Number.one; on := true |}]
                first_row_deleted 0
                {| lora := js "b.safetensors"; strength := Number.one; on := true |}
                ltac:(vm_compute; reflexivity) eq_refl) as H.
  pose proof (renderRows_badges two_loras two_loras_shown 0
                {| lora := js "a.safetensors"; strength := Number.one; on := true |}
                ltac:(vm_compute; reflexivity) eq_refl) as G.
  cbv zeta in H, G.
  replace (if wants_trigger _ then cache_hit _ _ else None)
    with (Some (Own (js "tb"))) in H by (vm_compute; reflexivity).
  replace (if wants_trigger _ then cache_hit _ _ else None)
    with (Some (Own (js "ta"))) in G by (vm_compute; reflexivity).
  destruct H as [H1 H2]. destruct G as [_ G2].
  split; [exact H1|]. split.
  - etransitivity; [exact H2|]. vm_compute. reflexivity.
  - etransitivity; [exact G2|]. vm_compute. reflexivity.
Defined.

(** Deleting the first of two rows on a page where another node of this
    kind comes first: the trigger of the row that moves up is written into the
    badge of the other node, and the badge of the row itself stays hidden. *)
Example delete_behind_another_node :
  let st' := snd (PowerLora.deleteBtn_onclick 0 behind_another_node) in
  PowerLora.triggerDisplays (PowerLora.node st') !! 0 = Some (Own (js "tb"))
  /\ PowerLora.badges st' !! 0 = Some (badge_of None)
  /\ PowerLora.ahead (PowerLora.page st')
     = [(0, {| PowerLora.textContent := Own (js "tb"); PowerLora.hidden := false |})].
Proof. vm_compute. repeat split; reflexivity. Qed.


Lemma pick_without_trigger_keeps_display_witness :
  exists st1 st2,
    PowerLoraUI.item_onclick 0 (js "c.safetensors") two_loras_shown = (Returned tt, st1)
    /\ PowerLora.resolve 0 Rejected st1 = (Returned tt, st2)
    /\ PowerLora.triggerDisplays (PowerLora.node st2) !! 0 = Some (Own (js "ta")).
Proof.
  destruct (pick_without_trigger_keeps_display two_loras_shown (map row_json two_loras) 0
              [(js "lora", JStr (js "a.safetensors")); (js "strength", JNum Number.one);
               (js "on", JBool true)]
              (js "c.safetensors") Rejected
              ltac:(vm_compute; reflexivity) eq_refl eq_refl ltac:(discriminate)
              ltac:(vm_compute; reflexivity) eq_refl)
    as (st1 & st2 & H1 & H2 & _ & _ & H5 & _).
  exists st1, st2. split; [exact H1|]. split; [exact H2|].
  rewrite H5. vm_compute. reflexivity.
Defined.

Lemma late_response_after_none_witness :
  exists st1 st2 st3 row,
    PowerLoraUI.item_onclick 0 (js "c.safetensors") two_loras_state = (Returned tt, st1)
    /\ PowerLoraUI.noneItem_onclick 0 st1 = (Returned tt, st2)
    /\ PowerLora.resolve (length (PowerLora.pending two_loras_state))
         (trigger_response (js " spark ")) st2 = (Returned tt, st3)
    /\ PowerLora.loraRows (PowerLora.node st3) = JArr (<[0 := row]> (map row_json two_loras))
    /\ get_prop row (js "lora") = Returned (Some (JStr []))
    /\ PowerLora.triggerDisplays (PowerLora.node st3) !! 0 = Some (Own (trim (js " spark ")))
    /\ PowerLora.requests st3
       = PowerLora.requests two_loras_state ++ [trigger_request (js "c.safetensors")].
Proof.
  exact (late_response_after_none two_loras_state (map row_json two_loras) 0
           [(js "lora", JStr (js "a.safetensors")); (js "strength", JNum Number.one);
            (js "on", JBool true)]
           (js "c.safetensors") (js " spark ")
           eq_refl eq_refl eq_refl ltac:(discriminate)
           ltac:(vm_compute; reflexivity) eq_refl).
Defined.

Lemma toggle_onclick_twice_witness :
  exists st1 st2 props1,
    PowerLoraUI.toggle_onclick 0 two_loras_state = (Returned tt, st1)
    /\ PowerLoraUI.toggle_onclick 0 st1 = (Returned tt, st2)
    /\ PowerLora.loraRows (PowerLora.node st1)
       = JArr (<[0 := JObj props1]> (map row_json two_loras))
    /\ assoc_get props1 (js "on") = Some (JBool (negb true))
    /\ (forall k, k <> js "on" ->
          assoc_get props1 k
          = assoc_get [(js "lora", JStr (js "a.safetensors")); (js "strength", JNum Number.one);
                       (js "on", JBool true)] k)
    /\ PowerLora.loraRows (PowerLora.node st2) = JArr (map row_json two_loras).
Proof.
  exact (toggle_onclick_twice two_loras_state (map row_json two_loras) 0
           [(js "lora", JStr (js "a.safetensors")); (js "strength", JNum Number.one);
            (js "on", JBool true)] true
           eq_refl eq_refl ltac:(vm_compute; reflexivity)).
Defined.

Lemma unanswered_lookup_asks_again_witness :
  exists st1 st2,
    PowerLora.fetchTriggerWord_await (fun _ _ => trigger_response (js "  ")) 0
      (JStr (js "a.safetensors")) two_loras_state = (Returned tt, st1)
    /\ PowerLora.fetchTriggerWord_await (fun _ _ => trigger_response (js "  ")) 0
         (JStr (js "a.safetensors")) st1 = (Returned tt, st2)
    /\ cache_hit (PowerLora.triggerCache st1) (js "a.safetensors") = None
    /\ PowerLora.requests st2
       = PowerLora.requests two_loras_state
         ++ [trigger_request (js "a.safetensors"); trigger_request (js "a.safetensors")].
Proof.
  apply (unanswered_lookup_asks_again (fun _ _ => trigger_response (js "  ")) 0
           (js "a.safetensors") two_loras_state eq_refl ltac:(discriminate)
           ltac:(vm_compute; reflexivity)).
  right. exists (js "  "). split; [reflexivity|]. split; vm_compute; reflexivity.
Defined.

Lemma loadLoraList_takes_first_list_witness :
  PowerLoraUI.loadLoraList
    (Resolved {| ok := true; json := Returned (JObj object_info) |})
    {| PowerLoraUI.loraListValue := JArr []; PowerLoraUI.listConsole := [] |}
  = (Returned tt,
     {| PowerLoraUI.loraListValue :=
          JArr [JStr (js "a.safetensors"); JStr (js "b.safetensors")];
        PowerLoraUI.listConsole := [] |}).
Proof.
  refine (loadLoraList_takes_first_list object_info
           [JObj [(js "input", JObj [(js "required", JObj [])])]] []
           _ _ [JStr (js "a.safetensors"); JStr (js "b.safetensors")] []
           {| PowerLoraUI.loraListValue := JArr []; PowerLoraUI.listConsole := [] |}
           eq_refl _ eq_refl _).
  - constructor; [|constructor]. eexists. split; vm_compute; reflexivity.
  - vm_compute. reflexivity.
Defined.

Lemma loadLoraList_never_empty_witness :
  exists st',
    PowerLoraUI.loadLoraList Rejected
      {| PowerLoraUI.loraListValue := JArr []; PowerLoraUI.listConsole := [] |}
    = (Returned tt, st')
    /\ PowerLoraUI.loraListValue st' = JArr [JStr (js "None")].
Proof.
  destruct (loadLoraList_never_empty Rejected
              {| PowerLoraUI.loraListValue := JArr []; PowerLoraUI.listConsole := [] |}
              ltac:(discriminate)) as (st' & Hrun & _ & Hfall).
  exists st'. split; [exact Hrun|]. apply Hfall; reflexivity.
Defined.

Lemma multi_unanswered_lookup_asks_again_witness :
  exists st1 st2,
    MultiLora.fetchTriggerWord_await (fun _ _ => Rejected) (js "lora_1")
      (js "a.safetensors") multi_state = (Returned tt, st1)
    /\ MultiLora.fetchTriggerWord_await (fun _ _ => Rejected) (js "lora_1")
         (js "a.safetensors") st1 = (Returned tt, st2)
    /\ cache_hit (MultiLora.triggerCache st1) (js "a.safetensors") = None
    /\ MultiLora.requests st2
       = MultiLora.requests multi_state
         ++ [trigger_request (js "a.safetensors"); trigger_request (js "a.safetensors")].
Proof.
  apply (multi_unanswered_lookup_asks_again (fun _ _ => Rejected) (js "lora_1")
           (js "a.safetensors") multi_state eq_refl ltac:(discriminate)
           ltac:(vm_compute; reflexivity)).
  left. reflexivity.
Defined.

Lemma failed_listing_not_cached_witness :
  fst (FolderLoader.fetchLorasInFolder (fun _ _ => Rejected) (js "styles") folder_state)
  = Returned (Own (JArr []))
  /\ FolderLoader.requests
       (snd (FolderLoader.fetchLorasInFolder (fun _ _ => Rejected) (js "styles")
               (snd (FolderLoader.fetchLorasInFolder (fun _ _ => Rejected) (js "styles")
                       folder_state))))
     = [LorasInFolder (js "styles"); LorasInFolder (js "styles")].
Proof.
  destruct (failed_listing_not_cached (fun _ _ => Rejected) (js "styles") folder_state
              ltac:(vm_compute; reflexivity) ltac:(intros _; reflexivity))
    as (H1 & _ & _ & H4 & H5).
  split; [exact H1|]. rewrite H5, H4. reflexivity.
Defined.

Lemma enhanced_display_roundtrip_witness :
  Enhancer.value
  <$> Enhancer.find_display
        (snd (Enhancer.onConfigure
                (Enhancer.onSerialize {| Enhancer.enhancedDisplayValue := None |}
                   (snd (Enhancer.onExecuted
                           (Some (JObj [(js "text", JArr [JStr (js "a cat, 85mm")])]))
                           enhancer_state)))
                enhancer_state))
  = Some (Some (JStr (js "a cat, 85mm"))).
Proof.
  destruct (enhanced_display_roundtrip
              (Some (JObj [(js "text", JArr [JStr (js "a cat, 85mm")])]))
              {| Enhancer.enhancedDisplayValue := None |} enhancer_state enhancer_state
              _ _ eq_refl eq_refl eq_refl) as (_ & _ & H).
  exact H.
Defined.

Lemma setupTriggerDisplays_slots_and_layers_witness :
  MultiLoraNode.drawLayers (fst (setup_times 3 multi_node multi_state)) = 3
  /\ MultiLoraNode.onDrawForeground (fst (setup_times 3 multi_node multi_state))
       (snd (setup_times 3 multi_node multi_state))
     = match MultiLoraNode.drawTriggers (fst (setup_times 3 multi_node multi_state))
               (snd (setup_times 3 multi_node multi_state)) with
       | Returned ps => Returned (concat (replicate 3 ps))
       | Threw e => Threw e
       end.
Proof.
  destruct (setupTriggerDisplays_slots_and_layers 2 multi_node multi_state [lora_1] eq_refl)
    as (_ & H2 & _ & _ & _ & _ & H7).
  split; [exact H2 | exact (H7 eq_refl)].
Defined.

Lemma pill_follows_lookup_witness :
  MultiLoraNode.pill_for
    (MultiLora.triggerDisplays
       (snd (MultiLora.fetchTriggerWord_await (fun _ _ => trigger_response (js " spark "))
               (js "lora_1") (js "a.safetensors") multi_state)))
    lora_1
  = Returned (Some {| MultiLoraNode.pill_text := trim (js " spark ");
                      MultiLoraNode.pill_y := Number.one |}).
Proof.
  destruct (pill_follows_lookup (fun _ _ => trigger_response (js " spark ")) lora_1
              Number.one (js "a.safetensors") (js " spark ") multi_state
              eq_refl eq_refl eq_refl) as (H & _).
  apply H; [reflexivity | discriminate | vm_compute; reflexivity | reflexivity
           | vm_compute; reflexivity].
Defined.

Lemma selected_display_recomputed_witness :
  PromptNode.selectedWidget
    (PromptNode.updateSelectedDisplayFromWidgets
       (PromptNode.selectPrompt sample_prompt prompt_state))
  = Some (JStr (js "[artistic] soft window light")).
Proof.
  destruct (selected_display_recomputed sample_prompt prompt_state [] []
              (JStr (js "(no prompt selected)")) eq_refl eq_refl eq_refl)
    as (_ & _ & H & _).
  rewrite H. vm_compute. reflexivity.
Defined.

Lemma added_row_shows_stale_trigger_witness :
  exists st1 st2,
    PowerLora.deleteBtn_onclick 0 two_loras_shown = (Returned tt, st1)
    /\ PowerLora.addBtn_onclick st1 = (Returned tt, st2)
    /\ PowerLora.badges st2 !! 1
       = Some {| PowerLora.textContent := Own (js "tb"); PowerLora.hidden := false |}.
Proof.
  destruct (added_row_shows_stale_trigger two_loras 0 (Own (js "tb")) two_loras_shown
              ltac:(vm_compute; reflexivity) ltac:(vm_compute; lia)
              ltac:(vm_compute; reflexivity))
    as (st1 & st2 & H1 & H2 & _ & _ & H5).
  exists st1, st2. split; [exact H1|]. split; [exact H2|]. exact H5.
Defined.

Lemma createUI_badges_are_snapshots_witness :
  exists st',
    PowerLoraUI.createUI
      (PowerLora.with_node (PowerLora.set_triggerDisplays ∅) two_loras_shown)
    = (Returned tt, st')
    /\ PowerLora.badges st' !! 0 = Some (badge_of None)
    /\ PowerLora.triggerDisplays (PowerLora.node st') !! 0 = Some (Own (js "ta")).
Proof.
  destruct (createUI_badges_are_snapshots two_loras
              (PowerLora.with_node (PowerLora.set_triggerDisplays ∅) two_loras_shown)
              ltac:(vm_compute; reflexivity))
    as (st' & Hrun & _ & _ & _ & Hrow).
  exists st'. split; [exact Hrun|].
  destruct (Hrow 0 {| lora := js "a.safetensors"; strength := Number.one; on := true |}
              eq_refl) as [H1 H2].
  split; (etransitivity; [eassumption|]); vm_compute; reflexivity.
Defined.
